(** * Home Assistant MCP server ([ha-mcp-server/index.js])

    A shallow embedding of the server script and the properties of its
    intelligence layer and of its request handlers.

    The development follows the layout of [index.js]:
    - JavaScript strings, the builtins of the runtime the script relies on
      (number parsing and printing, dates, case mapping), the wall clock;
    - entity states as [GET /states] returns them, typed by the fields the
      script reads ([SCHEMAS.entityState] and the attributes it inspects);
    - the intelligence layer: [detectAnomaly], [searchEntities],
      [getEntityRelationships], [checkConfigForDeprecations] over regular
      expression objects with their [lastIndex];
    - JSON values for tool arguments and the other payloads of the API;
    - the request handlers, in a state-and-exception monad: the state holds
      the module-level bindings of the script, a count of clock readings and
      the trace of what the script sent ([fetch]) and logged
      ([console.error]); the clock and the network are oracles;
    - an executable sample of the runtime and of a Home Assistant instance;
    - the properties. *)

From Stdlib Require Import PrimFloat Uint63 FloatOps FloatAxioms SpecFloat ZArith String Ascii List Bool Lia Permutation Sorted.
From stdpp Require Import base option list strings pretty.

Set Warnings "-register-all,-inexact-float,-abstract-large-number".

Local Open Scope string_scope.
Local Open Scope Z_scope.

(** ** JavaScript strings

    Strings are well-formed Unicode text held as UTF-8 bytes. *)

Module Str.

(** [s.startsWith(p)] *)
Definition startsWith (s p : string) : bool := String.prefix p s.

(** [s.includes(sub)] *)
Fixpoint includes (s sub : string) : bool :=
  String.prefix sub s
  || match s with
     | EmptyString => false
     | String _ s' => includes s' sub
     end.

(** [s.split(c)] for a one-character separator [c]; the result is never empty. *)
Fixpoint split (c : ascii) (s : string) : list string :=
  match s with
  | EmptyString => [EmptyString]
  | String a s' =>
      if Ascii.eqb a c then EmptyString :: split c s'
      else match split c s' with
           | x :: xs => String a x :: xs
           | [] => [String a EmptyString]
           end
  end.

(** [const [x] = s.split(c)] *)
Definition first_segment (c : ascii) (s : string) : string :=
  match split c s with
  | x :: _ => x
  | [] => EmptyString
  end.

(** [a.join(sep)] on an array of strings *)
Fixpoint join (sep : string) (l : list string) : string :=
  match l with
  | [] => EmptyString
  | [x] => x
  | x :: rest => x ++ sep ++ join sep rest
  end.

(** The double quote character, as a one-character string. *)
Definition dquote : string := String (ascii_of_nat 34) EmptyString.

(** The line feed character, as a one-character string. *)
Definition nl : string := String (ascii_of_nat 10) EmptyString.

End Str.

(** [x || d] on a possibly-undefined string: the empty string is falsy. *)
Definition str_or (x : option string) (d : string) : string :=
  match x with
  | Some s => if String.eqb s "" then d else s
  | None => d
  end.

(** [x === lit] where [x] is a string or [undefined] *)
Definition is_str (x : option string) (lit : string) : bool :=
  match x with
  | Some s => String.eqb s lit
  | None => false
  end.

(** Truthiness of a possibly-undefined string. *)
Definition truthy_str (x : option string) : bool :=
  match x with
  | Some s => negb (String.eqb s "")
  | None => false
  end.

(** ** The runtime interface

    Builtins of the JavaScript runtime whose results the script only passes
    on: decimal parsing and printing of doubles, date parsing, case mapping. *)

Class Host := {
  (** [parseFloat(s)] *)
  parseFloat : string -> float;
  (** [`${x}`] for a number [x] *)
  Number_toString : float -> string;
  (** [x.toFixed(1)] *)
  Number_toFixed1 : float -> string;
  (** [new Date(s).getTime()] *)
  Date_getTime : string -> float;
  (** [s.toLowerCase()] *)
  toLowerCase : string -> string;
  (** [Number(s)] for a string [s] *)
  StringToNumber : string -> float;
  (** the one-unit strings [s[0]], [s[1]], ... of a string *)
  String_units : string -> list string;
}.

(** One reading of the wall clock: [Date.now()] and [new Date().getHours()]. *)
Record Clock := {
  Date_now : float;
  getHours : Z;
}.

(** ** Entity states *)

Record Attributes := {
  friendly_name : option string;
  device_class : option string;
  battery_level : option float;
  unit_of_measurement : option string;
  device_id : option string;
  area_id : option string;
  last_triggered : option string;
}.

Record EntityState := {
  entity_id : string;
  state : string;
  attributes : option Attributes;
  last_changed : option string;
  last_updated : option string;
}.

(** [s.attributes?.f] *)
Definition attr {A} (f : Attributes -> option A) (s : EntityState) : option A :=
  attributes s ≫= f.

(** [const [domain] = entity_id.split(".")] *)
Definition domain_of (id : string) : string := Str.first_segment "." id.

(** ** Anomaly detection *)

Record Anomaly := {
  a_entity_id : string;
  reason : string;
  severity : string;
}.

(** First rule that fires: the body of [detectAnomaly] is a sequence of
    guarded early returns. *)
Definition or_else {A} (r : option A) (k : option A) : option A :=
  match r with
  | Some a => Some a
  | None => k
  end.

Notation "r 'orelse' k" := (or_else r k) (at level 60, right associativity).

Section Intelligence.
Context {H : Host}.

(** The default unit literal of the script, two code points before the [C]
    (bytes [C3 82 C2 B0 43]). *)
Definition default_unit : string :=
  String (ascii_of_nat 195) (String (ascii_of_nat 130)
    (String (ascii_of_nat 194) (String (ascii_of_nat 176) "C"))).

Definition detectAnomaly (now : Clock) (st : EntityState) : option Anomaly :=
  let entity_id := entity_id st in
  let value := state st in
  let domain := domain_of entity_id in
  (* Battery low *)
  (match attr battery_level st with
   | Some b =>
       if (b <? 20)%float
       then Some {| a_entity_id := entity_id;
                    reason := "Low battery (" ++ Number_toString b ++ "%)";
                    severity := "warning" |}
       else None
   | None => None
   end)
  orelse
  (* Temperature sensors out of normal range *)
  (if String.eqb domain "sensor" && is_str (attr device_class st) "temperature"
   then
     let temp := parseFloat value in
     if negb (is_nan temp) then
       let unit := str_or (attr unit_of_measurement st) default_unit in
       let isCelsius := Str.includes unit "C" in
       let normalMin := if isCelsius then (-10)%float else 14%float in
       let normalMax := if isCelsius then 50%float else 122%float in
       if (temp <? normalMin)%float || (normalMax <? temp)%float
       then Some {| a_entity_id := entity_id;
                    reason := "Unusual temperature: " ++ value ++ unit;
                    severity := "warning" |}
       else None
     else None
   else None)
  orelse
  (* Humidity out of range *)
  (if String.eqb domain "sensor" && is_str (attr device_class st) "humidity"
   then
     let humidity := parseFloat value in
     if negb (is_nan humidity)
        && ((humidity <? 10)%float || (95 <? humidity)%float)
     then Some {| a_entity_id := entity_id;
                  reason := "Unusual humidity: " ++ value ++ "%";
                  severity := "warning" |}
     else None
   else None)
  orelse
  (* Door/window sensors open for extended period *)
  (if String.eqb domain "binary_sensor"
      && (is_str (attr device_class st) "door"
          || is_str (attr device_class st) "window")
      && String.eqb value "on"
   then
     let lastChanged :=
       match last_changed st with
       | Some s => Date_getTime s
       | None => nan
       end in
     let hoursOpen := ((Date_now now - lastChanged) / 3600000)%float in
     if (4 <? hoursOpen)%float
     then Some {| a_entity_id := entity_id;
                  reason := "Open for " ++ Number_toFixed1 hoursOpen ++ " hours";
                  severity := "info" |}
     else None
   else None)
  orelse
  (* Lights on during day (basic heuristic) *)
  (if String.eqb domain "light" && String.eqb value "on"
   then
     let hour := getHours now in
     if (10 <=? hour) && (hour <=? 16)
     then Some {| a_entity_id := entity_id;
                  reason := "Light on during daytime";
                  severity := "info" |}
     else None
   else None).

End Intelligence.

(** The guards of the two rules of [detectAnomaly] that read the clock: an
    open door or window sensor, a light that is on. *)
Definition reads_clock (st : EntityState) : bool :=
  let domain := domain_of (entity_id st) in
  (String.eqb domain "binary_sensor"
   && (is_str (attr device_class st) "door"
       || is_str (attr device_class st) "window")
   && String.eqb (state st) "on")
  || (String.eqb domain "light" && String.eqb (state st) "on").

(** ** Arrays *)

(** [a.sort(cmp)]. The sort of the runtime is stable; for a comparator that
    ranks its arguments by a key, as both comparators of the script do, the
    outcome of every stable sort is the one of this insertion sort. *)
Fixpoint sort_insert {A} (cmp : A -> A -> Z) (x : A) (l : list A) : list A :=
  match l with
  | [] => [x]
  | y :: l' => if 0 <? cmp x y then y :: sort_insert cmp x l' else x :: l
  end.

Definition Array_sort {A} (cmp : A -> A -> Z) (l : list A) : list A :=
  foldr (sort_insert cmp) [] l.

(** A list is ranked by [key] when no element is followed, anywhere later,
    by one of a larger key. *)
Definition ranked {A} (key : A -> Z) (l : list A) : Prop :=
  StronglySorted (fun a b => key b <= key a) l.

(** [a.filter(Boolean)] on an array of objects and [null]s *)
Definition filter_Boolean {A} (l : list (option A)) : list A := omap id l.

(** [states.filter((s) => s.entity_id.startsWith(`${domain}.`))] *)
Definition filter_domain (domain : string) (states : list EntityState)
  : list EntityState :=
  List.filter (fun s => Str.startsWith (entity_id s) (domain ++ ".")) states.

Section Scan.
Context {H : Host}.

(** The comparator of the [detect_anomalies] tool. *)
Definition warning_first (a b : Anomaly) : Z :=
  (if String.eqb (severity b) "warning" then 1 else 0)
  - (if String.eqb (severity a) "warning" then 1 else 0).

(** [states.map(detectAnomaly)], the [i]-th evaluation reading the clock
    as [clk i]. *)
Definition map_detectAnomaly (clk : nat -> Clock) (states : list EntityState)
  : list (option Anomaly) :=
  imap (fun i s => detectAnomaly (clk i) s) states.

(** The [anomalies] array of the [detect_anomalies] tool. *)
Definition detect_anomalies_scan (clk : nat -> Clock) (states : list EntityState)
  : list Anomaly :=
  Array_sort warning_first (filter_Boolean (map_detectAnomaly clk states)).

End Scan.

(** ** White space

    [\s] of the regular expressions: the white space and line terminator code
    points, in their UTF-8 encodings. *)

Definition ws_width (s : string) : nat :=
  match s with
  | EmptyString => 0%nat
  | String a r1 =>
      let x := nat_of_ascii a in
      if ((9 <=? x)%nat && (x <=? 13)%nat) || (x =? 32)%nat then 1%nat
      else
        match r1 with
        | EmptyString => 0%nat
        | String b r2 =>
            let y := nat_of_ascii b in
            if (x =? 194)%nat && (y =? 160)%nat then 2%nat            (* U+00A0 *)
            else
              match r2 with
              | EmptyString => 0%nat
              | String c _ =>
                  let z := nat_of_ascii c in
                  if (x =? 225)%nat && (y =? 154)%nat && (z =? 128)%nat
                  then 3%nat                                          (* U+1680 *)
                  else if (x =? 226)%nat && (y =? 128)%nat
                          && (((128 <=? z)%nat && (z <=? 138)%nat)    (* U+2000..U+200A *)
                              || (z =? 168)%nat || (z =? 169)%nat     (* U+2028, U+2029 *)
                              || (z =? 175)%nat)                      (* U+202F *)
                  then 3%nat
                  else if (x =? 226)%nat && (y =? 129)%nat && (z =? 159)%nat
                  then 3%nat                                          (* U+205F *)
                  else if (x =? 227)%nat && (y =? 128)%nat && (z =? 128)%nat
                  then 3%nat                                          (* U+3000 *)
                  else if (x =? 239)%nat && (y =? 187)%nat && (z =? 191)%nat
                  then 3%nat                                          (* U+FEFF *)
                  else 0%nat
              end
        end
  end.

(** [s.split(/\s+/)]: the pieces between the maximal runs of white space.
    [skip] counts the bytes left of a white space character already seen,
    [in_ws] tells that the previous character was white space. *)
Fixpoint split_ws_from (skip : nat) (in_ws : bool) (s : string) : list string :=
  match s with
  | EmptyString => [EmptyString]
  | String a r =>
      match skip with
      | S k => split_ws_from k true r
      | O =>
          match ws_width s with
          | S k =>
              if in_ws then split_ws_from k true r
              else EmptyString :: split_ws_from k true r
          | O =>
              match split_ws_from 0 false r with
              | t :: ts => String a t :: ts
              | [] => [String a EmptyString]
              end
          end
      end
  end.

Definition split_ws (s : string) : list string := split_ws_from 0 false s.

(** ** Entity search *)

Record SearchResult := {
  sr_entity_id : string;
  sr_state : string;
  sr_friendly_name : option string;
  sr_device_class : option string;
  score : Z;
}.

Section Search.
Context {H : Host}.

(** The text a query is matched against. *)
Definition searchText (st : EntityState) : string :=
  toLowerCase
    (Str.join " " [entity_id st;
                   str_or (attr friendly_name st) "";
                   str_or (attr device_class st) "";
                   state st]).

(** The contribution of one term to the score of [st]. *)
Definition term_score (st : EntityState) (term : string) : Z :=
  if Str.includes (searchText st) term then
    1
    + (if Str.includes (toLowerCase (str_or (attr friendly_name st) "")) term
       then 2 else 0)
    + (if Str.includes (entity_id st) term then 1 else 0)
  else 0.

(** The [for (const term of terms)] loop. *)
Definition score_of (terms : list string) (st : EntityState) : Z :=
  fold_left (fun score term => score + term_score st term) terms 0.

Definition search_terms (query : string) : list string :=
  split_ws (toLowerCase query).

(** The scored, filtered and sorted pairs [{ state, score }], before the
    cut to twenty and the final projection. *)
Definition search_ranked (states : list EntityState) (query : string)
  : list (EntityState * Z) :=
  let terms := search_terms query in
  Array_sort (fun a b => snd b - snd a)
    (List.filter (fun r => 0 <? snd r)
       (map (fun st => (st, score_of terms st)) states)).

Definition searchEntities (states : list EntityState) (query : string)
  : list SearchResult :=
  map (fun r => {| sr_entity_id := entity_id (fst r);
                   sr_state := state (fst r);
                   sr_friendly_name := attr friendly_name (fst r);
                   sr_device_class := attr device_class (fst r);
                   score := snd r |})
      (take 20 (search_ranked states query)).

End Search.

(** ** Entity relationships *)

Record Related := {
  rel_entity_id : string;
  rel_friendly_name : option string;
  rel_state : string;
  relationship : string;
}.

Record EntityDetails := {
  ed_entity_id : string;
  ed_friendly_name : option string;
  ed_state : string;
  ed_domain : string;
  ed_device_class : option string;
  ed_device_id : option string;
  ed_area_id : option string;
  ed_attributes : option Attributes;
  related_entities : list Related;
}.

(** What [getEntityRelationships] answers: [{ error }] or the details. *)
Inductive Relationships :=
  | RelError (error : string)
  | RelDetails (d : EntityDetails).

(** The predicate of [states.filter] in [getEntityRelationships]. *)
Definition is_related (entityId : string) (deviceId areaId : option string)
    (s : EntityState) : bool :=
  if String.eqb (entity_id s) entityId then false
  else if truthy_str deviceId && bool_decide (attr device_id s = deviceId) then true
  else if truthy_str areaId && bool_decide (attr area_id s = areaId) then true
  else false.

(** The part of [getEntityRelationships] that follows [callHA("/states")]. *)
Definition relationships_of (states : list EntityState) (entityId : string)
  : Relationships :=
  match List.find (fun s => String.eqb (entity_id s) entityId) states with
  | None => RelError "Entity not found"
  | Some entity =>
      let domain := domain_of entityId in
      let deviceId := attr device_id entity in
      let areaId := attr area_id entity in
      let related :=
        map (fun s =>
               {| rel_entity_id := entity_id s;
                  rel_friendly_name := attr friendly_name s;
                  rel_state := state s;
                  relationship :=
                    if bool_decide (attr device_id s = deviceId)
                    then "same_device" else "same_area" |})
            (List.filter (is_related entityId deviceId areaId) states) in
      RelDetails
        {| ed_entity_id := entityId;
           ed_friendly_name := attr friendly_name entity;
           ed_state := state entity;
           ed_domain := domain;
           ed_device_class := attr device_class entity;
           ed_device_id := deviceId;
           ed_area_id := areaId;
           ed_attributes := attributes entity;
           related_entities := take 10 related |}
  end.

(** ** JSON values

    Tool arguments and the payloads of the Home Assistant API other than
    entity states. *)

Inductive value :=
  | VUndefined
  | VNull
  | VBool (b : bool)
  | VNum (x : float)
  | VStr (s : string)
  | VArr (items : list value)
  | VObj (fields : list (string * value)).

(** [o.k] on an object; [undefined] on a missing key and on the other
    values that carry no such property. *)
Fixpoint lookup_field (k : string) (fields : list (string * value)) : value :=
  match fields with
  | [] => VUndefined
  | (k', v) :: rest => if String.eqb k k' then v else lookup_field k rest
  end.

(** [ToBoolean] *)
Definition truthy (v : value) : bool :=
  match v with
  | VUndefined | VNull => false
  | VBool b => b
  | VNum x => negb (is_nan x || (x =? 0)%float)
  | VStr s => negb (String.eqb s "")
  | VArr _ | VObj _ => true
  end.

(** [v === lit] for a string [lit] *)
Definition value_is_str (v : value) (lit : string) : bool :=
  match v with
  | VStr s => String.eqb s lit
  | _ => false
  end.

(** The conversion of [v] to a primitive completes. The values are those of
    a JSON document, which holds no function: an object converts through the
    [toString] it inherits unless it has a property of that name of its own
    (the [valueOf] it inherits hands back the object itself, and a property
    [valueOf] of its own is skipped), and an array converts through [join],
    which converts its elements. Otherwise the conversion ends in a
    [TypeError], under the hint [string] and under the hint [number]. *)
Fixpoint printable (v : value) : bool :=
  match v with
  | VArr items => forallb printable items
  | VObj fields =>
      negb (existsb (fun kv => String.eqb (fst kv) "toString") fields)
  | _ => true
  end.

Section Values.
Context {H : Host}.

(** [ToString] of a value whose conversion completes: template literals,
    string concatenation, the argument of [RegExp.prototype.test]. The
    handlers convert through [to_string] below, which throws on the
    others. *)
Fixpoint ToString (v : value) : string :=
  match v with
  | VUndefined => "undefined"
  | VNull => "null"
  | VBool true => "true"
  | VBool false => "false"
  | VNum x => Number_toString x
  | VStr s => s
  | VArr items =>
      Str.join ","
        (map (fun i => match i with
                       | VUndefined | VNull => ""
                       | _ => ToString i
                       end) items)
  | VObj _ => "[object Object]"
  end.

End Values.

(** ** Regular expressions

    The fragment the script's literals are written in: literal text, a
    leading [^], [$], one character of a class, a greedy star over a class,
    an optional character and an alternation of literal texts. *)

Inductive char_class :=
  | cls_space                (* [\s] *)
  | cls_dot                  (* [.] *)
  | cls_lower_underscore.    (* [[a-z_]] *)

Inductive atom :=
  | Lit (s : string)
  | One (c : char_class)
  | Star (c : char_class)
  | Opt (c : ascii)
  | Alt (alts : list string)
  | Eol.

Record RegExp := {
  anchored : bool;           (* the pattern starts with [^] *)
  atoms : list atom;
  global : bool;             (* flag g *)
  multiline : bool;          (* flag m *)
  sticky : bool;             (* flag y *)
  lastIndex : nat;
}.

Definition set_lastIndex (r : RegExp) (i : nat) : RegExp :=
  {| anchored := anchored r; atoms := atoms r; global := global r;
     multiline := multiline r; sticky := sticky r; lastIndex := i |}.

(** [s] without its prefix [p], when it has it. *)
Fixpoint strip_prefix (p s : string) : option string :=
  match p, s with
  | EmptyString, _ => Some s
  | String a p', String b s' => if Ascii.eqb a b then strip_prefix p' s' else None
  | String _ _, EmptyString => None
  end.

(** A line terminator starts [s]: LF, CR, U+2028 or U+2029. *)
Definition line_terminator_width (s : string) : nat :=
  match s with
  | String a r =>
      let x := nat_of_ascii a in
      if (x =? 10)%nat || (x =? 13)%nat then 1%nat
      else match r with
           | String b (String c _) =>
               let y := nat_of_ascii b in
               let z := nat_of_ascii c in
               if (x =? 226)%nat && (y =? 128)%nat
                  && ((z =? 168)%nat || (z =? 169)%nat)
               then 3%nat else 0%nat
           | _ => 0%nat
           end
  | EmptyString => 0%nat
  end.

(** The width in bytes of the character a class accepts at the head of a
    string, [0] when it accepts none; [.] is read byte by byte. *)
Definition class_width (c : char_class) (s : string) : nat :=
  match c with
  | cls_space => ws_width s
  | cls_dot =>
      match s with
      | EmptyString => 0%nat
      | String _ _ => if (0 <? line_terminator_width s)%nat then 0%nat else 1%nat
      end
  | cls_lower_underscore =>
      match s with
      | String a _ =>
          let x := nat_of_ascii a in
          if ((97 <=? x)%nat && (x <=? 122)%nat) || (x =? 95)%nat
          then 1%nat else 0%nat
      | EmptyString => 0%nat
      end
  end.

(** [s] without its first [n] bytes. *)
Fixpoint drop_bytes (n : nat) (s : string) : option string :=
  match n, s with
  | O, _ => Some s
  | S n', String _ r => drop_bytes n' r
  | S _, EmptyString => None
  end.

(** Greedy iteration of a class, then the continuation [k]; on failure of
    the longer match the shorter one is tried. [skip] counts the bytes left
    of the character being consumed. *)
Fixpoint match_star (width : string -> nat) (k : string -> option string)
    (skip : nat) (s : string) : option string :=
  match skip with
  | S n =>
      match s with
      | String _ r => match_star width k n r
      | EmptyString => None
      end
  | O =>
      (match width s, s with
       | S n, String _ r => match_star width k n r
       | _, _ => None
       end)
      orelse k s
  end.

(** The first alternative, in order, whose continuation succeeds. *)
Fixpoint first_alt (k : string -> option string) (alts : list string) (s : string)
  : option string :=
  match alts with
  | [] => None
  | l :: rest =>
      (match strip_prefix l s with
       | Some s' => k s'
       | None => None
       end)
      orelse first_alt k rest s
  end.

(** [match_atoms m atoms s]: what is left of [s] after the match of [atoms]
    at its head that backtracking finds first. *)
Fixpoint match_atoms (m : bool) (atoms : list atom) (s : string) : option string :=
  match atoms with
  | [] => Some s
  | Lit l :: rest =>
      match strip_prefix l s with
      | Some s' => match_atoms m rest s'
      | None => None
      end
  | One c :: rest =>
      match class_width c s with
      | S n =>
          match drop_bytes (S n) s with
          | Some s' => match_atoms m rest s'
          | None => None
          end
      | O => None
      end
  | Star c :: rest => match_star (class_width c) (match_atoms m rest) 0 s
  | Opt c :: rest =>
      (match s with
       | String a r => if Ascii.eqb a c then match_atoms m rest r else None
       | EmptyString => None
       end)
      orelse match_atoms m rest s
  | Alt alts :: rest => first_alt (match_atoms m rest) alts s
  | Eol :: rest =>
      match s with
      | EmptyString => match_atoms m rest s
      | String _ _ =>
          if m && (0 <? line_terminator_width s)%nat
          then match_atoms m rest s else None
      end
  end.

(** The position reached after reading [before] (latest byte first) is the
    start of the input or, under flag [m], follows a line terminator. *)
Definition at_line_start (m : bool) (before : list ascii) : bool :=
  match before with
  | [] => true
  | c :: rest =>
      let z := nat_of_ascii c in
      m && ((z =? 10)%nat || (z =? 13)%nat
            || match rest with
               | b :: a :: _ =>
                   (nat_of_ascii a =? 226)%nat && (nat_of_ascii b =? 128)%nat
                   && ((z =? 168)%nat || (z =? 169)%nat)
               | _ => false
               end)
  end.

Definition match_here (r : RegExp) (before : list ascii) (s : string)
  : option string :=
  if anchored r && negb (at_line_start (multiline r) before) then None
  else match_atoms (multiline r) (atoms r) s.

(** The leftmost match at or after the current position. *)
Fixpoint search (r : RegExp) (before : list ascii) (s : string) : option string :=
  match_here r before s
  orelse match s with
         | String a s' => search r (a :: before) s'
         | EmptyString => None
         end.

(** The input cut at index [n]; nothing when [n] exceeds its length. *)
Fixpoint cut_at (n : nat) (before : list ascii) (s : string)
  : option (list ascii * string) :=
  match n, s with
  | O, _ => Some (before, s)
  | S n', String a s' => cut_at n' (a :: before) s'
  | S _, EmptyString => None
  end.

(** [r.test(s)]: the answer and the expression object afterwards. Only under
    the flags [g] and [y] is [lastIndex] read or written. *)
Definition RegExp_test (r : RegExp) (s : string) : bool * RegExp :=
  if global r || sticky r then
    match cut_at (lastIndex r) [] s with
    | None => (false, set_lastIndex r 0)
    | Some (before, rest) =>
        match (if sticky r then match_here r before rest
               else search r before rest) with
        | Some remaining =>
            (true, set_lastIndex r (String.length s - String.length remaining))
        | None => (false, set_lastIndex r 0)
        end
    end
  else (bool_decide (is_Some (search r [] s)), r).

(** ** Deprecation patterns *)

Record DeprecationPattern := {
  pattern : RegExp;
  message : string;
  suggestion : option string;
  integration : option string;
  deprecated_in : option string;
  dp_severity : option string;
}.

Definition set_pattern (p : DeprecationPattern) (r : RegExp) : DeprecationPattern :=
  {| pattern := r; message := message p; suggestion := suggestion p;
     integration := integration p; deprecated_in := deprecated_in p;
     dp_severity := dp_severity p |}.

(** A literal [/.../m]. *)
Definition re_m (anch : bool) (l : list atom) : RegExp :=
  {| anchored := anch; atoms := l; global := false; multiline := true;
     sticky := false; lastIndex := 0 |}.

(** [\s*\n\s*-?\s*platform:\s*] *)
Definition platform_line : list atom :=
  [Star cls_space; Lit Str.nl; Star cls_space; Opt "-"; Star cls_space;
   Lit "platform:"; Star cls_space].

(** The YAML suggested in place of a legacy template platform. *)
Definition template_suggestion (kind name state_tpl : string) : string :=
  "template:" ++ Str.nl ++ "  - " ++ kind ++ ":" ++ Str.nl
  ++ "      - name: " ++ Str.dquote ++ name ++ Str.dquote ++ Str.nl
  ++ "        state: " ++ Str.dquote ++ state_tpl ++ Str.dquote.

Definition DEPRECATION_PATTERNS : list DeprecationPattern :=
  [ {| pattern := re_m true (Lit "sensor:" :: platform_line ++ [Lit "template"]);
       message := "Legacy template sensor syntax detected. Use top-level 'template:' key instead.";
       suggestion := Some (template_suggestion "sensor" "My Sensor" "{{ states('...') }}");
       integration := Some "template";
       deprecated_in := Some "2024.1";
       dp_severity := None |};
    {| pattern := re_m true (Lit "binary_sensor:" :: platform_line ++ [Lit "template"]);
       message := "Legacy template binary_sensor syntax detected. Use top-level 'template:' key instead.";
       suggestion := Some (template_suggestion "binary_sensor" "My Sensor" "{{ is_state('...', 'on') }}");
       integration := Some "template";
       deprecated_in := Some "2024.1";
       dp_severity := None |};
    {| pattern := re_m false [Lit "entity_namespace:"];
       message := "'entity_namespace' is deprecated. Use 'unique_id' for entity identification instead.";
       suggestion := Some "Remove entity_namespace and add unique_id to each entity.";
       integration := None;
       deprecated_in := Some "2023.8";
       dp_severity := None |};
    {| pattern := re_m true [Star cls_space; Lit "-"; Star cls_space;
                             Lit "platform:"; Star cls_space; Lit "time_date"];
       message := "The time_date sensor platform is deprecated.";
       suggestion := Some "Use template sensors with now() or built-in date/time entities.";
       integration := Some "time_date";
       deprecated_in := Some "2024.6";
       dp_severity := None |};
    {| pattern := re_m false [Lit "automation:"; Star cls_space; Lit Str.nl;
                              Star cls_space; Opt "-"; Star cls_space; Lit "alias:"];
       message := "Consider using automation ID for better organization.";
       suggestion := Some "Add 'id: unique_automation_id' to enable UI editing and better tracking.";
       integration := None;
       deprecated_in := None;
       dp_severity := Some "info" |};
    {| pattern := re_m false (Lit "device_tracker:" :: platform_line
                              ++ [Alt ["nmap"; "netgear"; "ping"]]);
       message := "Legacy device tracker platforms may have limited functionality.";
       suggestion := Some "Consider using the device_tracker integration with the UI for better device tracking.";
       integration := None;
       deprecated_in := None;
       dp_severity := Some "info" |};
    {| pattern := re_m false (Lit "cover:" :: platform_line ++ [Lit "template"]);
       message := "Legacy template cover syntax detected. Use top-level 'template:' key instead.";
       suggestion := Some (template_suggestion "cover" "My Cover" "{{ ... }}");
       integration := Some "template";
       deprecated_in := Some "2024.1";
       dp_severity := None |};
    {| pattern := re_m false (Lit "switch:" :: platform_line ++ [Lit "template"]);
       message := "Legacy template switch syntax detected. Consider using top-level 'template:' key.";
       suggestion := Some (template_suggestion "switch" "My Switch" "{{ ... }}");
       integration := Some "template";
       deprecated_in := Some "2024.4";
       dp_severity := None |};
    {| pattern := re_m false [Lit "homeassistant:"; Star cls_space; Lit Str.nl;
                              Star cls_space; Lit "customize:"];
       message := "Entity customizations in configuration.yaml work but UI customizations are preferred.";
       suggestion := Some "Consider using the UI (Settings -> Devices & Services -> Entities) for customizations.";
       integration := None;
       deprecated_in := None;
       dp_severity := Some "info" |};
    {| pattern := re_m true [Star cls_space; Lit "white_value:"];
       message := "'white_value' is deprecated in light services.";
       suggestion := Some "Use 'white' instead of 'white_value' in light service calls.";
       integration := None;
       deprecated_in := Some "2023.3";
       dp_severity := None |} ].

Record DeprecationReport := {
  deprecated : bool;
  warnings : list string;
  suggestions : list string;
}.

(** The guard of the [continue]: the pattern is not relevant to the
    integration asked for. *)
Definition skipped (integration_arg : value) (p : DeprecationPattern) : bool :=
  truthy integration_arg
  && truthy_str (integration p)
  && negb (match integration p with
           | Some tag => value_is_str integration_arg tag
           | None => false
           end).

(** The body of the loop once [pattern.pattern.test(yamlConfig)] answered
    [true]. *)
Definition record_match (p : DeprecationPattern) (acc : DeprecationReport)
  : DeprecationReport :=
  let warning :=
    if truthy_str (deprecated_in p)
    then "[DEPRECATED since " ++ default "" (deprecated_in p) ++ "] " ++ message p
    else "[INFO] " ++ message p in
  {| deprecated := deprecated acc || bool_decide (deprecated_in p <> None);
     warnings := warnings acc ++ [warning];
     suggestions :=
       if truthy_str (suggestion p)
       then suggestions acc ++ [default "" (suggestion p)]
       else suggestions acc |}.

Section Deprecations.
Context {H : Host}.

(** The [for (const pattern of DEPRECATION_PATTERNS)] loop over the table
    [ps], whose expression objects it hands back as the tests left them.
    [test] converts its argument to a string: the loop is given here for a
    [yamlConfig] that converts, and [check_deprecations] below is the call
    on any value. *)
Fixpoint check_loop (yamlConfig integration_arg : value)
    (ps : list DeprecationPattern) (acc : DeprecationReport)
  : DeprecationReport * list DeprecationPattern :=
  match ps with
  | [] => (acc, [])
  | p :: rest =>
      if skipped integration_arg p then
        let (report, rest') := check_loop yamlConfig integration_arg rest acc in
        (report, p :: rest')
      else
        let (hit, re') := RegExp_test (pattern p) (ToString yamlConfig) in
        let acc' := if hit then record_match p acc else acc in
        let (report, rest') := check_loop yamlConfig integration_arg rest acc' in
        (report, set_pattern p re' :: rest')
  end.

Definition checkConfigForDeprecations (table : list DeprecationPattern)
    (yamlConfig integration_arg : value)
  : DeprecationReport * list DeprecationPattern :=
  check_loop yamlConfig integration_arg table
    {| deprecated := false; warnings := []; suggestions := [] |}.

End Deprecations.

(** ** Documents sent and received *)

(** Further builtins of the runtime, used by the request handlers. *)
Class Runtime := {
  (** [JSON.stringify(v)] *)
  JSON_stringify : value -> string;
  (** [JSON.stringify(v, null, 2)] *)
  JSON_pretty : value -> string;
  (** [encodeURIComponent(s)] *)
  encodeURIComponent : string -> string;
  (** [new Date(ms).toISOString()] *)
  Date_toISOString : float -> string;
  (** [`${new URLSearchParams(...)}`] for the pairs appended so far *)
  URLSearchParams_toString : list (string * string) -> string;
}.

(** A number of elements, as the double the runtime holds. *)
Definition Number_of_nat (n : nat) : float :=
  PrimFloat.of_uint63 (Uint63.of_Z (Z.of_nat n)).

(** A possibly-undefined string as a property value. *)
Definition opt_str (x : option string) : value :=
  match x with
  | Some s => VStr s
  | None => VUndefined
  end.

Definition attributes_to_json (a : Attributes) : value :=
  VObj [("friendly_name", opt_str (friendly_name a));
        ("device_class", opt_str (device_class a));
        ("battery_level", match battery_level a with
                          | Some b => VNum b
                          | None => VUndefined
                          end);
        ("unit_of_measurement", opt_str (unit_of_measurement a));
        ("device_id", opt_str (device_id a));
        ("area_id", opt_str (area_id a));
        ("last_triggered", opt_str (last_triggered a))].

Definition opt_attributes_to_json (a : option Attributes) : value :=
  match a with
  | Some a => attributes_to_json a
  | None => VUndefined
  end.

(** A state object as a JSON document. *)
Definition state_to_json (st : EntityState) : value :=
  VObj [("entity_id", VStr (entity_id st));
        ("state", VStr (state st));
        ("attributes", opt_attributes_to_json (attributes st));
        ("last_changed", opt_str (last_changed st));
        ("last_updated", opt_str (last_updated st))].

(** What a call to the Home Assistant API hands back: a parsed JSON body,
    typed where it carries entity states, or the text of the body. *)
Inductive Payload :=
  | PStates (states : list EntityState)
  | PState (st : EntityState)
  | PJson (v : value)
  | PText (s : string).

Definition payload_to_value (p : Payload) : value :=
  match p with
  | PStates l => VArr (map state_to_json l)
  | PState st => state_to_json st
  | PJson v => v
  | PText s => VStr s
  end.

(** ** Module state, effects and the handler monad *)

Definition LOG_LEVELS : list string :=
  ["debug"; "info"; "notice"; "warning"; "error"; "critical"; "alert"; "emergency"].

(** The module-level bindings whose contents a handler could change: the
    [let] variable [currentLogLevel] and the expression objects held in the
    [DEPRECATION_PATTERNS] array. *)
Record ModuleState := {
  currentLogLevel : string;
  deprecation_table : list DeprecationPattern;
}.

(** The request of one [fetch(url, options)]. *)
Record Request := {
  url : string;
  method : option string;
  headers : list (string * string);
  req_body : option string;
}.

(** One line written by [sendLog] through [console.error]. *)
Record LogEntry := {
  log_level : string;
  logger : string;
  data : value;
  timestamp : Clock;
}.

Inductive Event :=
  | Fetched (r : Request)
  | Logged (e : LogEntry).

(** The [Response] a [fetch] resolves to. [body_json] is the body parsed as
    JSON, or the message of the [SyntaxError] when it does not parse. *)
Record Response := {
  ok : bool;
  status : float;
  statusText : string;
  content_type : option string;
  body_text : string;
  body_json : string + Payload;
}.

Inductive FetchOutcome :=
  | Rejected (message : string)
  | Resolved (r : Response).

(** The world outside the script: the wall clock at each reading, and the
    answer of the network to a request given everything that happened
    before it. *)
Class Env := {
  clock : nat -> Clock;
  network : list Event -> Request -> FetchOutcome;
  SUPERVISOR_TOKEN : string;
}.

Record World := {
  module_state : ModuleState;
  ticks : nat;                (* clock readings taken so far *)
  trace : list Event;         (* effects so far, latest first *)
}.

(** A thrown [Error]: only its [message] is ever read. *)
Record Error := { error_message : string }.

Definition M (A : Type) : Type := World -> (Error + A) * World.

Definition ret {A} (a : A) : M A := fun w => (inr a, w).

Definition bind {A B} (m : M A) (k : A -> M B) : M B :=
  fun w =>
    match m w with
    | (inl e, w') => (inl e, w')
    | (inr a, w') => k a w'
    end.

Definition throw {A} (message : string) : M A :=
  fun w => (inl {| error_message := message |}, w).

Definition rethrow {A} (e : Error) : M A := fun w => (inl e, w).

(** [try { m } catch (error) { handler(error) }] *)
Definition try_catch {A} (m : M A) (handler : Error -> M A) : M A :=
  fun w =>
    match m w with
    | (inl e, w') => handler e w'
    | (inr a, w') => (inr a, w')
    end.

Declare Scope handler_scope.
Delimit Scope handler_scope with handler.
Notation "x <- m ;; k" := (bind m (fun x => k))
  (at level 100, m at next level, right associativity) : handler_scope.
Notation "m ;;; k" := (bind m (fun _ => k))
  (at level 100, right associativity) : handler_scope.
Local Open Scope handler_scope.

Definition get_module : M ModuleState := fun w => (inr (module_state w), w).

Definition put_module (ms : ModuleState) : M unit :=
  fun w => (inr tt, {| module_state := ms; ticks := ticks w; trace := trace w |}).

Definition emit (e : Event) : M unit :=
  fun w => (inr tt, {| module_state := module_state w; ticks := ticks w;
                       trace := e :: trace w |}).

(** ** Property access on JSON values *)

(** The number of UTF-16 code units of a string: one per code point, two
    for those encoded on four bytes. *)
Fixpoint utf16_length (s : string) : nat :=
  match s with
  | EmptyString => 0%nat
  | String a r =>
      let x := nat_of_ascii a in
      ((if (x <? 128)%nat || (192 <=? x)%nat then 1 else 0)
       + (if (240 <=? x)%nat then 1 else 0)
       + utf16_length r)%nat
  end.

(** [v.k] for a value other than [undefined] and [null]. *)
Definition prop (v : value) (k : string) : value :=
  match v with
  | VObj fields => lookup_field k fields
  | VArr items =>
      if String.eqb k "length" then VNum (Number_of_nat (length items))
      else VUndefined
  | VStr s =>
      if String.eqb k "length" then VNum (Number_of_nat (utf16_length s))
      else VUndefined
  | _ => VUndefined
  end.

(** [v?.k] *)
Definition opt_member (v : value) (k : string) : value :=
  match v with
  | VUndefined | VNull => VUndefined
  | _ => prop v k
  end.

(** [v.k]: a [TypeError] on [undefined] and [null] (message of V8). *)
Definition member (v : value) (k : string) : M value :=
  match v with
  | VUndefined =>
      throw ("Cannot read properties of undefined (reading '" ++ k ++ "')")
  | VNull =>
      throw ("Cannot read properties of null (reading '" ++ k ++ "')")
  | _ => ret (prop v k)
  end.

(** [const { k } = v] *)
Definition destructure (v : value) (k : string) : M value :=
  match v with
  | VUndefined =>
      throw ("Cannot destructure property '" ++ k ++ "' of 'args' as it is undefined.")
  | VNull =>
      throw ("Cannot destructure property '" ++ k ++ "' of 'args' as it is null.")
  | _ => ret (prop v k)
  end.

(** [x || d] on values *)
Definition value_or (x d : value) : value := if truthy x then x else d.

Section Primitives.
Context {H : Host} {R : Runtime} {E : Env}.

Definition SUPERVISOR_API : string := "http://supervisor/core/api".
Definition HA_DOCS_BASE : string := "https://www.home-assistant.io".
Definition HA_INTEGRATIONS_URL : string := HA_DOCS_BASE ++ "/integrations".
Definition HA_BLOG_URL : string := HA_DOCS_BASE ++ "/blog".

(** [new Date()] / [Date.now()]: the next reading of the clock. *)
Definition Date_read : M Clock :=
  fun w => (inr (clock (ticks w)),
            {| module_state := module_state w; ticks := S (ticks w);
               trace := trace w |}).

(** The readings of [n] successive evaluations, indexed from [0]. *)
Definition Date_reads (n : nat) : M (nat -> Clock) :=
  fun w => (inr (fun i => clock (ticks w + i)%nat),
            {| module_state := module_state w; ticks := (ticks w + n)%nat;
               trace := trace w |}).

(** [a.indexOf(x)] *)
Fixpoint indexOf (l : list string) (x : string) : Z :=
  match l with
  | [] => -1
  | y :: rest =>
      if String.eqb y x then 0
      else let i := indexOf rest x in if i <? 0 then -1 else i + 1
  end.

Definition getLogLevelIndex (level : string) : Z := indexOf LOG_LEVELS level.

Definition shouldLog (current level : string) : bool :=
  getLogLevelIndex current <=? getLogLevelIndex level.

Definition sendLog (level logger : string) (data : value) : M unit :=
  ms <- get_module;;
  if shouldLog (currentLogLevel ms) level then
    now <- Date_read;;
    emit (Logged {| log_level := level; logger := logger; data := data;
                    timestamp := now |})
  else ret tt.

(** [await fetch(url, options)] *)
Definition fetch (r : Request) : M Response :=
  fun w =>
    let w' := {| module_state := module_state w; ticks := ticks w;
                 trace := Fetched r :: trace w |} in
    match network (trace w) r with
    | Rejected message => (inl {| error_message := message |}, w')
    | Resolved resp => (inr resp, w')
    end.

(** [await response.json()] *)
Definition Response_json (resp : Response) : M Payload :=
  match body_json resp with
  | inl message => throw message
  | inr p => ret p
  end.

Definition callHA (endpoint method : string) (body : value) : M Payload :=
  sendLog "debug" "ha-api"
    (VObj [("action", VStr "request"); ("endpoint", VStr endpoint);
           ("method", VStr method)]);;;
  response <-
    fetch {| url := SUPERVISOR_API ++ endpoint;
             method := Some method;
             headers := [("Authorization", "Bearer " ++ SUPERVISOR_TOKEN);
                         ("Content-Type", "application/json")];
             req_body := if truthy body then Some (JSON_stringify body)
                         else None |};;
  if negb (ok response) then
    let text := body_text response in
    sendLog "error" "ha-api"
      (VObj [("action", VStr "error"); ("endpoint", VStr endpoint);
             ("status", VNum (status response)); ("error", VStr text)]);;;
    throw ("HA API error (" ++ Number_toString (status response) ++ "): " ++ text)
  else if match content_type response with
          | Some ct => negb (String.eqb ct "") && Str.includes ct "application/json"
          | None => false
          end
  then
    result <- Response_json response;;
    sendLog "debug" "ha-api"
      (VObj [("action", VStr "response"); ("endpoint", VStr endpoint);
             ("success", VBool true)]);;;
    ret result
  else ret (PText (body_text response)).

(** [callHA(endpoint)] with the default method and no body. *)
Definition callHA_get (endpoint : string) : M Payload :=
  callHA endpoint "GET" VNull.

Definition fetchUrl (u : string) : M string :=
  sendLog "debug" "docs" (VObj [("action", VStr "fetch"); ("url", VStr u)]);;;
  try_catch
    (response <-
       fetch {| url := u; method := None;
                headers := [("User-Agent", "HomeAssistant-MCP-Server/2.1.0");
                            ("Accept", "text/html,application/xhtml+xml,text/plain")];
                req_body := None |};;
     if negb (ok response) then
       throw ("HTTP " ++ Number_toString (status response) ++ ": "
              ++ statusText response)
     else ret (body_text response))
    (fun error =>
       sendLog "error" "docs"
         (VObj [("action", VStr "fetch_error"); ("url", VStr u);
                ("error", VStr (error_message error))]);;;
       rethrow error).

End Primitives.

(** ** Tool results *)

Record Annotations := {
  audience : list string;
  priority : float;
}.

Record Content := {
  content_type_tag : string;
  text : value;
  annotations : option Annotations;
}.

(** A tool result after [makeCompatibleResponse]: [isError] is [false] when
    the property is absent. *)
Record ToolResult := {
  content : list Content;
  isError : bool;
}.

(** [createTextContent(text, { audience, priority })] *)
Definition createTextContent (t : value) (aud : list string) (prio : float)
  : Content :=
  {| content_type_tag := "text"; text := t;
     annotations := Some {| audience := aud; priority := prio |} |}.

Definition makeCompatibleResponse (c : list Content) (is_error : bool)
  : ToolResult :=
  {| content := c; isError := is_error |}.

(** The usual result: one text item, no error flag. *)
Definition respond (t : value) (aud : list string) (prio : float) : M ToolResult :=
  ret (makeCompatibleResponse [createTextContent t aud prio] false).

(** ** Property order

    An object enumerates its array-index keys first, in ascending order, then
    its other keys in the order of their creation. *)

(** The value of a canonical array index ([0] to [2^32 - 2], no leading
    zero): such keys come first, in ascending order, in [Object.entries]. *)
Fixpoint digits_value (s : string) (acc : Z) : option Z :=
  match s with
  | EmptyString => Some acc
  | String a r =>
      let x := Z.of_nat (nat_of_ascii a) in
      if (48 <=? x) && (x <=? 57) then digits_value r (10 * acc + (x - 48))
      else None
  end.

Definition array_index (key : string) : option Z :=
  match key with
  | EmptyString => None
  | String a r =>
      if Ascii.eqb a "0" && negb (String.eqb r "") then None
      else match digits_value key 0 with
           | Some n => if n <=? 4294967294 then Some n else None
           | None => None
           end
  end.

(** [Object.entries(o)]: the properties in the order of their enumeration,
    the array indices first. *)
Definition Object_entries {A} (o : list (string * A)) : list (string * A) :=
  let indexed := omap (fun kv => match array_index (fst kv) with
                                 | Some n => Some (n, kv)
                                 | None => None
                                 end) o in
  let named := List.filter (fun kv => match array_index (fst kv) with
                                      | Some _ => false
                                      | None => true
                                      end) o in
  (map snd (Array_sort (fun a b => fst a - fst b) indexed) ++ named)%list.

(** ** Conversions of the runtime *)

Section Conversions.
Context {H : Host}.

(** [`${v}`], [String(v)] and the other places where the runtime converts
    [v] to a string: the [TypeError] of V8 when the conversion does not
    complete. The conversion has no effect and is a function of [v]: where
    the script interpolates a value again after a first conversion, the
    handlers below use the string of the first. *)
Definition to_string (v : value) : M string :=
  if printable v then ret (ToString v)
  else throw "Cannot convert object to primitive value".

(** [ToNumber] of a value whose conversion completes. *)
Definition ToNumber (v : value) : float :=
  match v with
  | VUndefined => nan
  | VNull => 0%float
  | VBool true => 1%float
  | VBool false => 0%float
  | VNum x => x
  | VStr s => StringToNumber s
  | VArr _ | VObj _ => StringToNumber (ToString v)
  end.

(** [-v], [Number(v)] *)
Definition to_number (v : value) : M float :=
  if printable v then ret (ToNumber v)
  else throw "Cannot convert object to primitive value".

(** [a === b]; two objects or arrays reaching the script from different
    documents are never the same object. *)
Definition strict_eq (a b : value) : bool :=
  match a, b with
  | VUndefined, VUndefined => true
  | VNull, VNull => true
  | VBool x, VBool y => Bool.eqb x y
  | VNum x, VNum y => (x =? y)%float
  | VStr x, VStr y => String.eqb x y
  | _, _ => false
  end.

(** The own enumerable properties [{ ...v }] copies, in the order of their
    enumeration. *)
Definition spread (v : value) : list (string * value) :=
  match v with
  | VObj fields => Object_entries fields
  | VArr items => imap (fun i x => (ToString (VNum (Number_of_nat i)), x)) items
  | VStr s =>
      imap (fun i u => (ToString (VNum (Number_of_nat i)), VStr u)) (String_units s)
  | _ => []
  end.

(** [o[k] = v] on the properties of an object. *)
Fixpoint set_field (k : string) (v : value) (fields : list (string * value))
  : list (string * value) :=
  match fields with
  | [] => [(k, v)]
  | (k', v') :: rest =>
      if String.eqb k k' then (k, v) :: rest else (k', v') :: set_field k v rest
  end.

(** [Object.assign(o, source)]: the properties of [o] afterwards, in the
    order of their enumeration. *)
Definition Object_assign (fields : list (string * value)) (source : value)
  : list (string * value) :=
  Object_entries
    (fold_left (fun acc kv => set_field (fst kv) (snd kv) acc) (spread source)
               fields).

(** [ToIntegerOrInfinity(x)]: the integer part of a finite [x], [0] for
    [NaN]; [None] stands for the two infinities. *)
Definition ToIntegerOrInfinity (x : float) : option Z :=
  match Prim2SF x with
  | S754_nan | S754_zero _ => Some 0
  | S754_infinity _ => None
  | S754_finite negative m e =>
      let magnitude := Z.shiftl (Z.pos m) e in
      Some (if negative then - magnitude else magnitude)
  end.

(** [a.slice(start)] for a number [start]: the index the copy starts at,
    counted from the end when [start] is negative, and clamped to the
    array. *)
Definition slice_from (start : float) (len : nat) : nat :=
  match ToIntegerOrInfinity start with
  | None => if (start <? 0)%float then 0%nat else len
  | Some k =>
      if k <? 0 then Z.to_nat (Z.max (Z.of_nat len + k) 0)
      else Z.to_nat (Z.min k (Z.of_nat len))
  end.

End Conversions.

(** ** Source functions and tables kept abstract

    Pure text functions and constant tables of the script that the
    properties below never look into: the HTML extraction of the
    documentation pages, the descriptive fields of the tool, resource and
    prompt tables, the prompt templates. The functions build strings from
    their arguments and have no effect. *)
Class Texts := {
  (** [extractContentFromHtml(html)]: title, description, content *)
  extractContentFromHtml : string -> string * string * string;
  (** [extractConfigurationSection(content)] *)
  extractConfigurationSection : string -> option string;
  (** [extractYamlExamples(content)] *)
  extractYamlExamples : string -> list string;
  (** [content.match(/breaking changes?[\s\S]*?(?=\n## |$)/i)], the match *)
  breaking_changes_section : string -> option string;
  (** [s.substring(0, n)] *)
  substring0 : nat -> string -> string;
  (** the [description] and [inputSchema] of the entry of [TOOLS] of a
      given name *)
  tool_description : string -> string;
  tool_inputSchema : string -> value;
  (** the tables [RESOURCES], [RESOURCE_TEMPLATES] and [PROMPTS] *)
  RESOURCES : value;
  RESOURCE_TEMPLATES : value;
  PROMPTS : value;
  (** the message text of the prompt of a given name, with the values that
      fill its holes *)
  prompt_text : string -> list value -> string;
}.

(** ** State summary and suggestions *)

(** The property names a fresh object literal inherits; [byDomain[name]] is
    truthy for each of them before anything is stored. *)
Definition Object_prototype_keys : list string :=
  ["constructor"; "__defineGetter__"; "__defineSetter__"; "hasOwnProperty";
   "__lookupGetter__"; "__lookupSetter__"; "isPrototypeOf";
   "propertyIsEnumerable"; "toString"; "valueOf"; "__proto__";
   "toLocaleString"].

Record DomainInfo := {
  di_count : nat;
  di_on : nat;
  di_off : nat;
}.

(** The updates of [byDomain[domain]] for one state of value [value]; the
    properties are kept in the order of their creation. *)
Fixpoint count_state (domain value : string) (byDomain : list (string * DomainInfo))
  : list (string * DomainInfo) :=
  let tally (i : DomainInfo) :=
    {| di_count := S (di_count i);
       di_on := if String.eqb value "on" then S (di_on i) else di_on i;
       di_off := if String.eqb value "off" then S (di_off i) else di_off i |} in
  match byDomain with
  | [] => [(domain, tally {| di_count := 0; di_on := 0; di_off := 0 |})]
  | (d, i) :: rest =>
      if String.eqb d domain then (d, tally i) :: rest
      else (d, i) :: count_state domain value rest
  end.

(** [byDomain[domain]] among the properties the loop has created. *)
Fixpoint get_domain (domain : string) (byDomain : list (string * DomainInfo))
  : option DomainInfo :=
  match byDomain with
  | [] => None
  | (d, i) :: rest => if String.eqb d domain then Some i else get_domain domain rest
  end.

Record Tally := {
  byDomain : list (string * DomainInfo);
  unavailable : list string;
  tally_anomalies : list Anomaly;
}.

Section Summary.
Context {H : Host}.

(** The [for (const state of states)] loop of [generateStateSummary], the
    state at position [i] examined at clock reading [clk i]. [None]: the
    domain names an inherited property; the increment of [count] then lands
    on that builtin of the runtime, outside the script's own state, and
    [.entities.push] fails. *)
Fixpoint tally_states (clk : nat -> Clock) (i : nat) (states : list EntityState)
    (acc : Tally) : option Tally :=
  match states with
  | [] => Some acc
  | st :: rest =>
      let domain := domain_of (entity_id st) in
      if existsb (String.eqb domain) Object_prototype_keys then None
      else
        tally_states clk (S i) rest
          {| byDomain := count_state domain (state st) (byDomain acc);
             unavailable :=
               if String.eqb (state st) "unavailable"
                  || String.eqb (state st) "unknown"
               then (unavailable acc ++ [entity_id st])%list
               else unavailable acc;
             tally_anomalies :=
               match detectAnomaly (clk i) st with
               | Some a => (tally_anomalies acc ++ [a])%list
               | None => tally_anomalies acc
               end |}
  end.

Definition show_nat (n : nat) : string := Number_toString (Number_of_nat n).

Definition summary_lines (t : Tally) : list string :=
  List.concat
    [ ["## Home Assistant State Summary" ++ Str.nl; "### By Domain"];
      map (fun e =>
             let info := snd e in
             "- **" ++ fst e ++ "**: " ++ show_nat (di_count info) ++ " entities"
             ++ (if (0 <? di_on info)%nat || (0 <? di_off info)%nat
                 then " (" ++ show_nat (di_on info) ++ " on, "
                      ++ show_nat (di_off info) ++ " off)"
                 else ""))
          (Array_sort (fun a b => Z.of_nat (di_count (snd b))
                                  - Z.of_nat (di_count (snd a)))
                      (Object_entries (byDomain t)));
      if (0 <? length (unavailable t))%nat
      then List.concat
             [ [Str.nl ++ "### Unavailable/Unknown Entities"];
               map (fun id => "- " ++ id) (take 10 (unavailable t));
               if (10 <? length (unavailable t))%nat
               then ["- ... and " ++ show_nat (length (unavailable t) - 10)
                     ++ " more"]
               else [] ]
      else [];
      if (0 <? length (tally_anomalies t))%nat
      then (Str.nl ++ "### Potential Anomalies Detected")
           :: map (fun a => "- **" ++ a_entity_id a ++ "**: " ++ reason a)
                  (take 5 (tally_anomalies t))
      else [] ].

Definition generateStateSummary (clk : nat -> Clock) (states : list EntityState)
  : M string :=
  match tally_states clk 0 states
          {| byDomain := []; unavailable := []; tally_anomalies := [] |} with
  | Some t => ret (Str.join Str.nl (summary_lines t))
  | None => throw "Cannot read properties of undefined (reading 'push')"
  end.

(** [s.attributes?.friendly_name || s.entity_id] *)
Definition display_name (s : EntityState) : string :=
  str_or (attr friendly_name s) (entity_id s).

Definition ids (l : list EntityState) : value := VArr (map (fun s => VStr (entity_id s)) l).

Definition generateSuggestions (states : list EntityState) : list value :=
  let motionSensors :=
    List.filter (fun s => is_str (attr device_class s) "motion"
                          || Str.includes (entity_id s) "motion") states in
  let lights := List.filter (fun s => Str.startsWith (entity_id s) "light.") states in
  let motion_lights :=
    omap (fun motion =>
            let areaId := attr area_id motion in
            if truthy_str areaId then
              let areaLights :=
                List.filter (fun l => bool_decide (attr area_id l = areaId)) lights in
              if (0 <? length areaLights)%nat then
                Some (VObj
                  [("type", VStr "motion_light");
                   ("title", VStr "Motion-Activated Lighting");
                   ("description",
                    VStr ("Create automation: When " ++ display_name motion
                          ++ " detects motion, turn on "
                          ++ Str.join ", " (map display_name areaLights)));
                   ("trigger_entity", VStr (entity_id motion));
                   ("action_entities", ids areaLights)])
              else None
            else None) motionSensors in
  let openings :=
    List.filter (fun s => is_str (attr device_class s) "door"
                          || is_str (attr device_class s) "window") states in
  let thermostats :=
    List.filter (fun s => Str.startsWith (entity_id s) "climate.") states in
  let tempSensors :=
    List.filter (fun s => is_str (attr device_class s) "temperature") states in
  let powerSensors :=
    List.filter (fun s => is_str (attr device_class s) "power"
                          || is_str (attr device_class s) "energy") states in
  List.concat
    [ motion_lights;
      if (0 <? length openings)%nat
      then [VObj [("type", VStr "security_alert");
                  ("title", VStr "Security Alert Automation");
                  ("description",
                   VStr "Create notification when doors/windows are left open for extended periods");
                  ("entities", ids (take 5 openings))]]
      else [];
      if (0 <? length thermostats)%nat && (0 <? length tempSensors)%nat
      then [VObj [("type", VStr "climate_optimization");
                  ("title", VStr "Climate Optimization");
                  ("description",
                   VStr "Create automations to adjust thermostat based on occupancy or outdoor temperature");
                  ("climate_entities", ids thermostats);
                  ("sensor_entities", ids (take 3 tempSensors))]]
      else [];
      if (0 <? length powerSensors)%nat
      then [VObj [("type", VStr "energy_monitoring");
                  ("title", VStr "Energy Usage Alerts");
                  ("description",
                   VStr "Create alerts for unusual energy consumption patterns");
                  ("entities", ids (take 5 powerSensors))]]
      else [] ].

End Summary.

(** ** Tool handlers: state management *)

(** The payload of [/states] as the array of state objects the API
    documents. On a payload of another shape the script fails at a method
    call on it; the model raises that [TypeError] where the array is first
    used. *)
Definition expect_states (message : string) (p : Payload) : M (list EntityState) :=
  match p with
  | PStates l => ret l
  | PJson (VArr []) => ret []
  | _ => throw message
  end.

(** A value used as the receiver of a string method:
    [receiver.method(...)]. *)
Definition expect_string (receiver method : string) (v : value) : M string :=
  match v with
  | VStr s => ret s
  | VUndefined =>
      throw ("Cannot read properties of undefined (reading '" ++ method ++ "')")
  | VNull =>
      throw ("Cannot read properties of null (reading '" ++ method ++ "')")
  | _ => throw (receiver ++ "." ++ method ++ " is not a function")
  end.

Definition Number_of_Z (z : Z) : float := PrimFloat.of_uint63 (Uint63.of_Z z).

(** The object literal of [states.map] in [get_states] and in the
    [ha://states/{domain}] resource. *)
Definition simplified (s : EntityState) : value :=
  VObj [("entity_id", VStr (entity_id s));
        ("state", VStr (state s));
        ("friendly_name", opt_str (attr friendly_name s));
        ("device_class", opt_str (attr device_class s))].

Definition search_result_to_json (r : SearchResult) : value :=
  VObj [("entity_id", VStr (sr_entity_id r));
        ("state", VStr (sr_state r));
        ("friendly_name", opt_str (sr_friendly_name r));
        ("device_class", opt_str (sr_device_class r));
        ("score", VNum (Number_of_Z (score r)))].

Definition related_to_json (r : Related) : value :=
  VObj [("entity_id", VStr (rel_entity_id r));
        ("friendly_name", opt_str (rel_friendly_name r));
        ("state", VStr (rel_state r));
        ("relationship", VStr (relationship r))].

Definition relationships_to_json (r : Relationships) : value :=
  match r with
  | RelError e => VObj [("error", VStr e)]
  | RelDetails d =>
      VObj [("entity_id", VStr (ed_entity_id d));
            ("friendly_name", opt_str (ed_friendly_name d));
            ("state", VStr (ed_state d));
            ("domain", VStr (ed_domain d));
            ("device_class", opt_str (ed_device_class d));
            ("device_id", opt_str (ed_device_id d));
            ("area_id", opt_str (ed_area_id d));
            ("attributes", opt_attributes_to_json (ed_attributes d));
            ("related_entities", VArr (map related_to_json (related_entities d)))]
  end.

Definition anomaly_to_json (a : Anomaly) : value :=
  VObj [("entity_id", VStr (a_entity_id a));
        ("reason", VStr (reason a));
        ("severity", VStr (severity a))].

Section StateTools.
Context {H : Host} {R : Runtime} {E : Env} {T : Texts}.

(** [states.filter((s) => s.entity_id.startsWith(`${domain}.`))]: the
    template literal is evaluated at every element. *)
Fixpoint filter_by_domain (domain : value) (states : list EntityState)
  : M (list EntityState) :=
  match states with
  | [] => ret []
  | s :: rest =>
      d <- to_string domain;;
      kept <- filter_by_domain domain rest;;
      ret (if Str.startsWith (entity_id s) (d ++ ".") then s :: kept else kept)
  end.

(** [if (domain) states = states.filter(...)], [domain] being [args?.domain]. *)
Definition apply_domain_filter (domain : value) (states : list EntityState)
  : M (list EntityState) :=
  if truthy domain then filter_by_domain domain states else ret states.

Definition tool_get_states (args : value) : M ToolResult :=
  if truthy (opt_member args "entity_id") then
    id <- to_string (opt_member args "entity_id");;
    st <- callHA_get ("/states/" ++ id);;
    respond (VStr (JSON_pretty (payload_to_value st))) ["assistant"] 0.8
  else
    p <- callHA_get "/states";;
    all <- expect_states
             (if truthy (opt_member args "domain")
              then "states.filter is not a function"
              else if truthy (opt_member args "summarize")
              then "states is not iterable"
              else "states.map is not a function") p;;
    states <- apply_domain_filter (opt_member args "domain") all;;
    if truthy (opt_member args "summarize") then
      clk <- Date_reads (length states);;
      summary <- generateStateSummary clk states;;
      respond (VStr summary) ["user"; "assistant"] 0.9
    else
      respond (VStr (JSON_pretty (VArr (map simplified states))))
              ["assistant"] 0.7.

Definition tool_search_entities (args : value) : M ToolResult :=
  p <- callHA_get "/states";;
  query <- member args "query";;
  q <- expect_string "query" "toLowerCase" query;;
  states <- expect_states "states.map is not a function" p;;
  let results := searchEntities states q in
  respond
    (VStr (if (0 <? length results)%nat
           then JSON_pretty (VArr (map search_result_to_json results))
           else "No entities found matching " ++ Str.dquote ++ q ++ Str.dquote))
    ["assistant"] 0.8.

(** [getEntityRelationships(entityId)]; only a string can be the id of an
    entity of the list. *)
Definition getEntityRelationships (entityId : value) : M Relationships :=
  p <- callHA_get "/states";;
  states <- expect_states "states.find is not a function" p;;
  match entityId with
  | VStr id => ret (relationships_of states id)
  | _ => ret (RelError "Entity not found")
  end.

Definition tool_get_entity_details (args : value) : M ToolResult :=
  entityId <- member args "entity_id";;
  relationships <- getEntityRelationships entityId;;
  respond (VStr (JSON_pretty (relationships_to_json relationships)))
          ["assistant"] 0.8.

(** The two answers of [detect_anomalies], by [anomalies.length]. *)
Definition report_anomalies (anomalies : list Anomaly) : M ToolResult :=
  if (length anomalies =? 0)%nat then
    respond (VStr "No anomalies detected. All entities appear to be operating normally.")
            ["user"] 0.9
  else
    respond
      (VStr ("Found " ++ Number_toString (Number_of_nat (length anomalies))
             ++ " potential anomalies:" ++ Str.nl ++ Str.nl
             ++ JSON_pretty (VArr (map anomaly_to_json anomalies))))
      ["user"; "assistant"] 0.9.

Definition tool_detect_anomalies (args : value) : M ToolResult :=
  p <- callHA_get "/states";;
  all <- expect_states (if truthy (opt_member args "domain")
                        then "states.filter is not a function"
                        else "states.map is not a function") p;;
  states <- apply_domain_filter (opt_member args "domain") all;;
  clk <- Date_reads (length states);;
  report_anomalies (detect_anomalies_scan clk states).

Definition tool_get_suggestions (args : value) : M ToolResult :=
  p <- callHA_get "/states";;
  states <- expect_states "states.filter is not a function" p;;
  let suggestions := generateSuggestions states in
  if (length suggestions =? 0)%nat then
    respond (VStr "No suggestions at this time. Your Home Assistant setup looks well configured!")
            ["user"] 0.8
  else
    respond (VStr (JSON_pretty (VArr suggestions))) ["user"; "assistant"] 0.8.

End StateTools.

(** ** Tool handlers: services, history, configuration, events, calendars *)

Section ServiceTools.
Context {H : Host} {R : Runtime} {E : Env} {T : Texts}.

(** [JSON.stringify(x, null, 2)] of what [callHA] handed back. *)
Definition stringify_payload (p : Payload) : string :=
  JSON_pretty (payload_to_value p).

Definition tool_call_service (args : value) : M ToolResult :=
  domain <- destructure args "domain";;
  service <- destructure args "service";;
  target <- destructure args "target";;
  data <- destructure args "data";;
  sendLog "notice" "ha-service"
    (VObj [("action", VStr "call"); ("domain", domain); ("service", service);
           ("target", target)]);;;
  let payload := spread data in
  let payload := if truthy target then Object_assign payload target else payload in
  d <- to_string domain;;
  s <- to_string service;;
  result <- callHA ("/services/" ++ d ++ "/" ++ s) "POST" (VObj payload);;
  respond
    (VStr ("Service " ++ d ++ "." ++ s
           ++ " called successfully." ++ Str.nl ++ stringify_payload result))
    ["user"; "assistant"] 0.9.

(** [services.filter((s) => s.domain === domain)] on the elements of a JSON
    array. *)
Fixpoint filter_services (domain : value) (items : list value) : M (list value) :=
  match items with
  | [] => ret []
  | s :: rest =>
      d <- member s "domain";;
      kept <- filter_services domain rest;;
      ret (if strict_eq d domain then s :: kept else kept)
  end.

Definition tool_get_services (args : value) : M ToolResult :=
  services <- callHA_get "/services";;
  if truthy (opt_member args "domain") then
    match payload_to_value services with
    | VArr items =>
        kept <- filter_services (opt_member args "domain") items;;
        respond (VStr (JSON_pretty (VArr kept))) ["assistant"] 0.6
    | _ => throw "services.filter is not a function"
    end
  else respond (VStr (stringify_payload services)) ["assistant"] 0.6.

(** [x || new Date(Date.now() - 24 * 60 * 60 * 1000).toISOString()] *)
Definition or_yesterday (x : value) : M value :=
  if truthy x then ret x
  else now <- Date_read;;
       ret (VStr (Date_toISOString (Date_now now - 86400000)%float)).

(** [if (v) params.append(k, v)] *)
Definition append_param (params : list (string * string)) (k : string) (v : value)
  : M (list (string * string)) :=
  if truthy v then
    t <- to_string v;;
    ret (params ++ [(k, t)])%list
  else ret params.

Definition tool_get_history (args : value) : M ToolResult :=
  entityId <- member args "entity_id";;
  startTime <- or_yesterday (prop args "start_time");;
  id <- to_string entityId;;
  let params := [("filter_entity_id", id)] in
  params <- append_param params "end_time" (prop args "end_time");;
  let params :=
    if truthy (prop args "minimal")
    then (params ++ [("minimal_response", "true"); ("no_attributes", "true")])%list
    else params in
  start <- to_string startTime;;
  history <- callHA_get ("/history/period/" ++ encodeURIComponent start
                         ++ "?" ++ URLSearchParams_toString params);;
  respond (VStr (stringify_payload history)) ["assistant"] 0.7.

Definition tool_get_logbook (args : value) : M ToolResult :=
  start_time <- member args "start_time";;
  startTime <- or_yesterday start_time;;
  params <- append_param [] "entity" (prop args "entity_id");;
  params <- append_param params "end_time" (prop args "end_time");;
  start <- to_string startTime;;
  logbook <- callHA_get ("/logbook/" ++ encodeURIComponent start
                         ++ "?" ++ URLSearchParams_toString params);;
  respond (VStr (stringify_payload logbook)) ["assistant"] 0.7.

Definition tool_get_config (args : value) : M ToolResult :=
  config <- callHA_get "/config";;
  respond (VStr (stringify_payload config)) ["assistant"] 0.6.

(** The Jinja template listing the areas. *)
Definition areas_template : string :=
  "{% set area_list = [] %}{% for area in areas() %}{% set area_list = area_list + [{'id': area, 'name': area_name(area)}] %}{% endfor %}{{ area_list | tojson }}".

Definition tool_get_areas (args : value) : M ToolResult :=
  result <- callHA "/template" "POST" (VObj [("template", VStr areas_template)]);;
  respond (payload_to_value result) ["assistant"] 0.7.

Definition tool_get_devices (args : value) : M ToolResult :=
  template <-
    (if truthy (opt_member args "area_id") then
       area <- to_string (opt_member args "area_id");;
       ret ("{{ area_devices('" ++ area ++ "') | list }}")
     else ret "{{ devices() | list }}");;
  result <- callHA "/template" "POST" (VObj [("template", VStr template)]);;
  respond (payload_to_value result) ["assistant"] 0.6.

Definition tool_validate_config (args : value) : M ToolResult :=
  result <- callHA "/config/core/check_config" "POST" VNull;;
  respond (VStr (stringify_payload result)) ["user"; "assistant"] 0.9.

Definition tool_get_error_log (args : value) : M ToolResult :=
  log <- callHA_get "/error_log";;
  let lines := value_or (opt_member args "lines") (VNum 100) in
  l <- expect_string "log" "split" (payload_to_value log);;
  let all := Str.split (ascii_of_nat 10) l in
  n <- to_number lines;;
  let logLines := Str.join Str.nl (drop (slice_from (- n)%float (length all)) all) in
  respond (VStr logLines) ["assistant"] 0.8.

Definition tool_fire_event (args : value) : M ToolResult :=
  event_type <- destructure args "event_type";;
  event_data <- destructure args "event_data";;
  sendLog "notice" "ha-event"
    (VObj [("action", VStr "fire"); ("event_type", event_type)]);;;
  t <- to_string event_type;;
  _ <- callHA ("/events/" ++ t) "POST" (value_or event_data (VObj []));;
  respond (VStr ("Event '" ++ t ++ "' fired successfully.")) ["user"] 0.9.

Definition tool_render_template (args : value) : M ToolResult :=
  template <- member args "template";;
  result <- callHA "/template" "POST" (VObj [("template", template)]);;
  respond (payload_to_value result) ["assistant"] 0.8.

Definition tool_get_calendars (args : value) : M ToolResult :=
  calendars <- callHA_get "/calendars";;
  respond (VStr (stringify_payload calendars)) ["assistant"] 0.6.

Definition tool_get_calendar_events (args : value) : M ToolResult :=
  calendar_entity <- destructure args "calendar_entity";;
  start <- (if truthy (prop args "start") then ret (prop args "start")
            else now <- Date_read;;
                 ret (VStr (Date_toISOString (Date_now now))));;
  end_ <- (if truthy (prop args "end") then ret (prop args "end")
           else now <- Date_read;;
                ret (VStr (Date_toISOString (Date_now now + 604800000)%float)));;
  c <- to_string calendar_entity;;
  s <- to_string start;;
  e <- to_string end_;;
  events <- callHA_get ("/calendars/" ++ c
                        ++ "?start=" ++ encodeURIComponent s
                        ++ "&end=" ++ encodeURIComponent e);;
  respond (VStr (stringify_payload events)) ["assistant"] 0.7.

End ServiceTools.

(** ** Tool handlers: diagnostics *)

(** [m] run to its end: the error it throws, or its result. *)
Definition attempt {A} (m : M A) : M (Error + A) :=
  fun w => let (r, w') := m w in (inr r, w').

(** [v[0]] *)
Definition index0 {H : Host} (v : value) : value :=
  match v with
  | VArr (x :: _) => x
  | VStr s =>
      match String_units s with
      | u :: _ => VStr u
      | [] => VUndefined
      end
  | VObj fields => lookup_field "0" fields
  | _ => VUndefined
  end.

(** The [diagnostics] object under construction: the properties added after
    [checks], and the checks pushed so far. *)
Record Diagnostics := {
  diag_entity_id : value;
  diag_timestamp : string;
  diag_added : list (string * value);
  diag_checks : list value;
}.

Definition push_check (d : Diagnostics) (check status details : value) : Diagnostics :=
  {| diag_entity_id := diag_entity_id d; diag_timestamp := diag_timestamp d;
     diag_added := diag_added d;
     diag_checks := diag_checks d
                    ++ [VObj [("check", check); ("status", status);
                              ("details", details)]] |}.

Definition add_property (d : Diagnostics) (k : string) (v : value) : Diagnostics :=
  {| diag_entity_id := diag_entity_id d; diag_timestamp := diag_timestamp d;
     diag_added := (diag_added d ++ [(k, v)])%list;
     diag_checks := diag_checks d |}.

Definition diagnostics_to_json (d : Diagnostics) : value :=
  VObj ([("entity_id", diag_entity_id d);
         ("timestamp", VStr (diag_timestamp d));
         ("checks", VArr (diag_checks d))] ++ diag_added d)%list.

Section Diagnose.
Context {H : Host} {R : Runtime} {E : Env} {T : Texts}.

(** The [catch] of the inner [try]: the lookup failure is recorded as one
    more check. *)
Definition entity_lookup_failed (d : Diagnostics) (error : Error) : Diagnostics :=
  push_check d (VStr "Entity Lookup") (VStr "error") (VStr (error_message error)).

(** The end of the inner [try] block: the anomaly check on the state read
    first. *)
Definition diagnose_anomaly (d : Diagnostics) (p : Payload) : M Diagnostics :=
  match p with
  | PState st =>
      now <- Date_read;;
      match detectAnomaly now st with
      | Some anomaly =>
          ret (push_check d (VStr "Anomaly Detection") (VStr (severity anomaly))
                          (VStr (reason anomaly)))
      | None => ret d
      end
  | _ => throw "Cannot read properties of undefined (reading 'split')"
  end.

(** The end of the inner [try] block, with its [catch]. *)
Definition diagnose_finish (d : Diagnostics) (p : Payload) : M Diagnostics :=
  r <- attempt (diagnose_anomaly d p);;
  match r with
  | inl e => ret (entity_lookup_failed d e)
  | inr d' => ret d'
  end.

(** The inner [try] block after [const state = await callHA(...)]; every
    step hands on the object as built so far, so that a failure keeps the
    checks already pushed. *)
Definition diagnose_steps (entity_id : value) (d : Diagnostics) (p : Payload)
  : M Diagnostics :=
  let st := payload_to_value p in
  let d := add_property d "current_state" st in
  r <- attempt (member st "state");;
  match r with
  | inl e => ret (entity_lookup_failed d e)
  | inr current =>
      let d := push_check d (VStr "Current State") (VStr "ok") current in
      let d :=
        if value_is_str current "unavailable" || value_is_str current "unknown"
        then push_check d (VStr "Availability") (VStr "warning")
               (VStr ("Entity is " ++ ToString current    (* a string, by the test *)
                      ++ ". Check device connectivity."))
        else d in
      r <- attempt (getEntityRelationships entity_id);;
      match r with
      | inl e => ret (entity_lookup_failed d e)
      | inr relationships =>
          let d := add_property d "relationships"
                     (relationships_to_json relationships) in
          let n :=
            match relationships with
            | RelDetails details => length (related_entities details)
            | RelError _ => 0%nat
            end in
          let d := push_check d (VStr "Relationships") (VStr "ok")
                     (VStr ("Found " ++ Number_toString (Number_of_nat n)
                            ++ " related entities")) in
          now <- Date_read;;
          let startTime := Date_toISOString (Date_now now - 86400000)%float in
          r <- attempt
                 (id <- to_string entity_id;;
                  let params := [("filter_entity_id", id);
                                 ("minimal_response", "true")] in
                  callHA_get ("/history/period/"
                              ++ encodeURIComponent startTime ++ "?"
                              ++ URLSearchParams_toString params));;
          match r with
          | inl e => ret (entity_lookup_failed d e)
          | inr history =>
              let h := payload_to_value history in
              if truthy h && truthy (index0 h) then
                let stateChanges := prop (index0 h) "length" in
                let quiet := strict_eq stateChanges (VNum 0) in
                let d := add_property d "history_summary"
                           (VObj [("state_changes_24h", stateChanges);
                                  ("last_changed", prop st "last_changed");
                                  ("last_updated", prop st "last_updated")]) in
                r <- attempt
                       (if quiet then ret "No state changes in last 24 hours"
                        else n <- to_string stateChanges;;
                             ret (n ++ " state changes in last 24 hours"));;
                match r with
                | inl e => ret (entity_lookup_failed d e)
                | inr details =>
                    diagnose_finish
                      (push_check d (VStr "Activity")
                         (VStr (if quiet then "info" else "ok")) (VStr details))
                      p
                end
              else diagnose_finish d p
          end
      end
  end.

Definition tool_diagnose_entity (args : value) : M ToolResult :=
  entity_id <- destructure args "entity_id";;
  sendLog "info" "diagnostics"
    (VObj [("action", VStr "diagnose"); ("entity_id", entity_id)]);;;
  now <- Date_read;;
  let d := {| diag_entity_id := entity_id;
              diag_timestamp := Date_toISOString (Date_now now);
              diag_added := []; diag_checks := [] |} in
  r <- attempt (id <- to_string entity_id;; callHA_get ("/states/" ++ id));;
  diagnostics <-
    match r with
    | inl e => ret (entity_lookup_failed d e)
    | inr p => diagnose_steps entity_id d p
    end;;
  respond (VStr (JSON_pretty (diagnostics_to_json diagnostics)))
          ["assistant"] 0.9.

End Diagnose.

(** ** Tool handlers: documentation *)

Record BreakingChange := {
  bc_version : string;
  bc_title : string;
  bc_description : string;
  bc_integration : option string;     (* [null] when absent *)
  bc_url : string;
}.

Definition knownBreakingChanges : list BreakingChange :=
  [ {| bc_version := "2024.12";
       bc_title := "Template sensor/binary_sensor syntax change";
       bc_description := "Legacy 'platform: template' under sensor/binary_sensor is deprecated. Use top-level 'template:' key.";
       bc_integration := Some "template";
       bc_url := "https://www.home-assistant.io/integrations/template/" |};
    {| bc_version := "2024.11";
       bc_title := "MQTT discovery changes";
       bc_description := "MQTT discovery payload format updated for better device support.";
       bc_integration := Some "mqtt";
       bc_url := "https://www.home-assistant.io/integrations/mqtt/" |};
    {| bc_version := "2024.10";
       bc_title := "REST sensor authentication";
       bc_description := "REST sensors now support digest authentication; some configurations may need updating.";
       bc_integration := Some "rest";
       bc_url := "https://www.home-assistant.io/integrations/rest/" |};
    {| bc_version := "2024.8";
       bc_title := "Automation trigger variables";
       bc_description := "Trigger variables are now more strictly typed in automations.";
       bc_integration := Some "automation";
       bc_url := "https://www.home-assistant.io/docs/automation/trigger/" |};
    {| bc_version := "2024.6";
       bc_title := "Time & Date sensor deprecation";
       bc_description := "The time_date platform is deprecated. Use template sensors with now() instead.";
       bc_integration := Some "time_date";
       bc_url := "https://www.home-assistant.io/integrations/time_date/" |};
    {| bc_version := "2024.4";
       bc_title := "Template switch/cover/fan syntax";
       bc_description := "Template platforms for switch, cover, and fan can now use the top-level 'template:' key.";
       bc_integration := Some "template";
       bc_url := "https://www.home-assistant.io/integrations/template/" |};
    {| bc_version := "2024.1";
       bc_title := "Legacy template sensor syntax deprecated";
       bc_description := "The 'platform: template' syntax under sensor: is deprecated in favor of the template: integration.";
       bc_integration := Some "template";
       bc_url := "https://www.home-assistant.io/integrations/template/" |};
    {| bc_version := "2023.12";
       bc_title := "Entity naming convention changes";
       bc_description := "Entities now follow stricter naming conventions. Some entity IDs may have changed.";
       bc_integration := None;
       bc_url := "https://www.home-assistant.io/blog/2023/12/" |};
    {| bc_version := "2023.8";
       bc_title := "entity_namespace deprecated";
       bc_description := "The entity_namespace option is deprecated. Use unique_id instead.";
       bc_integration := None;
       bc_url := "https://www.home-assistant.io/blog/2023/08/" |};
    {| bc_version := "2023.3";
       bc_title := "white_value deprecated in light services";
       bc_description := "Use 'white' instead of 'white_value' in light service calls.";
       bc_integration := Some "light";
       bc_url := "https://www.home-assistant.io/integrations/light/" |} ].

(** [s.replace(".", "/")]: the first occurrence only. *)
Fixpoint replace_first_dot (s : string) : string :=
  match s with
  | EmptyString => EmptyString
  | String a r =>
      if Ascii.eqb a "." then String "/" r else String a (replace_first_dot r)
  end.

Section DocTools.
Context {H : Host} {R : Runtime} {E : Env} {T : Texts}.

(** The version lookup shared by the two documentation tools:
    [try { haVersion = (await callHA("/config")).version || "unknown" }
     catch (e) { sendLog("warning", ...) }]. *)
Definition fetch_haVersion : M value :=
  try_catch
    (config <- callHA_get "/config";;
     version <- member (payload_to_value config) "version";;
     ret (value_or version (VStr "unknown")))
    (fun e =>
       sendLog "warning" "docs"
         (VObj [("action", VStr "version_fetch_failed");
                ("error", VStr (error_message e))]);;;
       ret (VStr "unknown")).

(** The text of the [n]-th YAML example of a documentation page. *)
Definition example_block (i : nat) (ex : string) : string :=
  "### Example " ++ Number_toString (Number_of_nat (i + 1)) ++ Str.nl
  ++ "```yaml" ++ Str.nl ++ ex ++ Str.nl ++ "```".

Definition tool_get_integration_docs (args : value) : M ToolResult :=
  integration <- destructure args "integration";;
  section_arg <- destructure args "section";;
  let section := match section_arg with
                 | VUndefined => VStr "configuration"
                 | v => v
                 end in
  sendLog "info" "docs"
    (VObj [("action", VStr "get_integration_docs"); ("integration", integration);
           ("section", section)]);;;
  name <- to_string integration;;
  let docs_url := HA_INTEGRATIONS_URL ++ "/" ++ name ++ "/" in
  haVersion <- fetch_haVersion;;
  try_catch
    (html <- fetchUrl docs_url;;
     let '(title, description, content) := extractContentFromHtml html in
     let examples := extractYamlExamples content in
     let resultContent :=
       if value_is_str section "configuration" then
         match extractConfigurationSection content with
         | Some cs => if String.eqb cs "" then content else cs
         | None => content
         end
       else if value_is_str section "examples" && (0 <? length examples)%nat then
         "## YAML Examples" ++ Str.nl ++ Str.nl
         ++ Str.join (Str.nl ++ Str.nl) (imap example_block examples)
       else content in
     now <- Date_read;;
     let fetched_at := Date_toISOString (Date_now now) in
     version <- to_string haVersion;;
     respond
       (VStr ("# " ++ (if String.eqb title "" then name else title)
              ++ Str.nl ++ Str.nl
              ++ "**Integration:** " ++ name ++ Str.nl
              ++ "**Docs URL:** " ++ docs_url ++ Str.nl
              ++ "**Your HA Version:** " ++ version ++ Str.nl
              ++ "**Fetched:** " ++ fetched_at ++ Str.nl ++ Str.nl
              ++ "---" ++ Str.nl ++ Str.nl ++ substring0 15000 resultContent))
       ["assistant"] 0.9)
    (fun error =>
       version <- to_string haVersion;;
       respond
         (VStr ("Unable to fetch documentation for '" ++ name ++ "'."
                ++ Str.nl ++ Str.nl
                ++ "**Docs URL:** " ++ docs_url ++ Str.nl
                ++ "**Error:** " ++ error_message error ++ Str.nl ++ Str.nl
                ++ "**Suggestion:** You can:" ++ Str.nl
                ++ "1. Try visiting the URL directly: " ++ docs_url ++ Str.nl
                ++ "2. Check if the integration name is correct" ++ Str.nl
                ++ "3. Use `validate_config` to check your configuration"
                ++ Str.nl ++ Str.nl
                ++ "**Your HA Version:** " ++ version))
         ["assistant"] 0.8).

(** The two filters on the curated list. *)
Definition filter_changes (integration version : value) : list BreakingChange :=
  let by_integration :=
    if truthy integration
    then List.filter (fun c => match bc_integration c with
                               | Some i => value_is_str integration i
                               | None => true
                               end) knownBreakingChanges
    else knownBreakingChanges in
  if truthy version
  then List.filter (fun c => value_is_str version (bc_version c)) by_integration
  else by_integration.

(** [version || haVersion.split(".").slice(0, 2).join(".")] *)
Definition targetVersion (version haVersion : value) : M value :=
  if truthy version then ret version
  else
    v <- expect_string "haVersion" "split" haVersion;;
    ret (VStr (Str.join "." (take 2 (Str.split "." v)))).

(** The release notes excerpt: every failure inside the [try] leaves it
    empty. *)
Definition release_notes (target : value) : M string :=
  try_catch
    (t <- expect_string "targetVersion" "replace" target;;
     html <- fetchUrl (HA_BLOG_URL ++ "/" ++ replace_first_dot t ++ "/");;
     let '(_, _, content) := extractContentFromHtml html in
     match breaking_changes_section content with
     | Some m => ret (substring0 5000 m)
     | None => ret ""
     end)
    (fun e =>
       sendLog "debug" "docs"
         (VObj [("action", VStr "release_notes_fetch_failed");
                ("error", VStr (error_message e))]);;;
       ret "").

Definition change_text (c : BreakingChange) : string :=
  "### " ++ bc_version c ++ ": " ++ bc_title c ++ Str.nl
  ++ bc_description c ++ Str.nl
  ++ "**More info:** " ++ bc_url c ++ Str.nl ++ Str.nl.

Definition tool_get_breaking_changes (args : value) : M ToolResult :=
  integration <- destructure args "integration";;
  version <- destructure args "version";;
  sendLog "info" "docs"
    (VObj [("action", VStr "get_breaking_changes"); ("integration", integration);
           ("version", version)]);;;
  haVersion <- fetch_haVersion;;
  let filteredChanges := filter_changes integration version in
  target <- targetVersion version haVersion;;
  releaseNotesContent <- release_notes target;;
  installed <- to_string haVersion;;
  queried <-
    (if truthy integration then
       i <- to_string integration;;
       ret ("integration '" ++ i ++ "'")
     else ret "all integrations");;
  for_version <-
    (if truthy version then
       v <- to_string version;;
       ret (" for version " ++ v)
     else ret "");;
  let responseText :=
    "# Breaking Changes" ++ Str.nl ++ Str.nl
    ++ "**Your HA Version:** " ++ installed ++ Str.nl
    ++ "**Queried:** " ++ queried ++ for_version
    ++ Str.nl ++ Str.nl
    ++ (if (0 <? length filteredChanges)%nat
        then "## Known Breaking Changes" ++ Str.nl ++ Str.nl
             ++ String.concat "" (map change_text filteredChanges)
        else "No specific breaking changes found for the query." ++ Str.nl ++ Str.nl)
    ++ (if String.eqb releaseNotesContent "" then ""
        else "## From Release Notes" ++ Str.nl ++ Str.nl ++ releaseNotesContent
             ++ Str.nl)
    ++ Str.nl ++ "---" ++ Str.nl ++ "**Tip:** Always check " ++ HA_BLOG_URL
    ++ "/categories/release-notes/ for the latest changes." in
  respond (VStr responseText) ["assistant"] 0.9.

End DocTools.

(** ** Tool handlers: configuration syntax check *)

Definition tab : string := String (ascii_of_nat 9) EmptyString.

Section SyntaxTool.
Context {H : Host} {R : Runtime} {E : Env} {T : Texts}.

(** [yaml_config.includes("\t")] *)
Definition includes_tab (yaml_config : value) : M bool :=
  match yaml_config with
  | VStr s => ret (Str.includes s tab)
  | VArr items => ret (existsb (strict_eq (VStr tab)) items)
  | VUndefined => throw "Cannot read properties of undefined (reading 'includes')"
  | VNull => throw "Cannot read properties of null (reading 'includes')"
  | _ => throw "yaml_config.includes is not a function"
  end.

(** [re.test(s)] on an expression literal evaluated in place. *)
Definition test_literal (re : RegExp) (s : string) : bool :=
  fst (RegExp_test re s).

(** [checkConfigForDeprecations(yamlConfig, integration)] on the table of
    the module. The first pattern that is not skipped converts [yamlConfig]
    to a string for its [test], before anything else is done: the call
    throws there when the conversion does not complete. Otherwise the loop
    runs to its end, and the table holds the expression objects as the
    tests left them. *)
Definition check_deprecations (yamlConfig integration_arg : value)
  : M DeprecationReport :=
  ms <- get_module;;
  if existsb (fun p => negb (skipped integration_arg p)) (deprecation_table ms)
     && negb (printable yamlConfig)
  then throw "Cannot convert object to primitive value"
  else
    let (report, table') :=
      checkConfigForDeprecations (deprecation_table ms) yamlConfig
                                 integration_arg in
    put_module {| currentLogLevel := currentLogLevel ms;
                  deprecation_table := table' |};;;
    ret report.

Definition bullet_list (items : list string) : string :=
  String.concat "" (map (fun i => "- " ++ i ++ Str.nl) items).

Definition tool_check_config_syntax (args : value) : M ToolResult :=
  yaml_config <- destructure args "yaml_config";;
  integration <- destructure args "integration";;
  sendLog "info" "docs"
    (VObj [("action", VStr "check_config_syntax"); ("integration", integration)]);;;
  report <- check_deprecations yaml_config
              (match integration with VUndefined => VNull | v => v end);;
  has_tab <- includes_tab yaml_config;;
  yaml <- to_string yaml_config;;
  let additionalWarnings :=
    ((if has_tab
      then ["Tab characters detected. YAML requires spaces for indentation."]
      else [])
     ++ (if negb (test_literal
                    (re_m true [One cls_lower_underscore; Star cls_lower_underscore;
                                Lit ":"]) yaml)
         then ["No top-level key detected. Configuration should start with a domain key."]
         else []))%list in
  let additionalSuggestions :=
    ((if has_tab
      then ["Replace all tabs with spaces (2 spaces per indent level is standard for Home Assistant)."]
      else [])
     ++ (if test_literal (re_m false [Lit ": |"; Eol]) yaml
         then ["Multi-line strings with '|' should have content on the following lines, indented."]
         else [])
     ++ (if test_literal (re_m false [Lit "entity_id:"; Star cls_dot; Lit ","])
                         yaml
         then ["Multiple entity_ids should be formatted as a YAML list, not comma-separated."]
         else []))%list in
  let allWarnings := (warnings report ++ additionalWarnings)%list in
  let allSuggestions := (suggestions report ++ additionalSuggestions)%list in
  docsUrl <-
    (if truthy integration then
       name <- to_string integration;;
       ret (HA_INTEGRATIONS_URL ++ "/" ++ name ++ "/")
     else ret "https://www.home-assistant.io/docs/configuration/");;
  let valid :=
    (length (List.filter (fun w => Str.includes w "DEPRECATED") allWarnings) =? 0)%nat in
  let responseText :=
    "# Configuration Syntax Check" ++ Str.nl ++ Str.nl
    ++ "**Status:** " ++ (if valid then "OK" else "Issues Found") ++ Str.nl
    ++ "**Deprecated Syntax:** " ++ (if deprecated report then "Yes" else "No")
    ++ Str.nl
    ++ "**Docs:** " ++ docsUrl ++ Str.nl ++ Str.nl
    ++ (if (0 <? length allWarnings)%nat
        then "## Warnings" ++ Str.nl ++ Str.nl ++ bullet_list allWarnings ++ Str.nl
        else "")
    ++ (if (0 <? length allSuggestions)%nat
        then "## Suggestions" ++ Str.nl ++ Str.nl ++ bullet_list allSuggestions
             ++ Str.nl
        else "")
    ++ (if (length allWarnings =? 0)%nat && (length allSuggestions =? 0)%nat
        then "No issues detected in the configuration syntax." ++ Str.nl ++ Str.nl
             ++ "**Note:** This is a basic syntax check. Use `validate_config` for full Home Assistant validation."
             ++ Str.nl
        else "") in
  respond (VStr responseText) ["assistant"] 0.9.

End SyntaxTool.

(** ** The request handlers *)

(** The names of the entries of [TOOLS], in order. *)
Definition TOOL_NAMES : list string :=
  ["get_states"; "search_entities"; "get_entity_details"; "call_service";
   "get_services"; "get_history"; "get_logbook"; "get_config"; "get_areas";
   "get_devices"; "validate_config"; "get_error_log"; "fire_event";
   "render_template"; "get_calendars"; "get_calendar_events";
   "detect_anomalies"; "get_suggestions"; "diagnose_entity";
   "get_integration_docs"; "get_breaking_changes"; "check_config_syntax"].

Section Handlers.
Context {H : Host} {R : Runtime} {E : Env} {T : Texts}.

(** The cases of the [switch (name)] of the CallTool handler. *)
Definition tool_cases : list (string * (value -> M ToolResult)) :=
  [("get_states", tool_get_states);
   ("search_entities", tool_search_entities);
   ("get_entity_details", tool_get_entity_details);
   ("call_service", tool_call_service);
   ("get_services", tool_get_services);
   ("get_history", tool_get_history);
   ("get_logbook", tool_get_logbook);
   ("get_config", tool_get_config);
   ("get_areas", tool_get_areas);
   ("get_devices", tool_get_devices);
   ("validate_config", tool_validate_config);
   ("get_error_log", tool_get_error_log);
   ("fire_event", tool_fire_event);
   ("render_template", tool_render_template);
   ("get_calendars", tool_get_calendars);
   ("get_calendar_events", tool_get_calendar_events);
   ("detect_anomalies", tool_detect_anomalies);
   ("get_suggestions", tool_get_suggestions);
   ("diagnose_entity", tool_diagnose_entity);
   ("get_integration_docs", tool_get_integration_docs);
   ("get_breaking_changes", tool_get_breaking_changes);
   ("check_config_syntax", tool_check_config_syntax)].

Fixpoint find_case {A} (name : string) (cases : list (string * A)) : option A :=
  match cases with
  | [] => None
  | (n, h) :: rest => if String.eqb name n then Some h else find_case name rest
  end.

(** The [switch] statement: the case of that name, or the [default]. *)
Definition dispatch (name : string) (args : value) : M ToolResult :=
  match find_case name tool_cases with
  | Some handler => handler args
  | None => throw ("Unknown tool: " ++ name)
  end.

(** The result built in the [catch] of the CallTool handler. *)
Definition error_result (error : Error) : ToolResult :=
  makeCompatibleResponse
    [createTextContent (VStr ("Error: " ++ error_message error)) ["user"] 1.0]
    true.

Definition CallTool (name : string) (args : value) : M ToolResult :=
  sendLog "info" "mcp-server"
    (VObj [("action", VStr "call_tool"); ("tool", VStr name); ("args", args)]);;;
  try_catch (dispatch name args)
    (fun error =>
       sendLog "error" "mcp-server"
         (VObj [("action", VStr "tool_error"); ("tool", VStr name);
                ("error", VStr (error_message error))]);;;
       ret (error_result error)).

(** [LOG_LEVELS.includes(level)] *)
Definition is_log_level (level : string) : bool :=
  existsb (String.eqb level) LOG_LEVELS.

(** The SetLevel handler; its result is the empty object. *)
Definition SetLevel (level : string) : M unit :=
  if is_log_level level then
    ms <- get_module;;
    put_module {| currentLogLevel := level;
                  deprecation_table := deprecation_table ms |};;;
    sendLog "info" "mcp-server"
      (VObj [("action", VStr "log_level_changed"); ("level", VStr level)]);;;
    ret tt
  else throw ("Invalid log level: " ++ level).

Definition ListTools : M value :=
  sendLog "debug" "mcp-server" (VObj [("action", VStr "list_tools")]);;;
  ret (VObj [("tools",
              VArr (map (fun name =>
                           VObj [("name", VStr name);
                                 ("description", VStr (tool_description name));
                                 ("inputSchema", tool_inputSchema name)])
                        TOOL_NAMES))]).

Definition ListResources : M value :=
  sendLog "debug" "mcp-server" (VObj [("action", VStr "list_resources")]);;;
  ret (VObj [("resources", RESOURCES)]).

Definition ListResourceTemplates : M value :=
  ret (VObj [("resourceTemplates", RESOURCE_TEMPLATES)]).

Definition ListPrompts : M value :=
  sendLog "debug" "mcp-server" (VObj [("action", VStr "list_prompts")]);;;
  ret (VObj [("prompts", PROMPTS)]).

End Handlers.

(** ** Resources and prompts *)

Record ResourceContents := {
  rc_uri : string;
  mimeType : string;
  rc_text : value;
  rc_annotations : Annotations;
}.

Record PromptResult := {
  description : string;
  prompt_message : string;      (* the text of the one user message *)
}.

(** [\w] *)
Definition is_word_char (a : ascii) : bool :=
  let x := nat_of_ascii a in
  ((48 <=? x)%nat && (x <=? 57)%nat) || ((65 <=? x)%nat && (x <=? 90)%nat)
  || ((97 <=? x)%nat && (x <=? 122)%nat) || (x =? 95)%nat.

Fixpoint all_word_chars (s : string) : bool :=
  match s with
  | EmptyString => true
  | String a r => is_word_char a && all_word_chars r
  end.

(** No line terminator occurs in [s]. *)
Fixpoint single_line (s : string) : bool :=
  match s with
  | EmptyString => true
  | String _ r => (line_terminator_width s =? 0)%nat && single_line r
  end.

(** [uri.match(/^prefix(\w+)$/)], the captured group *)
Definition capture_word (prefix uri : string) : option string :=
  match strip_prefix prefix uri with
  | Some rest =>
      if negb (String.eqb rest "") && all_word_chars rest then Some rest else None
  | None => None
  end.

(** [uri.match(/^prefix(.+)$/)], the captured group *)
Definition capture_rest (prefix uri : string) : option string :=
  match strip_prefix prefix uri with
  | Some rest =>
      if negb (String.eqb rest "") && single_line rest then Some rest else None
  | None => None
  end.

Section Resources.
Context {H : Host} {R : Runtime} {E : Env} {T : Texts}.

Definition contents (u mime : string) (t : value) (aud : list string)
    (prio : float) : M ResourceContents :=
  ret {| rc_uri := u; mimeType := mime; rc_text := t;
         rc_annotations := {| audience := aud; priority := prio |} |}.

(** [/states] as an array, then a projection of the states of one domain. *)
Definition list_domain (u prefix : string) (project : EntityState -> value)
    (prio : float) : M ResourceContents :=
  p <- callHA_get "/states";;
  states <- expect_states "states.filter is not a function" p;;
  contents u "application/json"
    (VStr (JSON_pretty
             (VArr (map project
                        (List.filter (fun s => Str.startsWith (entity_id s) prefix)
                                     states)))))
    ["assistant"] prio.

(** The body of the [try] of the ReadResource handler. *)
Definition read_resource (u : string) : M ResourceContents :=
  if String.eqb u "ha://states/summary" then
    p <- callHA_get "/states";;
    states <- expect_states "states is not iterable" p;;
    clk <- Date_reads (length states);;
    summary <- generateStateSummary clk states;;
    contents u "text/markdown" (VStr summary) ["user"; "assistant"] 0.9
  else if String.eqb u "ha://automations" then
    list_domain u "automation."
      (fun s => VObj [("entity_id", VStr (entity_id s));
                      ("friendly_name", opt_str (attr friendly_name s));
                      ("state", VStr (state s));
                      ("last_triggered", opt_str (attr last_triggered s))])
      0.7
  else if String.eqb u "ha://scripts" then
    list_domain u "script."
      (fun s => VObj [("entity_id", VStr (entity_id s));
                      ("friendly_name", opt_str (attr friendly_name s));
                      ("state", VStr (state s))])
      0.6
  else if String.eqb u "ha://scenes" then
    list_domain u "scene."
      (fun s => VObj [("entity_id", VStr (entity_id s));
                      ("friendly_name", opt_str (attr friendly_name s))])
      0.6
  else if String.eqb u "ha://areas" then
    result <- callHA "/template" "POST" (VObj [("template", VStr areas_template)]);;
    contents u "application/json" (payload_to_value result) ["assistant"] 0.7
  else if String.eqb u "ha://config" then
    config <- callHA_get "/config";;
    contents u "application/json" (VStr (stringify_payload config)) ["assistant"] 0.5
  else if String.eqb u "ha://integrations" then
    config <- callHA_get "/config";;
    components <- member (payload_to_value config) "components";;
    contents u "application/json"
      (VStr (JSON_pretty (value_or components (VArr [])))) ["assistant"] 0.4
  else if String.eqb u "ha://anomalies" then
    p <- callHA_get "/states";;
    states <- expect_states "states.map is not a function" p;;
    clk <- Date_reads (length states);;
    contents u "application/json"
      (VStr (JSON_pretty
               (VArr (map anomaly_to_json
                          (filter_Boolean (map_detectAnomaly clk states))))))
      ["user"; "assistant"] 0.8
  else if String.eqb u "ha://suggestions" then
    p <- callHA_get "/states";;
    states <- expect_states "states.filter is not a function" p;;
    contents u "application/json"
      (VStr (JSON_pretty (VArr (generateSuggestions states))))
      ["user"; "assistant"] 0.7
  else
    match capture_word "ha://states/" u with
    | Some domain => list_domain u (domain ++ ".") simplified 0.7
    | None =>
    match capture_rest "ha://entity/" u with
    | Some entityId =>
        relationships <- getEntityRelationships (VStr entityId);;
        contents u "application/json"
          (VStr (JSON_pretty (relationships_to_json relationships)))
          ["assistant"] 0.8
    | None =>
    match capture_rest "ha://area/" u with
    | Some areaId =>
        p <- callHA_get "/states";;
        states <- expect_states "states.filter is not a function" p;;
        let areaEntities :=
          List.filter (fun s => is_str (attr area_id s) areaId) states in
        areaNameResult <-
          callHA "/template" "POST"
            (VObj [("template", VStr ("{{ area_name('" ++ areaId ++ "') }}"))]);;
        contents u "application/json"
          (VStr (JSON_pretty
                   (VObj [("area_id", VStr areaId);
                          ("area_name", payload_to_value areaNameResult);
                          ("entities",
                           VArr (map (fun s =>
                                        VObj [("entity_id", VStr (entity_id s));
                                              ("state", VStr (state s));
                                              ("friendly_name",
                                               opt_str (attr friendly_name s))])
                                     areaEntities))])))
          ["assistant"] 0.7
    | None =>
    match capture_rest "ha://history/" u with
    | Some entityId =>
        now <- Date_read;;
        let startTime := Date_toISOString (Date_now now - 86400000)%float in
        let params := [("filter_entity_id", entityId);
                       ("minimal_response", "true")] in
        history <- callHA_get ("/history/period/" ++ encodeURIComponent startTime
                               ++ "?" ++ URLSearchParams_toString params);;
        contents u "application/json" (VStr (stringify_payload history))
                 ["assistant"] 0.6
    | None => throw ("Unknown resource: " ++ u)
    end end end end.

Definition ReadResource (u : string) : M ResourceContents :=
  sendLog "debug" "mcp-server"
    (VObj [("action", VStr "read_resource"); ("uri", VStr u)]);;;
  try_catch (read_resource u)
    (fun error =>
       sendLog "error" "mcp-server"
         (VObj [("action", VStr "read_resource_error"); ("uri", VStr u);
                ("error", VStr (error_message error))]);;;
       throw ("Failed to read resource " ++ u ++ ": " ++ error_message error)).

(** The body of the [try] of the GetPrompt handler. The arguments of a
    prompt reach it as strings ([arguments] is a record of strings in the
    request schema of the protocol). *)
Definition get_prompt (name : string) (args : value) : M PromptResult :=
  if String.eqb name "troubleshoot_entity" then
    let entityId := opt_member args "entity_id" in
    if negb (truthy entityId) then throw "entity_id is required"
    else
      let problemDesc := value_or (opt_member args "problem_description")
                                  (VStr "not working as expected") in
      ret {| description := "Troubleshooting guide for " ++ ToString entityId;
             prompt_message := prompt_text name [entityId; problemDesc] |}
  else if String.eqb name "create_automation" then
    let goal := opt_member args "goal" in
    if negb (truthy goal) then throw "goal is required"
    else ret {| description := "Automation creation guide";
                prompt_message := prompt_text name [goal] |}
  else if String.eqb name "energy_audit" then
    ret {| description := "Energy usage analysis and optimization";
           prompt_message := prompt_text name [] |}
  else if String.eqb name "scene_builder" then
    let area := value_or (opt_member args "area") (VStr "the specified area") in
    let mood := value_or (opt_member args "mood") (VStr "comfortable") in
    ret {| description := "Interactive scene creation";
           prompt_message := prompt_text name [area; mood] |}
  else if String.eqb name "security_review" then
    ret {| description := "Security review of Home Assistant setup";
           prompt_message := prompt_text name [] |}
  else if String.eqb name "morning_routine" then
    let wakeTime := value_or (opt_member args "wake_time") (VStr "7:00 AM") in
    ret {| description := "Morning routine automation design";
           prompt_message := prompt_text name [wakeTime] |}
  else throw ("Unknown prompt: " ++ name).

Definition GetPrompt (name : string) (args : value) : M PromptResult :=
  sendLog "info" "mcp-server"
    (VObj [("action", VStr "get_prompt"); ("prompt", VStr name)]);;;
  try_catch (get_prompt name args)
    (fun error =>
       sendLog "error" "mcp-server"
         (VObj [("action", VStr "get_prompt_error"); ("prompt", VStr name);
                ("error", VStr (error_message error))]);;;
       throw ("Failed to get prompt " ++ name ++ ": " ++ error_message error)).

(** The requests of the protocol the server registers a handler for. *)
Inductive Request_kind :=
  | ReqSetLevel (level : string)
  | ReqListTools
  | ReqCallTool (name : string) (args : value)
  | ReqListResources
  | ReqListResourceTemplates
  | ReqReadResource (uri : string)
  | ReqListPrompts
  | ReqGetPrompt (name : string) (args : value).

(** What is left of the world once the handler of a request has settled,
    whatever its answer. *)
Definition handle (r : Request_kind) (w : World) : World :=
  match r with
  | ReqSetLevel level => snd (SetLevel level w)
  | ReqListTools => snd (ListTools w)
  | ReqCallTool name args => snd (CallTool name args w)
  | ReqListResources => snd (ListResources w)
  | ReqListResourceTemplates => snd (ListResourceTemplates w)
  | ReqReadResource u => snd (ReadResource u w)
  | ReqListPrompts => snd (ListPrompts w)
  | ReqGetPrompt name args => snd (GetPrompt name args w)
  end.

End Resources.

(** The world when the server starts, and after it has served a sequence of
    requests. *)
Definition startup : World :=
  {| module_state :=
       {| currentLogLevel := "info"; deprecation_table := DEPRECATION_PATTERNS |};
     ticks := 0; trace := [] |}.

Definition serve {H : Host} {R : Runtime} {E : Env} {T : Texts}
    (requests : list Request_kind) (w : World) : World :=
  fold_left (fun w r => handle r w) requests w.

(** ** Effect summaries

    What a computation of the handler monad may do to the world, stated on
    its runs. *)

(** The URL of the request starts with the text of [SUPERVISOR_API]: the
    request is for the host [supervisor]. (The handlers interpolate their
    arguments into the path as they are, so that the path itself may lead
    out of [/core/api].) Or the request is for the documentation site. *)
Definition to_supervisor (r : Request) : bool :=
  Str.startsWith (url r) "http://supervisor/core/api".

Definition to_docs (r : Request) : bool :=
  Str.startsWith (url r) "https://www.home-assistant.io/".

(** [args] is a value whose properties can be read. *)
Definition defined (v : value) : bool :=
  match v with
  | VUndefined | VNull => false
  | _ => true
  end.

(** The run of [m] from [w] adds the events [new] to the trace. *)
Definition adds {A} (m : M A) (w : World) (new : list Event) : Prop :=
  trace (snd (m w)) = (new ++ trace w)%list.

(** [m] only adds to the trace, every request it sends satisfies [P], and
    it leaves the module state as it is when the deprecation table is the
    one of the script. *)
Definition sound {A} (P : Request -> Prop) (m : M A) : Prop :=
  forall w,
    (exists new, adds m w new /\ forall r, Fetched r ∈ new -> P r)
    /\ (deprecation_table (module_state w) = DEPRECATION_PATTERNS ->
        module_state (snd (m w)) = module_state w).


(** No run of [m] ends in a thrown error. *)
Definition never_throws {A} (m : M A) : Prop :=
  forall w, exists a, fst (m w) = inr a.

(** No run of [m] ends in a thrown error, and every result satisfies [Q]. *)
Definition returns {A} (Q : A -> Prop) (m : M A) : Prop :=
  forall w, exists a, fst (m w) = inr a /\ Q a.

(** Every property of [args] converts to a string: no value of the
    arguments object is an object with a [toString] property of its own, or
    an array that holds one. *)
Definition printable_args (args : value) : Prop :=
  forall k, printable (prop args k) = true.

(** The requests among the events of a trace. *)
Definition requests_of (events : list Event) : list Request :=
  omap (fun e => match e with
                 | Fetched r => Some r
                 | Logged _ => None
                 end) events.

(** The two tools that read pages of the documentation site. *)
Definition DOCS_TOOLS : list string :=
  ["get_integration_docs"; "get_breaking_changes"].

(** The requests the handler of the tool [name] may send. *)
Definition allowed (name : string) (r : Request) : Prop :=
  to_supervisor r = true \/ (name ∈ DOCS_TOOLS /\ to_docs r = true).

(** The request of [callHA(endpoint, method, body)]: the [options] object
    it builds and the URL it fetches. *)
Definition ha_request {R : Runtime} {E : Env} (endpoint method : string)
    (body : value) : Request :=
  {| url := SUPERVISOR_API ++ endpoint;
     method := Some method;
     headers := [("Authorization", "Bearer " ++ SUPERVISOR_TOKEN);
                 ("Content-Type", "application/json")];
     req_body := if truthy body then Some (JSON_stringify body) else None |}.

(** The request of [fetchUrl(url)]. *)
Definition docs_request (u : string) : Request :=
  {| url := u; method := None;
     headers := [("User-Agent", "HomeAssistant-MCP-Server/2.1.0");
                 ("Accept", "text/html,application/xhtml+xml,text/plain")];
     req_body := None |}.

(** The tools whose handler calls the API with [POST]. *)
Definition POST_TOOLS : list string :=
  ["call_service"; "get_areas"; "get_devices"; "validate_config"; "fire_event";
   "render_template"].

(** The names of a header list. *)
Definition header_names (r : Request) : list string := map fst (headers r).

(** Every run of [m] sends the requests [rs] (latest first) and no other. *)
Definition sends {A} (rs : list Request) (m : M A) : Prop :=
  forall w, exists new, adds m w new /\ requests_of new = rs.

(** Every result [m] settles with has no [isError] flag. *)
Definition unflagged (m : M ToolResult) : Prop :=
  forall w res, fst (m w) = inr res -> isError res = false.

(** * A sample runtime and world

    An executable instance of the runtime interface, used to run the
    definitions on concrete inputs. It agrees with Node on the inputs it
    accepts: decimal literals of at most fifteen digits without exponent,
    ISO timestamps [YYYY-MM-DDTHH:MM:SSZ], ASCII case mapping, numbers below
    [1e21] whose shortest decimal form is their exact one (the integers and
    the binary fractions of the examples), strings of the Basic Multilingual
    Plane. *)

Module Sample.

Definition digit (a : ascii) : option Z :=
  let x := Z.of_nat (nat_of_ascii a) in
  if (48 <=? x) && (x <=? 57) then Some (x - 48) else None.

(** The digits at the head of [s]: their value after [acc], their number,
    and the rest of [s]. *)
Fixpoint read_digits (s : string) (acc : Z) (n : nat) : Z * nat * string :=
  match s with
  | String a r =>
      match digit a with
      | Some d => read_digits r (10 * acc + d) (S n)
      | None => (acc, n, s)
      end
  | EmptyString => (acc, n, s)
  end.

(** An optional sign, digits and an optional fraction at the head of [s]:
    the number read and what follows it. *)
Definition read_decimal (s : string) : option (float * string) :=
  let '(negative, s1) :=
    match s with
    | String "-" r => (true, r)
    | String "+" r => (false, r)
    | _ => (false, s)
    end in
  let '(whole, n1, s2) := read_digits s1 0 0 in
  let '(mantissa, n2, s3) :=
    match s2 with
    | String "." r => read_digits r whole 0
    | _ => (whole, 0%nat, s2)
    end in
  if ((n1 + n2 =? 0)%nat || (15 <? n1 + n2)%nat)%bool then None
  else
    let q := (Number_of_Z mantissa / Number_of_Z (10 ^ Z.of_nat n2))%float in
    Some (if negative then (- q)%float else q, s3).

Definition sample_parseFloat (s : string) : float :=
  match read_decimal s with
  | Some (x, _) => x
  | None => nan
  end.

Definition sample_StringToNumber (s : string) : float :=
  if String.eqb s "" then 0%float
  else match read_decimal s with
       | Some (x, EmptyString) => x
       | _ => nan
       end.

(** The digits of the fraction [r / d], [r < d], a power of two [d]. *)
Fixpoint fraction_digits (fuel : nat) (r d : Z) : string :=
  match fuel with
  | O => ""
  | S fuel' =>
      if r =? 0 then ""
      else pretty (10 * r / d) ++ fraction_digits fuel' (10 * r mod d) d
  end.

Definition sample_Number_toString (x : float) : string :=
  match Prim2SF x with
  | S754_nan => "NaN"
  | S754_infinity s => if s then "-Infinity" else "Infinity"
  | S754_zero _ => "0"
  | S754_finite s m e =>
      let sign := if s then "-" else "" in
      if 0 <=? e then sign ++ pretty (Z.pos m * 2 ^ e)
      else
        let d := 2 ^ (- e) in
        sign ++ pretty (Z.pos m / d)
        ++ (if Z.pos m mod d =? 0 then ""
            else "." ++ fraction_digits (Z.to_nat (- e)) (Z.pos m mod d) d)
  end.

Definition sample_Number_toFixed1 (x : float) : string :=
  match Prim2SF x with
  | S754_nan => "NaN"
  | S754_infinity s => if s then "-Infinity" else "Infinity"
  | S754_zero _ => "0.0"
  | S754_finite s m e =>
      let n :=
        if 0 <=? e then 10 * Z.pos m * 2 ^ e
        else
          let d := 2 ^ (- e) in
          10 * Z.pos m / d + (if d <=? 2 * (10 * Z.pos m mod d) then 1 else 0) in
      (if s then "-" else "") ++ pretty (n / 10) ++ "." ++ pretty (n mod 10)
  end.

(** Days from 1970-01-01 to the civil date [y]-[m]-[d]. *)
Definition days_from_civil (y m d : Z) : Z :=
  let y' := if m <=? 2 then y - 1 else y in
  let era := y' / 400 in
  let yoe := y' - era * 400 in
  let doy := (153 * (if 2 <? m then m - 3 else m + 9) + 2) / 5 + d - 1 in
  let doe := yoe * 365 + yoe / 4 - yoe / 100 + doy in
  era * 146097 + doe - 719468.

Definition days_in_month (y m : Z) : Z :=
  if m =? 2 then
    if ((y mod 4 =? 0) && negb (y mod 100 =? 0)) || (y mod 400 =? 0) then 29 else 28
  else if (m =? 4) || (m =? 6) || (m =? 9) || (m =? 11) then 30
  else 31.

(** Exactly [n] digits at the head of [s]. *)
Definition fixed_digits (n : nat) (s : string) : option (Z * string) :=
  let '(v, k, rest) := read_digits (String.substring 0 n s) 0 0 in
  if (k =? n)%nat && String.eqb rest ""
  then Some (v, String.substring n (String.length s - n) s)
  else None.

Definition expect_char (c : ascii) (s : string) : option string :=
  match s with
  | String a r => if Ascii.eqb a c then Some r else None
  | EmptyString => None
  end.

Definition sample_Date_getTime (s : string) : float :=
  default nan
    ('(y, s) ← fixed_digits 4 s; s ← expect_char "-" s;
     '(m, s) ← fixed_digits 2 s; s ← expect_char "-" s;
     '(d, s) ← fixed_digits 2 s; s ← expect_char "T" s;
     '(hh, s) ← fixed_digits 2 s; s ← expect_char ":" s;
     '(mm, s) ← fixed_digits 2 s; s ← expect_char ":" s;
     '(ss, s) ← fixed_digits 2 s;
     if String.eqb s "Z"
        && (1 <=? m) && (m <=? 12) && (1 <=? d) && (d <=? days_in_month y m)
        && (hh <=? 23) && (mm <=? 59) && (ss <=? 59)
     then Some (Number_of_Z
                  ((((days_from_civil y m d * 24 + hh) * 60 + mm) * 60 + ss) * 1000))
     else None).

Definition lower (a : ascii) : ascii :=
  let x := nat_of_ascii a in
  if (65 <=? x)%nat && (x <=? 90)%nat then ascii_of_nat (x + 32) else a.

Fixpoint sample_toLowerCase (s : string) : string :=
  match s with
  | EmptyString => EmptyString
  | String a r => String (lower a) (sample_toLowerCase r)
  end.

(** The code points of a string, each as a string. *)
Fixpoint code_points (s : string) : list string :=
  match s with
  | EmptyString => []
  | String a r =>
      let x := nat_of_ascii a in
      if (128 <=? x)%nat && (x <? 192)%nat then code_points r
      else
        let fix continuation (t : string) : string :=
          match t with
          | String b t' =>
              let y := nat_of_ascii b in
              if (128 <=? y)%nat && (y <? 192)%nat
              then String b (continuation t') else EmptyString
          | EmptyString => EmptyString
          end in
        String a (continuation r) :: code_points r
  end.

Definition host : Host := {|
  parseFloat := sample_parseFloat;
  Number_toString := sample_Number_toString;
  Number_toFixed1 := sample_Number_toFixed1;
  Date_getTime := sample_Date_getTime;
  toLowerCase := sample_toLowerCase;
  StringToNumber := sample_StringToNumber;
  String_units := code_points;
|}.

Definition hex_digit (n : nat) : string :=
  String.substring n 1 "0123456789ABCDEF".

Definition percent (a : ascii) : string :=
  let x := nat_of_ascii a in
  "%" ++ hex_digit (x / 16) ++ hex_digit (x mod 16).

Definition is_alnum (a : ascii) : bool :=
  let x := nat_of_ascii a in
  ((48 <=? x)%nat && (x <=? 57)%nat) || ((65 <=? x)%nat && (x <=? 90)%nat)
  || ((97 <=? x)%nat && (x <=? 122)%nat).

Fixpoint sample_encodeURIComponent (s : string) : string :=
  match s with
  | EmptyString => EmptyString
  | String a r =>
      (if is_alnum a || Str.includes "-_.!~*'()" (String a EmptyString)
       then String a EmptyString else percent a)
      ++ sample_encodeURIComponent r
  end.

(** The [application/x-www-form-urlencoded] form of a string. *)
Fixpoint form_encode (s : string) : string :=
  match s with
  | EmptyString => EmptyString
  | String a r =>
      (if is_alnum a || Str.includes "*-._" (String a EmptyString)
       then String a EmptyString
       else if Ascii.eqb a " " then "+" else percent a)
      ++ form_encode r
  end.

Definition sample_URLSearchParams_toString (params : list (string * string))
  : string :=
  Str.join "&" (map (fun kv => form_encode (fst kv) ++ "=" ++ form_encode (snd kv))
                    params).

(** The text of a JSON string literal. *)
Fixpoint escape (s : string) : string :=
  match s with
  | EmptyString => EmptyString
  | String a r =>
      let x := nat_of_ascii a in
      (if (x =? 34)%nat then "\" ++ Str.dquote
       else if (x =? 92)%nat then "\\"
       else if (x =? 8)%nat then "\b"
       else if (x =? 9)%nat then "\t"
       else if (x =? 10)%nat then "\n"
       else if (x =? 12)%nat then "\f"
       else if (x =? 13)%nat then "\r"
       else if (x <? 32)%nat
       then "\u00" ++ hex_digit (x / 16)
            ++ String.substring (x mod 16) 1 "0123456789abcdef"
       else String a EmptyString)
      ++ escape r
  end.

Definition quote (s : string) : string := Str.dquote ++ escape s ++ Str.dquote.

Definition json_number (x : float) : string :=
  if is_nan x || is_infinity x then "null" else sample_Number_toString x.

(** [JSON.stringify(v)]; [None] stands for [undefined]. *)
Fixpoint json_compact (v : value) : option string :=
  match v with
  | VUndefined => None
  | VNull => Some "null"
  | VBool b => Some (if b then "true" else "false")
  | VNum x => Some (json_number x)
  | VStr s => Some (quote s)
  | VArr items =>
      Some ("[" ++ Str.join "," (map (fun i => default "null" (json_compact i)) items)
            ++ "]")
  | VObj fields =>
      Some ("{"
            ++ Str.join ","
                 (omap (fun kv => match json_compact (snd kv) with
                                  | Some t => Some (quote (fst kv) ++ ":" ++ t)
                                  | None => None
                                  end) fields)
            ++ "}")
  end.

(** [JSON.stringify(v, null, 2)] at the indentation [ind]. *)
Fixpoint json_pretty (ind : string) (v : value) : option string :=
  let inner := ind ++ "  " in
  let block (opening closing : string) (lines : list string) :=
    match lines with
    | [] => opening ++ closing
    | _ => opening ++ Str.nl
           ++ Str.join ("," ++ Str.nl) (map (fun l => inner ++ l) lines)
           ++ Str.nl ++ ind ++ closing
    end in
  match v with
  | VArr items =>
      Some (block "[" "]"
              (map (fun i => default "null" (json_pretty inner i)) items))
  | VObj fields =>
      Some (block "{" "}"
              (omap (fun kv => match json_pretty inner (snd kv) with
                               | Some t => Some (quote (fst kv) ++ ": " ++ t)
                               | None => None
                               end) fields))
  | _ => json_compact v
  end.

(** [ToIntegerOrInfinity] of a finite number. *)
Definition truncate (x : float) : Z :=
  match Prim2SF x with
  | S754_finite s m e =>
      let magnitude := if 0 <=? e then Z.pos m * 2 ^ e else Z.pos m / 2 ^ (- e) in
      if s then - magnitude else magnitude
  | _ => 0
  end.

Definition pad (width : nat) (n : Z) : string :=
  let digits : string := pretty n in
  String.concat "" (replicate (width - String.length digits) "0") ++ digits.

Definition sample_Date_toISOString (ms : float) : string :=
  let t := truncate ms in
  let days := t / 86400000 in
  let rest := t mod 86400000 in
  let z := days + 719468 in
  let era := z / 146097 in
  let doe := z - era * 146097 in
  let yoe := (doe - doe / 1460 + doe / 36524 - doe / 146096) / 365 in
  let doy := doe - (365 * yoe + yoe / 4 - yoe / 100) in
  let mp := (5 * doy + 2) / 153 in
  let d := doy - (153 * mp + 2) / 5 + 1 in
  let m := if mp <? 10 then mp + 3 else mp - 9 in
  let y := yoe + era * 400 + (if m <=? 2 then 1 else 0) in
  (if (0 <=? y) && (y <=? 9999) then pad 4 y
   else (if y <? 0 then "-" else "+") ++ pad 6 (Z.abs y))
  ++ "-" ++ pad 2 m ++ "-" ++ pad 2 d
  ++ "T" ++ pad 2 (rest / 3600000) ++ ":" ++ pad 2 (rest / 60000 mod 60)
  ++ ":" ++ pad 2 (rest / 1000 mod 60) ++ "." ++ pad 3 (rest mod 1000) ++ "Z".

Definition runtime : Runtime := {|
  JSON_stringify := fun v => default "undefined" (json_compact v);
  JSON_pretty := fun v => default "undefined" (json_pretty "" v);
  encodeURIComponent := sample_encodeURIComponent;
  Date_toISOString := sample_Date_toISOString;
  URLSearchParams_toString := sample_URLSearchParams_toString;
|}.

(** A text layer that hands the page on as its content and leaves the
    descriptive tables empty. *)
Definition texts : Texts := {|
  extractContentFromHtml := fun html => ("", "", html);
  extractConfigurationSection := fun _ => None;
  extractYamlExamples := fun _ => [];
  breaking_changes_section := fun _ => None;
  substring0 := fun n s => String.substring 0 n s;
  tool_description := fun _ => "";
  tool_inputSchema := fun _ => VObj [("type", VStr "object")];
  RESOURCES := VArr [];
  RESOURCE_TEMPLATES := VArr [];
  PROMPTS := VArr [];
  prompt_text := fun name holes => name;
|}.

Definition no_attributes : Attributes :=
  {| friendly_name := None; device_class := None; battery_level := None;
     unit_of_measurement := None; device_id := None; area_id := None;
     last_triggered := None |}.

Definition kitchen_light : EntityState :=
  {| entity_id := "light.kitchen"; state := "on";
     attributes := Some {| friendly_name := Some "Kitchen Light";
                           device_class := None; battery_level := None;
                           unit_of_measurement := None;
                           device_id := Some "dev1"; area_id := Some "kitchen";
                           last_triggered := None |};
     last_changed := Some "2023-11-14T20:00:00Z";
     last_updated := Some "2023-11-14T20:00:00Z" |}.

Definition kitchen_motion : EntityState :=
  {| entity_id := "binary_sensor.kitchen_motion"; state := "off";
     attributes := Some {| friendly_name := Some "Kitchen Motion";
                           device_class := Some "motion";
                           battery_level := Some 15%float;
                           unit_of_measurement := None;
                           device_id := Some "dev2"; area_id := Some "kitchen";
                           last_triggered := None |};
     last_changed := Some "2023-11-14T21:00:00Z";
     last_updated := Some "2023-11-14T21:00:00Z" |}.

Definition attic_temperature : EntityState :=
  {| entity_id := "sensor.attic_temperature"; state := "72.5";
     attributes := Some {| friendly_name := Some "Attic Temperature";
                           device_class := Some "temperature";
                           battery_level := None;
                           unit_of_measurement := None;
                           device_id := Some "dev3"; area_id := Some "attic";
                           last_triggered := None |};
     last_changed := Some "2023-11-14T22:00:00Z";
     last_updated := Some "2023-11-14T22:00:00Z" |}.

Definition front_door : EntityState :=
  {| entity_id := "binary_sensor.front_door"; state := "on";
     attributes := Some {| friendly_name := Some "Front Door";
                           device_class := Some "door";
                           battery_level := None;
                           unit_of_measurement := None;
                           device_id := Some "dev2"; area_id := None;
                           last_triggered := None |};
     last_changed := Some "2023-11-14T12:00:00Z";
     last_updated := Some "2023-11-14T12:00:00Z" |}.

Definition states : list EntityState :=
  [kitchen_light; kitchen_motion; attic_temperature; front_door].

(** 2023-11-14T22:13:20Z, at noon and at eight in the evening local time. *)
Definition noon : Clock := {| Date_now := 1700000000000; getHours := 12 |}.
Definition evening : Clock := {| Date_now := 1700000000000; getHours := 20 |}.

Definition json_response (p : Payload) : FetchOutcome :=
  Resolved {| ok := true; status := 200; statusText := "OK";
              content_type := Some "application/json";
              body_text := ""; body_json := inr p |}.

Definition not_found : FetchOutcome :=
  Resolved {| ok := false; status := 404; statusText := "Not Found";
              content_type := Some "text/plain";
              body_text := "404: Not Found";
              body_json := inl "Unexpected token" |}.

(** A Home Assistant that serves [states] on [/states] and each of them on
    [/states/<entity_id>], refuses every other path of the Supervisor API,
    and a network without any other host. *)
Definition env : Env := {|
  clock := fun _ => noon;
  network := fun _ r =>
    match strip_prefix "http://supervisor/core/api" (url r) with
    | Some path =>
        if String.eqb path "/states" then json_response (PStates states)
        else match strip_prefix "/states/" path with
             | Some id =>
                 match List.find (fun s => String.eqb (entity_id s) id) states with
                 | Some s => json_response (PState s)
                 | None => not_found
                 end
             | None => not_found
             end
    | None => Rejected "fetch failed"
    end;
  SUPERVISOR_TOKEN := "token";
|}.

Definition boot : World := startup.

(** The same instance with an error log of three lines, served as text. *)
Definition error_log : string :=
  "WARNING first" ++ Str.nl ++ "ERROR second" ++ Str.nl ++ "ERROR third".

Definition log_env : Env := {|
  clock := fun _ => noon;
  network := fun tr r =>
    if String.eqb (url r) "http://supervisor/core/api/error_log"
    then Resolved {| ok := true; status := 200; statusText := "OK";
                     content_type := Some "text/plain";
                     body_text := error_log;
                     body_json := inl "Unexpected token" |}
    else network (Env:=env) tr r;
  SUPERVISOR_TOKEN := "token";
|}.

End Sample.

(** * Properties *)

(** ** The model at work *)

Example split_ws_runs : split_ws "kitchen  light " = ["kitchen"; "light"; ""].
Proof. reflexivity. Qed.

Example split_ws_empty : split_ws "" = [""].
Proof. reflexivity. Qed.

Example domain_of_entity : domain_of "binary_sensor.front_door" = "binary_sensor".
Proof. reflexivity. Qed.

Example sort_is_stable :
  Array_sort (fun a b => snd b - snd a) [("a", 1); ("b", 2); ("c", 1); ("d", 2)]
  = [("b", 2); ("d", 2); ("a", 1); ("c", 1)].
Proof. reflexivity. Qed.

Example legacy_template_sensor :
  fst (RegExp_test
         (re_m true (Lit "sensor:" :: platform_line ++ [Lit "template"]))
         ("light:" ++ Str.nl ++ "sensor:  " ++ Str.nl ++ Str.nl
          ++ "  - platform: template"))
  = true.
Proof. reflexivity. Qed.

Example anchored_at_line_start :
  fst (RegExp_test
         (re_m true (Lit "sensor:" :: platform_line ++ [Lit "template"]))
         ("binary_sensor:" ++ Str.nl ++ "  - platform: template"))
  = false.
Proof. reflexivity. Qed.

Example global_flag_keeps_state :
  let re := {| anchored := false; atoms := [Lit "a"]; global := true;
               multiline := false; sticky := false; lastIndex := 0 |} in
  let (first, re1) := RegExp_test re "xa" in
  let (second, re2) := RegExp_test re1 "xa" in
  (first, lastIndex re1, second, lastIndex re2) = (true, 2%nat, false, 0%nat).
Proof. reflexivity. Qed.

Example anomalies_at_noon :
  map a_entity_id
      (detect_anomalies_scan (H:=Sample.host) (fun _ => Sample.noon) Sample.states)
  = ["binary_sensor.kitchen_motion"; "sensor.attic_temperature";
     "light.kitchen"; "binary_sensor.front_door"].
Proof. vm_compute. reflexivity. Qed.

Example unknown_tool_answer :
  fst (CallTool (H:=Sample.host) (R:=Sample.runtime) (E:=Sample.env)
         (T:=Sample.texts) "reboot" VUndefined startup)
  = inr {| content :=
             [{| content_type_tag := "text";
                 text := VStr "Error: Unknown tool: reboot";
                 annotations := Some {| audience := ["user"]; priority := 1 |} |}];
           isError := true |}.
Proof. vm_compute. reflexivity. Qed.

(** ** The stable sort *)

Section SortFacts.
Context {A : Type}.
Implicit Types (cmp : A -> A -> Z) (key : A -> Z) (l : list A).

Lemma sort_insert_perm cmp x l : sort_insert cmp x l ≡ₚ x :: l.
Proof.
  induction l as [|y l IH]; simpl; [done|].
  destruct (0 <? cmp x y); [|done].
  rewrite IH. apply Permutation_swap.
Qed.

Lemma Array_sort_perm cmp l : Array_sort cmp l ≡ₚ l.
Proof.
  induction l as [|x l IH]; simpl; [done|].
  unfold Array_sort in *. simpl. rewrite sort_insert_perm. by rewrite IH.
Qed.

Lemma sort_insert_ranked key x l :
  ranked key l -> ranked key (sort_insert (fun a b => key b - key a) x l).
Proof.
  unfold ranked. induction 1 as [|y l Hl IH Hy]; simpl.
  - repeat constructor.
  - destruct (Z.ltb_spec 0 (key y - key x)) as [Hlt|Hge].
    + constructor; [done|].
      rewrite (sort_insert_perm _ x l). constructor; [lia|done].
    + constructor; [by constructor|].
      constructor; [lia|].
      eapply Forall_impl; [exact Hy|]. simpl. intros; lia.
Qed.

Lemma Array_sort_ranked key l :
  ranked key (Array_sort (fun a b => key b - key a) l).
Proof.
  induction l as [|x l IH]; [constructor|].
  apply sort_insert_ranked, IH.
Qed.

Lemma ranked_lookup key l i j a b :
  ranked key l -> l !! i = Some a -> l !! j = Some b -> (i < j)%nat ->
  key b <= key a.
Proof.
  unfold ranked. intros Hs. revert i j.
  induction Hs as [|x l Hl IH Hx]; intros i j Hi Hj Hij; [done|].
  destruct i as [|i], j as [|j]; simpl in *; try lia.
  - simplify_eq. rewrite Forall_forall in Hx.
    apply Hx. eapply list_elem_of_lookup_2, Hj.
  - eapply IH; eauto. lia.
Qed.

End SortFacts.

(** ** Anomaly detection *)

Section AnomalyFacts.
Context {H : Host}.

Lemma or_else_Some {A} (r k : option A) (a : A) :
  or_else r k = Some a -> r = Some a \/ (r = None /\ k = Some a).
Proof. destruct r; simpl; intros; simplify_eq; auto. Qed.

Lemma detectAnomaly_entity_id now st a :
  detectAnomaly now st = Some a -> a_entity_id a = entity_id st.
Proof.
  unfold detectAnomaly. cbv zeta. intros Ha.
  repeat (apply or_else_Some in Ha as [Ha|[_ Ha]]);
    repeat case_match; simplify_eq; reflexivity.
Qed.

(** A warning never comes from a rule that reads the clock. *)
Lemma detectAnomaly_warning_clock_free c1 c2 st a :
  detectAnomaly c1 st = Some a -> severity a = "warning" ->
  detectAnomaly c2 st = Some a.
Proof.
  unfold detectAnomaly. cbv zeta. intros Ha Hw.
  apply or_else_Some in Ha as [Ha|[H1 Ha]]; [by rewrite Ha|]. rewrite H1.
  apply or_else_Some in Ha as [Ha|[H2 Ha]]; [by rewrite Ha|]. rewrite H2.
  apply or_else_Some in Ha as [Ha|[H3 Ha]]; [by rewrite Ha|]. rewrite H3.
  exfalso.
  apply or_else_Some in Ha as [Ha|[_ Ha]];
    repeat case_match; simplify_eq; discriminate.
Qed.

Lemma detectAnomaly_no_clock_rule c1 c2 st :
  reads_clock st = false -> detectAnomaly c1 st = detectAnomaly c2 st.
Proof.
  unfold reads_clock, detectAnomaly, or_else. intros Hr.
  apply orb_false_iff in Hr as [-> ->]. reflexivity.
Qed.

End AnomalyFacts.

(** C1, as corrected. The result of [detectAnomaly] is a function of the
    entity state and of the reading of the wall clock taken by the
    evaluation. It is the same at any two readings for every state that is
    neither an open door or window sensor nor a light that is on, and
    whenever the result at one of the readings is a warning. *)
Theorem detectAnomaly_clock_dependence {H : Host} (st : EntityState)
    (c1 c2 : Clock) :
  (reads_clock st = false
   \/ exists a, detectAnomaly c1 st = Some a /\ severity a = "warning") ->
  detectAnomaly c1 st = detectAnomaly c2 st.
Proof.
  intros [Hr|(a & Ha & Hw)].
  - by apply detectAnomaly_no_clock_rule.
  - rewrite Ha. symmetry. by eapply detectAnomaly_warning_clock_free.
Qed.

Lemma detectAnomaly_clock_dependence_witness :
  detectAnomaly (H:=Sample.host) Sample.noon Sample.kitchen_motion
  = detectAnomaly (H:=Sample.host) Sample.evening Sample.kitchen_motion.
Proof.
  apply (detectAnomaly_clock_dependence (H:=Sample.host)).
  left. vm_compute. reflexivity.
Defined.

(** C1 as stated fails: the same light, on, is an anomaly at noon and none
    at eight in the evening. *)
Lemma detectAnomaly_reads_the_clock :
  detectAnomaly (H:=Sample.host) Sample.noon Sample.kitchen_light
  <> detectAnomaly (H:=Sample.host) Sample.evening Sample.kitchen_light.
Proof. vm_compute. discriminate. Qed.

(** ** Entity search *)

Section SearchFacts.
Context {H : Host}.

Lemma fold_score_no_match st terms acc :
  (forall term, term ∈ terms -> Str.includes (searchText st) term = false) ->
  fold_left (fun score term => score + term_score st term) terms acc = acc.
Proof.
  revert acc. induction terms as [|t terms IH]; intros acc Hno; simpl; [done|].
  rewrite IH.
  - unfold term_score. rewrite Hno; [lia|]. by left.
  - intros term Hin. apply Hno. by right.
Qed.

Lemma score_of_no_match st terms :
  (forall term, term ∈ terms -> Str.includes (searchText st) term = false) ->
  score_of terms st = 0.
Proof. apply fold_score_no_match. Qed.

Lemma score_of_match st terms :
  score_of terms st <> 0 ->
  exists term, term ∈ terms /\ Str.includes (searchText st) term = true.
Proof.
  intros Hs.
  destruct (decide (Exists (fun term => Str.includes (searchText st) term = true)
                           terms)) as [He|Hne].
  - apply Exists_exists in He. exact He.
  - exfalso. apply Hs, score_of_no_match. intros term Hin.
    destruct (Str.includes (searchText st) term) eqn:E; [|done].
    exfalso. apply Hne, Exists_exists. eauto.
Qed.

Lemma search_ranked_elem states query st sc :
  (st, sc) ∈ search_ranked states query ->
  st ∈ states /\ sc = score_of (search_terms query) st /\ 0 < sc.
Proof.
  unfold search_ranked. rewrite Array_sort_perm.
  rewrite list_elem_of_In, filter_In, <- list_elem_of_In, list_elem_of_fmap.
  intros [(st' & Heq & Hin) Hpos]. simplify_eq. simpl in *.
  repeat split; [done|lia].
Qed.

Lemma search_ranked_sorted states query :
  ranked snd (search_ranked states query).
Proof. apply (Array_sort_ranked snd). Qed.

End SearchFacts.

(** C8. [searchEntities] returns at most twenty results, each with a
    strictly positive score, in the order of non-increasing score; every
    result is the projection of an entity of the input matched by at least
    one term of the query, and an entity whose searchable text contains
    none of the terms scores zero and is not ranked. *)
Theorem searchEntities_ranking {H : Host} (states : list EntityState)
    (query : string) :
  let results := searchEntities states query in
  let terms := search_terms query in
  (length results <= 20)%nat
  /\ (forall r, r ∈ results -> 0 < score r)
  /\ (forall i j a b, results !! i = Some a -> results !! j = Some b ->
        (i < j)%nat -> score b <= score a)
  /\ (forall r, r ∈ results ->
        exists st term,
          st ∈ states /\ term ∈ terms
          /\ Str.includes (searchText st) term = true
          /\ r = {| sr_entity_id := entity_id st; sr_state := state st;
                    sr_friendly_name := attr friendly_name st;
                    sr_device_class := attr device_class st;
                    score := score_of terms st |})
  /\ (forall st,
        (forall term, term ∈ terms -> Str.includes (searchText st) term = false) ->
        score_of terms st = 0
        /\ forall sc, (st, sc) ∉ search_ranked states query).
Proof.
  intros results terms. subst results terms. unfold searchEntities.
  split; [|split; [|split; [|split]]].
  - rewrite length_fmap, length_take. lia.
  - intros r Hr. apply list_elem_of_fmap in Hr as ([st sc] & -> & Hin).
    apply elem_of_take in Hin as (i & Hin & _).
    apply list_elem_of_lookup_2, search_ranked_elem in Hin. simpl. tauto.
  - intros i j a b Hi Hj Hij.
    rewrite list_lookup_fmap in Hi, Hj.
    destruct (take 20 (search_ranked states query) !! i) as [[sa ca]|] eqn:Ei;
      [|done].
    destruct (take 20 (search_ranked states query) !! j) as [[sb cb]|] eqn:Ej;
      [|done].
    simplify_eq/=.
    apply lookup_take_Some in Ei as [Ei _]. apply lookup_take_Some in Ej as [Ej _].
    exact (ranked_lookup snd _ i j _ _ (search_ranked_sorted states query)
                         Ei Ej Hij).
  - intros r Hr. apply list_elem_of_fmap in Hr as ([st sc] & -> & Hin).
    apply elem_of_take in Hin as (i & Hin & _).
    apply list_elem_of_lookup_2, search_ranked_elem in Hin as (Hst & -> & Hpos).
    destruct (score_of_match st (search_terms query)) as (term & Hterm & Hinc);
      [lia|].
    exists st, term. simpl. done.
  - intros st Hno. split; [by apply score_of_no_match|].
    intros sc Hin. apply search_ranked_elem in Hin as (_ & -> & Hpos).
    rewrite (score_of_no_match st (search_terms query)) in Hpos; [lia|done].
Qed.

(** ** Entity relationships *)

Lemma find_entity_Some states entityId entity :
  List.find (fun s => String.eqb (entity_id s) entityId) states = Some entity ->
  entity ∈ states /\ entity_id entity = entityId.
Proof.
  intros Hf. apply find_some in Hf as [Hin Heq].
  split; [by apply list_elem_of_In|by apply String.eqb_eq].
Qed.

Lemma find_entity_None states entityId :
  (forall s, s ∈ states -> entity_id s <> entityId) ->
  List.find (fun s => String.eqb (entity_id s) entityId) states = None.
Proof.
  intros Hno. destruct (List.find _ states) as [e|] eqn:Hf; [|done].
  apply find_entity_Some in Hf as [Hin Heq]. by destruct (Hno e Hin).
Qed.

Lemma find_entity_present states entityId s :
  s ∈ states -> entity_id s = entityId ->
  exists entity,
    List.find (fun s => String.eqb (entity_id s) entityId) states = Some entity.
Proof.
  intros Hin Heq.
  destruct (List.find _ states) as [e|] eqn:Hf; [by eexists|].
  apply list_elem_of_In in Hin. apply (find_none _ _ Hf) in Hin.
  apply String.eqb_neq in Hin. done.
Qed.

(** C9. Once [callHA("/states")] has answered with the state list,
    [getEntityRelationships] answers [{ error: "Entity not found" }] for an
    id borne by no state of the list. For an id that is present it answers
    the details of the first state bearing it, with at most ten related
    entities; none of them bears the queried id, each is a state of the list
    that has the queried entity's (non-empty) device id or its (non-empty)
    area id, and each is labelled [same_device] exactly when its device id
    is strictly equal to the queried entity's, [same_area] otherwise. *)
Theorem getEntityRelationships_spec {H : Host} {R : Runtime} {E : Env}
    (w w' : World) (states : list EntityState) (entityId : string) :
  callHA_get "/states" w = (inr (PStates states), w') ->
  exists rel,
    getEntityRelationships (VStr entityId) w = (inr rel, w')
    /\ ((forall s, s ∈ states -> entity_id s <> entityId) ->
        rel = RelError "Entity not found")
    /\ ((exists s, s ∈ states /\ entity_id s = entityId) ->
        exists entity d,
          rel = RelDetails d
          /\ entity ∈ states /\ entity_id entity = entityId
          /\ ed_device_id d = attr device_id entity
          /\ ed_area_id d = attr area_id entity
          /\ (length (related_entities d) <= 10)%nat
          /\ forall r, r ∈ related_entities d ->
               rel_entity_id r <> entityId
               /\ exists s,
                    s ∈ states
                    /\ rel_entity_id r = entity_id s /\ rel_state r = state s
                    /\ ((truthy_str (attr device_id entity) = true
                         /\ attr device_id s = attr device_id entity)
                        \/ (truthy_str (attr area_id entity) = true
                            /\ attr area_id s = attr area_id entity))
                    /\ (relationship r = "same_device"
                        <-> attr device_id s = attr device_id entity)
                    /\ (relationship r = "same_area"
                        <-> attr device_id s <> attr device_id entity)).
Proof.
  intros Hcall. exists (relationships_of states entityId). split; [|split].
  - unfold getEntityRelationships, callHA_get, bind in *. rewrite Hcall. done.
  - intros Hno. unfold relationships_of. by rewrite find_entity_None.
  - intros (s0 & Hin0 & Heq0).
    destruct (find_entity_present states entityId s0 Hin0 Heq0) as [entity Hf].
    unfold relationships_of. rewrite Hf.
    destruct (find_entity_Some _ _ _ Hf) as [Hin Heq].
    eexists entity, _. split; [reflexivity|]. simpl.
    do 4 (split; [done|]). split; [rewrite length_take; lia|].
    intros r Hr.
    apply elem_of_take in Hr as (i & Hr & _).
    apply list_elem_of_lookup_2, list_elem_of_fmap in Hr as (s & -> & Hs).
    apply list_elem_of_In, filter_In in Hs as [Hs Hrel].
    apply list_elem_of_In in Hs. split.
    + simpl. unfold is_related in Hrel.
      destruct (String.eqb_spec (entity_id s) entityId); [done|done].
    + exists s. simpl. repeat split; try done.
      * unfold is_related in Hrel.
        destruct (String.eqb (entity_id s) entityId); [done|].
        destruct (truthy_str (attr device_id entity)) eqn:Hd; simpl in Hrel.
        -- case_bool_decide as Hdev; [by left|].
           destruct (truthy_str (attr area_id entity)) eqn:Ha; simpl in Hrel;
             [|done].
           case_bool_decide; [by right|done].
        -- destruct (truthy_str (attr area_id entity)) eqn:Ha; simpl in Hrel;
             [|done].
           case_bool_decide; [by right|done].
      * by case_bool_decide.
      * by case_bool_decide.
      * by case_bool_decide.
      * by case_bool_decide.
Qed.

Lemma getEntityRelationships_spec_witness :
  exists rel,
    fst (getEntityRelationships (H:=Sample.host) (R:=Sample.runtime)
           (E:=Sample.env) (VStr "light.kitchen") Sample.boot) = inr rel.
Proof.
  destruct (getEntityRelationships_spec (H:=Sample.host) (R:=Sample.runtime)
              (E:=Sample.env) Sample.boot
              (snd (callHA_get (H:=Sample.host) (R:=Sample.runtime)
                      (E:=Sample.env) "/states" Sample.boot))
              Sample.states "light.kitchen") as (rel & Hrel & _).
  - vm_compute. reflexivity.
  - exists rel. rewrite Hrel. reflexivity.
Defined.

(** ** Deprecation checks *)

Lemma RegExp_test_no_state r s :
  global r = false -> sticky r = false -> snd (RegExp_test r s) = r.
Proof. unfold RegExp_test. by intros -> ->. Qed.

Lemma set_pattern_same p : set_pattern p (pattern p) = p.
Proof. by destruct p. Qed.

(** No expression of the table carries the flag [g] or [y]. *)
Lemma DEPRECATION_PATTERNS_flags :
  Forall (fun p => global (pattern p) = false /\ sticky (pattern p) = false)
         DEPRECATION_PATTERNS.
Proof. repeat constructor. Qed.

(** Every tag of the table is a non-empty string. *)
Lemma DEPRECATION_PATTERNS_tags :
  Forall (fun p => integration p <> Some "") DEPRECATION_PATTERNS.
Proof. repeat constructor; discriminate. Qed.

Section DeprecationFacts.
Context {H : Host}.

Lemma check_loop_table y i ps acc :
  Forall (fun p => global (pattern p) = false /\ sticky (pattern p) = false) ps ->
  snd (check_loop y i ps acc) = ps.
Proof.
  intros Hps. revert acc.
  induction Hps as [|p ps [Hg Hy] Hps IH]; intros acc; simpl; [done|].
  destruct (skipped i p).
  - specialize (IH acc). destruct (check_loop y i ps acc). simpl in *. by f_equal.
  - pose proof (RegExp_test_no_state (pattern p) (ToString y) Hg Hy) as Hre.
    destruct (RegExp_test (pattern p) (ToString y)) as [hit re']. simpl in Hre.
    subst re'.
    specialize (IH (if hit then record_match p acc else acc)).
    destruct (check_loop y i ps _). simpl in *.
    by rewrite set_pattern_same, IH.
Qed.

(** The report only depends on the answers of the tests, not on what the
    tests leave in the expression objects. *)
Lemma check_loop_skip y i ps acc :
  fst (check_loop y i ps acc)
  = fst (check_loop y i (List.filter (fun p => negb (skipped i p)) ps) acc).
Proof.
  revert acc. induction ps as [|p ps IH]; intros acc; simpl; [done|].
  destruct (skipped i p) eqn:Hs; simpl.
  - specialize (IH acc). destruct (check_loop y i ps acc). exact IH.
  - rewrite Hs. destruct (RegExp_test (pattern p) (ToString y)) as [hit re'].
    specialize (IH (if hit then record_match p acc else acc)).
    destruct (check_loop y i ps _), (check_loop y i (List.filter _ ps) _).
    exact IH.
Qed.

Lemma check_loop_deprecated y i ps acc :
  deprecated (fst (check_loop y i ps acc)) = true <->
  deprecated acc = true
  \/ exists p, p ∈ ps /\ skipped i p = false
               /\ fst (RegExp_test (pattern p) (ToString y)) = true
               /\ deprecated_in p <> None.
Proof.
  revert acc. induction ps as [|p ps IH]; intros acc; simpl.
  - split; [by left|]. intros [?|(p & Hin & _)]; [done|]. by apply elem_of_nil in Hin.
  - destruct (skipped i p) eqn:Hs.
    + specialize (IH acc). destruct (check_loop y i ps acc) as [rep t]. simpl in *.
      rewrite IH. split.
      * intros [?|(q & Hin & ?)]; [by left|]. right. exists q. split; [by right|done].
      * intros [?|(q & Hin & Hq)]; [by left|].
        apply elem_of_cons in Hin as [->|Hin]; [|right; eauto].
        destruct Hq as [Hq _]. congruence.
    + destruct (RegExp_test (pattern p) (ToString y)) as [hit re'] eqn:Ht.
      specialize (IH (if hit then record_match p acc else acc)).
      destruct (check_loop y i ps _) as [rep t]. simpl in *.
      rewrite IH. split.
      * intros [Hd|(q & Hin & ?)]; [|right; exists q; split; [by right|done]].
        destruct hit; [|by left]. simpl in Hd.
        apply orb_true_iff in Hd as [?|Hd]; [by left|].
        right. exists p. split; [by left|]. rewrite Ht.
        apply bool_decide_eq_true in Hd. done.
      * intros [Hd|(q & Hin & Hq)].
        -- left. destruct hit; [|done]. simpl. by rewrite Hd.
        -- apply elem_of_cons in Hin as [->|Hin]; [|right; eauto].
           left. destruct Hq as (_ & Hhit & Hdep). rewrite Ht in Hhit.
           simpl in Hhit. subst hit. simpl.
           apply orb_true_iff. right. by apply bool_decide_eq_true.
Qed.

End DeprecationFacts.

(** C5. [checkConfigForDeprecations] is stateless on the table of the
    script: a run leaves the table as it found it, so that a second run
    with the same arguments returns the same report. The report's
    [deprecated] flag is set exactly when some pattern that is not skipped
    matches and has a [deprecated_in] field. When a non-empty integration
    name is given, every pattern tagged with another integration is
    skipped, and the report is the one of the table without them. *)
Theorem checkConfigForDeprecations_stateless {H : Host} (yaml : string)
    (integration_arg : value) :
  let run1 :=
    checkConfigForDeprecations DEPRECATION_PATTERNS (VStr yaml) integration_arg in
  let run2 :=
    checkConfigForDeprecations (snd run1) (VStr yaml) integration_arg in
  snd run1 = DEPRECATION_PATTERNS
  /\ fst run2 = fst run1
  /\ (deprecated (fst run1) = true <->
      exists p, p ∈ DEPRECATION_PATTERNS
                /\ skipped integration_arg p = false
                /\ fst (RegExp_test (pattern p) yaml) = true
                /\ deprecated_in p <> None)
  /\ (forall name, integration_arg = VStr name -> name <> "" ->
      (forall p tag, p ∈ DEPRECATION_PATTERNS -> integration p = Some tag ->
                     tag <> name -> skipped integration_arg p = true)
      /\ fst run1
         = fst (checkConfigForDeprecations
                  (List.filter (fun p => negb (skipped integration_arg p))
                               DEPRECATION_PATTERNS)
                  (VStr yaml) integration_arg)).
Proof.
  intros run1 run2.
  assert (Htable : snd run1 = DEPRECATION_PATTERNS)
    by apply check_loop_table, DEPRECATION_PATTERNS_flags.
  split; [done|]. split; [subst run2; by rewrite Htable|]. split.
  - subst run1. unfold checkConfigForDeprecations.
    rewrite check_loop_deprecated. simpl. split; [|by right].
    by intros [?|?].
  - intros name -> Hname. split; [|apply check_loop_skip].
    intros p tag Hin Htag Hne.
    pose proof DEPRECATION_PATTERNS_tags as Htags.
    rewrite Forall_forall in Htags. specialize (Htags p Hin).
    unfold skipped. rewrite Htag in *. simpl.
    destruct (String.eqb_spec name ""); [done|].
    destruct (String.eqb_spec tag ""); [congruence|].
    destruct (String.eqb_spec name tag); [congruence|done].
Qed.

Lemma checkConfigForDeprecations_stateless_witness :
  deprecated
    (fst (checkConfigForDeprecations (H:=Sample.host) DEPRECATION_PATTERNS
            (VStr "entity_namespace: x") (VStr "mqtt"))) = true.
Proof.
  apply (checkConfigForDeprecations_stateless (H:=Sample.host)
           "entity_namespace: x" (VStr "mqtt")).
  eexists. split; [|split; [|split]].
  - do 2 right. left.
  - reflexivity.
  - vm_compute. reflexivity.
  - discriminate.
Defined.

(** ** The handler monad *)

Section MonadFacts.
Context {A B : Type}.
Implicit Types (P : Request -> Prop) (m : M A) (k : A -> M B).

Lemma sound_ret P (a : A) : sound P (ret a).
Proof.
  intros w. split; [|done]. exists []. split; [done|].
  intros r Hr. by apply elem_of_nil in Hr.
Qed.

Lemma sound_throw P message : sound P (throw (A:=A) message).
Proof.
  intros w. split; [|done]. exists []. split; [done|].
  intros r Hr. by apply elem_of_nil in Hr.
Qed.

Lemma sound_rethrow P e : sound P (rethrow (A:=A) e).
Proof.
  intros w. split; [|done]. exists []. split; [done|].
  intros r Hr. by apply elem_of_nil in Hr.
Qed.

Lemma sound_bind P m k :
  sound P m -> (forall a, sound P (k a)) -> sound P (bind m k).
Proof.
  intros Hm Hk w. destruct (Hm w) as [(new & Hnew & HP) Hmod].
  unfold adds, bind in *. destruct (m w) as [[e|a] w'] eqn:Hrun; simpl in *.
  - split; [|done]. by exists new.
  - destruct (Hk a w') as [(new' & Hnew' & HP') Hmod']. unfold adds in *.
    split.
    + exists (new' ++ new)%list. rewrite Hnew', Hnew, app_assoc. split; [done|].
      intros r Hr. apply elem_of_app in Hr as [?|?]; eauto.
    + intros Ht. rewrite Hmod', (Hmod Ht); [done|]. by rewrite (Hmod Ht).
Qed.

Lemma sound_weaken P (Q : Request -> Prop) m :
  (forall r, P r -> Q r) -> sound P m -> sound Q m.
Proof.
  intros HPQ Hm w. destruct (Hm w) as [(new & Hnew & HP) Hmod].
  split; [|done]. exists new. split; [done|]. eauto.
Qed.

Lemma never_throws_ret (a : A) : never_throws (ret a).
Proof. intros w. by exists a. Qed.

Lemma never_throws_bind m k :
  never_throws m -> (forall a, never_throws (k a)) -> never_throws (bind m k).
Proof.
  intros Hm Hk w. destruct (Hm w) as [a Ha]. unfold bind.
  destruct (m w) as [[e|a'] w']; simpl in *; [done|]. apply Hk.
Qed.



End MonadFacts.

Section CatchFacts.
Context {A : Type}.
Implicit Types (P : Request -> Prop) (m : M A) (h : Error -> M A).

Lemma sound_try_catch P m h :
  sound P m -> (forall e, sound P (h e)) -> sound P (try_catch m h).
Proof.
  intros Hm Hh w. destruct (Hm w) as [(new & Hnew & HP) Hmod].
  unfold adds, try_catch in *. destruct (m w) as [[e|a] w'] eqn:Hrun; simpl in *.
  - destruct (Hh e w') as [(new' & Hnew' & HP') Hmod']. unfold adds in *.
    split.
    + exists (new' ++ new)%list. rewrite Hnew', Hnew, app_assoc. split; [done|].
      intros r Hr. apply elem_of_app in Hr as [?|?]; eauto.
    + intros Ht. rewrite Hmod', (Hmod Ht); [done|]. by rewrite (Hmod Ht).
  - split; [|done]. by exists new.
Qed.

Lemma sound_attempt P m : sound P m -> sound P (attempt m).
Proof.
  intros Hm w. destruct (Hm w) as [(new & Hnew & HP) Hmod].
  unfold adds, attempt in *. destruct (m w) as [r w']. simpl in *.
  split; [|done]. by exists new.
Qed.

Lemma never_throws_attempt m : never_throws (attempt m).
Proof. intros w. unfold attempt. destruct (m w) as [r w']. by exists r. Qed.

Lemma never_throws_try_catch m h :
  (forall e, never_throws (h e)) -> never_throws (try_catch m h).
Proof.
  intros Hh w. unfold try_catch. destruct (m w) as [[e|a] w']; [apply Hh|].
  by exists a.
Qed.



End CatchFacts.

(** ** Effects of the primitives *)

Lemma startsWith_app p s : Str.startsWith (p ++ s) p = true.
Proof.
  unfold Str.startsWith. induction p as [|a p IH]; simpl; [by destruct s|].
  by destruct (ascii_dec a a).
Qed.

Section PrimitiveFacts.
Context {H : Host} {R : Runtime} {E : Env}.
Implicit Types (P : Request -> Prop).

Lemma sound_get_module P : sound P get_module.
Proof.
  intros w. split; [|done]. exists []. split; [done|].
  intros r Hr. by apply elem_of_nil in Hr.
Qed.

Lemma sound_Date_read P : sound P Date_read.
Proof.
  intros w. split; [|done]. exists []. split; [done|].
  intros r Hr. by apply elem_of_nil in Hr.
Qed.

Lemma sound_Date_reads P n : sound P (Date_reads n).
Proof.
  intros w. split; [|done]. exists []. split; [done|].
  intros r Hr. by apply elem_of_nil in Hr.
Qed.

Lemma sound_logged P e : sound P (emit (Logged e)).
Proof.
  intros w. split; [|done]. exists [Logged e]. split; [done|].
  intros r Hr. apply list_elem_of_singleton in Hr. discriminate.
Qed.

Lemma sound_sendLog P level lg d : sound P (sendLog level lg d).
Proof.
  unfold sendLog. apply sound_bind; [apply sound_get_module|]. intros ms.
  destruct (shouldLog _ _); [|apply sound_ret].
  apply sound_bind; [apply sound_Date_read|]. intros now. apply sound_logged.
Qed.

Lemma never_throws_sendLog level lg d : never_throws (sendLog level lg d).
Proof.
  intros w. exists tt. unfold sendLog, bind, get_module. simpl.
  by destruct (shouldLog _ _).
Qed.

Lemma never_throws_Date_read : never_throws Date_read.
Proof. intros w. by eexists. Qed.

Lemma sound_fetch P r : P r -> sound P (fetch r).
Proof.
  intros HP w. unfold fetch, adds. split.
  - exists [Fetched r]. destruct (network _ _); simpl; (split; [done|]);
      intros r' Hr; apply list_elem_of_singleton in Hr; by simplify_eq.
  - by destruct (network _ _).
Qed.


Lemma sound_Response_json P resp : sound P (Response_json resp).
Proof.
  unfold Response_json. destruct (body_json resp);
    [apply sound_throw|apply sound_ret].
Qed.

Lemma sound_callHA P endpoint method body :
  (forall r, to_supervisor r = true -> P r) -> sound P (callHA endpoint method body).
Proof.
  intros HP. unfold callHA.
  apply sound_bind; [apply sound_sendLog|]. intros _.
  apply sound_bind; [apply sound_fetch, HP, startsWith_app|]. intros resp.
  destruct (negb (ok resp)).
  - apply sound_bind; [apply sound_sendLog|]. intros _. apply sound_throw.
  - destruct (match content_type resp with Some _ => _ | None => _ end);
      [|apply sound_ret].
    apply sound_bind; [apply sound_Response_json|]. intros p.
    apply sound_bind; [apply sound_sendLog|]. intros _. apply sound_ret.
Qed.


Lemma sound_fetchUrl P u :
  (forall r, url r = u -> P r) -> sound P (fetchUrl u).
Proof.
  intros HP. unfold fetchUrl.
  apply sound_bind; [apply sound_sendLog|]. intros _.
  apply sound_try_catch.
  - apply sound_bind; [by apply sound_fetch, HP|]. intros resp.
    destruct (negb (ok resp)); [apply sound_throw|apply sound_ret].
  - intros e. apply sound_bind; [apply sound_sendLog|]. intros _.
    apply sound_rethrow.
Qed.

Lemma sound_member P v k : sound P (member v k).
Proof. destruct v; simpl; first [apply sound_throw|apply sound_ret]. Qed.

Lemma sound_destructure P v k : sound P (destructure v k).
Proof. destruct v; simpl; first [apply sound_throw|apply sound_ret]. Qed.

Lemma never_throws_member v k : defined v = true -> never_throws (member v k).
Proof. destruct v; simpl; try done; intros _; apply never_throws_ret. Qed.

Lemma never_throws_destructure v k :
  defined v = true -> never_throws (destructure v k).
Proof. destruct v; simpl; try done; intros _; apply never_throws_ret. Qed.

Lemma sound_expect_states P message p : sound P (expect_states message p).
Proof.
  unfold expect_states. repeat case_match; first [apply sound_throw|apply sound_ret].
Qed.

Lemma sound_expect_string P receiver method v :
  sound P (expect_string receiver method v).
Proof. destruct v; simpl; first [apply sound_throw|apply sound_ret]. Qed.

Lemma sound_generateStateSummary P clk states :
  sound P (generateStateSummary clk states).
Proof.
  unfold generateStateSummary. case_match; [apply sound_ret|apply sound_throw].
Qed.

Lemma sound_respond P t aud prio : sound P (respond t aud prio).
Proof. apply sound_ret. Qed.

Lemma sound_to_string P v : sound P (to_string v).
Proof. unfold to_string. destruct (printable v); [apply sound_ret|apply sound_throw]. Qed.

Lemma sound_to_number P v : sound P (to_number v).
Proof. unfold to_number. destruct (printable v); [apply sound_ret|apply sound_throw]. Qed.

Lemma sound_filter_by_domain P domain states :
  sound P (filter_by_domain domain states).
Proof.
  induction states as [|s states IH]; simpl; [apply sound_ret|].
  apply sound_bind; [apply sound_to_string|]. intros d.
  apply sound_bind; [exact IH|]. intros kept. apply sound_ret.
Qed.

Lemma sound_apply_domain_filter P domain states :
  sound P (apply_domain_filter domain states).
Proof.
  unfold apply_domain_filter.
  destruct (truthy domain); [apply sound_filter_by_domain|apply sound_ret].
Qed.

Lemma sound_append_param P params k v : sound P (append_param params k v).
Proof.
  unfold append_param. destruct (truthy v); [|apply sound_ret].
  apply sound_bind; [apply sound_to_string|]. intros t. apply sound_ret.
Qed.

(** A conversion that completes hands back [ToString], and nothing else
    happens. *)
Lemma to_string_printable v w :
  printable v = true -> to_string v w = (inr (ToString v), w).
Proof. unfold to_string. by intros ->. Qed.

Lemma to_string_throws v w :
  printable v = false ->
  to_string v w
  = (inl {| error_message := "Cannot convert object to primitive value" |}, w).
Proof. unfold to_string. by intros ->. Qed.

Lemma never_throws_to_string v : printable v = true -> never_throws (to_string v).
Proof. intros Hv w. exists (ToString v). by rewrite to_string_printable. Qed.

(** The filter with a domain that converts: the states whose id starts with
    the domain and a dot. *)
Lemma filter_by_domain_printable domain states w :
  printable domain = true ->
  filter_by_domain domain states w
  = (inr (filter_domain (ToString domain) states), w).
Proof.
  intros Hd. induction states as [|s states IH]; [done|].
  simpl. unfold bind. by rewrite to_string_printable, IH.
Qed.

End PrimitiveFacts.

(** ** Effects of the tool handlers *)

Create HintDb sound discriminated.

#[local] Hint Resolve sound_ret sound_throw sound_rethrow sound_respond
  sound_sendLog sound_Date_read sound_Date_reads sound_member
  sound_destructure sound_expect_states sound_expect_string
  sound_generateStateSummary sound_get_module sound_to_string sound_to_number
  sound_apply_domain_filter sound_append_param : sound.

(** One step through a computation, by the shape of its head. *)
Ltac sound_step :=
  lazymatch goal with
  | |- sound _ (bind _ _) => apply sound_bind; [|intros ?]
  | |- sound _ (try_catch _ _) => apply sound_try_catch; [|intros ?]
  | |- sound _ (attempt _) => apply sound_attempt
  | |- sound _ (callHA _ _ _) => apply sound_callHA; solve [auto]
  | |- sound _ (callHA_get _) => apply sound_callHA; solve [auto]
  | |- sound _ (match ?x with _ => _ end) => destruct x
  | |- sound _ _ => solve [eauto with sound]
  end.

Ltac sound_auto := repeat sound_step.

Section ToolFacts.
Context {H : Host} {R : Runtime} {E : Env} {T : Texts}.
Variable P : Request -> Prop.
Hypothesis P_supervisor : forall r, to_supervisor r = true -> P r.

Lemma sound_getEntityRelationships entityId :
  sound P (getEntityRelationships entityId).
Proof. unfold getEntityRelationships. sound_auto. Qed.

Lemma sound_filter_services domain items :
  sound P (filter_services domain items).
Proof. induction items; simpl; sound_auto. Qed.

Lemma sound_or_yesterday x : sound P (or_yesterday x).
Proof. unfold or_yesterday. sound_auto. Qed.

#[local] Hint Resolve sound_getEntityRelationships sound_filter_services
  sound_or_yesterday : sound.

Lemma sound_tool_get_states args : sound P (tool_get_states args).
Proof. unfold tool_get_states. sound_auto. Qed.

Lemma sound_tool_search_entities args : sound P (tool_search_entities args).
Proof. unfold tool_search_entities. sound_auto. Qed.

Lemma sound_tool_get_entity_details args : sound P (tool_get_entity_details args).
Proof. unfold tool_get_entity_details. sound_auto. Qed.

Lemma sound_tool_call_service args : sound P (tool_call_service args).
Proof. unfold tool_call_service. sound_auto. Qed.

Lemma sound_tool_get_services args : sound P (tool_get_services args).
Proof. unfold tool_get_services. sound_auto. Qed.

Lemma sound_tool_get_history args : sound P (tool_get_history args).
Proof. unfold tool_get_history. sound_auto. Qed.

Lemma sound_tool_get_logbook args : sound P (tool_get_logbook args).
Proof. unfold tool_get_logbook. sound_auto. Qed.

Lemma sound_tool_get_config args : sound P (tool_get_config args).
Proof. unfold tool_get_config. sound_auto. Qed.

Lemma sound_tool_get_areas args : sound P (tool_get_areas args).
Proof. unfold tool_get_areas. sound_auto. Qed.

Lemma sound_tool_get_devices args : sound P (tool_get_devices args).
Proof. unfold tool_get_devices. sound_auto. Qed.

Lemma sound_tool_validate_config args : sound P (tool_validate_config args).
Proof. unfold tool_validate_config. sound_auto. Qed.

Lemma sound_tool_get_error_log args : sound P (tool_get_error_log args).
Proof. unfold tool_get_error_log. sound_auto. Qed.

Lemma sound_tool_fire_event args : sound P (tool_fire_event args).
Proof. unfold tool_fire_event. sound_auto. Qed.

Lemma sound_tool_render_template args : sound P (tool_render_template args).
Proof. unfold tool_render_template. sound_auto. Qed.

Lemma sound_tool_get_calendars args : sound P (tool_get_calendars args).
Proof. unfold tool_get_calendars. sound_auto. Qed.

Lemma sound_tool_get_calendar_events args :
  sound P (tool_get_calendar_events args).
Proof. unfold tool_get_calendar_events. sound_auto. Qed.

Lemma sound_report_anomalies anomalies : sound P (report_anomalies anomalies).
Proof. unfold report_anomalies. sound_auto. Qed.

#[local] Hint Resolve sound_report_anomalies : sound.

Lemma sound_tool_detect_anomalies args : sound P (tool_detect_anomalies args).
Proof. unfold tool_detect_anomalies. sound_auto. Qed.

Lemma sound_tool_get_suggestions args : sound P (tool_get_suggestions args).
Proof. unfold tool_get_suggestions. sound_auto. Qed.

Lemma sound_diagnose_anomaly d p : sound P (diagnose_anomaly d p).
Proof. unfold diagnose_anomaly. sound_auto. Qed.

#[local] Hint Resolve sound_diagnose_anomaly : sound.

Lemma sound_diagnose_finish d p : sound P (diagnose_finish d p).
Proof. unfold diagnose_finish. sound_auto. Qed.

#[local] Hint Resolve sound_diagnose_finish : sound.

Lemma sound_diagnose_steps entity_id d p : sound P (diagnose_steps entity_id d p).
Proof. unfold diagnose_steps. cbv zeta. sound_auto. Qed.

#[local] Hint Resolve sound_diagnose_steps : sound.

Lemma sound_tool_diagnose_entity args : sound P (tool_diagnose_entity args).
Proof. unfold tool_diagnose_entity. sound_auto. Qed.

Lemma sound_fetch_haVersion : sound P fetch_haVersion.
Proof. unfold fetch_haVersion. sound_auto. Qed.

Lemma sound_targetVersion version haVersion :
  sound P (targetVersion version haVersion).
Proof. unfold targetVersion. sound_auto. Qed.

End ToolFacts.

Section DocToolFacts.
Context {H : Host} {R : Runtime} {E : Env} {T : Texts}.
Variable P : Request -> Prop.
Hypothesis P_supervisor : forall r, to_supervisor r = true -> P r.
Hypothesis P_docs : forall r, to_docs r = true -> P r.

Lemma sound_docs_page path : sound P (fetchUrl (HA_DOCS_BASE ++ "/" ++ path)).
Proof.
  apply sound_fetchUrl. intros r Hr. apply P_docs.
  unfold to_docs. rewrite Hr.
  apply (startsWith_app "https://www.home-assistant.io/" path).
Qed.

Lemma sound_release_notes target : sound P (release_notes target).
Proof.
  unfold release_notes. apply sound_try_catch; [|intros e; sound_auto].
  apply sound_bind; [sound_auto|]. intros t.
  apply sound_bind; [apply (sound_docs_page ("blog/" ++ replace_first_dot t ++ "/"))|].
  intros html. sound_auto.
Qed.

Lemma sound_tool_get_integration_docs args :
  sound P (tool_get_integration_docs args).
Proof.
  unfold tool_get_integration_docs.
  apply sound_bind; [sound_auto|]. intros integration.
  apply sound_bind; [sound_auto|]. intros section_arg.
  apply sound_bind; [sound_auto|]. intros _.
  apply sound_bind; [sound_auto|]. intros name.
  apply sound_bind; [by apply sound_fetch_haVersion|]. intros haVersion.
  apply sound_try_catch; [|intros e; sound_auto].
  apply sound_bind;
    [apply (sound_docs_page ("integrations/" ++ name ++ "/"))|].
  intros html. sound_auto.
Qed.

Lemma sound_tool_get_breaking_changes args :
  sound P (tool_get_breaking_changes args).
Proof.
  unfold tool_get_breaking_changes.
  apply sound_bind; [sound_auto|]. intros integration.
  apply sound_bind; [sound_auto|]. intros version.
  apply sound_bind; [sound_auto|]. intros _.
  apply sound_bind; [by apply sound_fetch_haVersion|]. intros haVersion.
  apply sound_bind; [by apply sound_targetVersion|]. intros target.
  apply sound_bind; [apply sound_release_notes|]. intros notes. sound_auto.
Qed.

End DocToolFacts.

Section SyntaxToolFacts.
Context {H : Host} {R : Runtime} {E : Env} {T : Texts}.

(** The one place outside the SetLevel handler that stores into the module
    state: the table is written back as the tests left it, that is,
    unchanged. *)
Lemma sound_check_deprecations (P : Request -> Prop) yamlConfig integration_arg :
  sound P (check_deprecations yamlConfig integration_arg).
Proof.
  intros w. unfold check_deprecations, bind, get_module, put_module, adds. simpl.
  destruct (existsb _ _ && negb (printable yamlConfig)); simpl.
  - split; [|done]. exists []. split; [done|].
    intros r Hr. by apply elem_of_nil in Hr.
  - destruct (checkConfigForDeprecations (deprecation_table (module_state w))
                yamlConfig integration_arg) as [report table'] eqn:Hrun.
    simpl. split.
    + exists []. split; [done|]. intros r Hr. by apply elem_of_nil in Hr.
    + intros Ht. rewrite Ht in Hrun.
      pose proof (check_loop_table yamlConfig integration_arg DEPRECATION_PATTERNS
                    {| deprecated := false; warnings := []; suggestions := [] |}
                    DEPRECATION_PATTERNS_flags) as Hsame.
      unfold checkConfigForDeprecations in Hrun. rewrite Hrun in Hsame.
      simpl in Hsame. subst table'. rewrite <- Ht. by destruct (module_state w).
Qed.

Lemma sound_includes_tab P v : sound P (includes_tab v).
Proof. destruct v; simpl; sound_auto. Qed.

Lemma sound_tool_check_config_syntax P args :
  sound P (tool_check_config_syntax args).
Proof.
  unfold tool_check_config_syntax.
  apply sound_bind; [sound_auto|]. intros yaml_config.
  apply sound_bind; [sound_auto|]. intros integration.
  apply sound_bind; [sound_auto|]. intros _.
  apply sound_bind; [apply sound_check_deprecations|]. intros report.
  apply sound_bind; [apply sound_includes_tab|]. intros has_tab.
  sound_auto.
Qed.

End SyntaxToolFacts.

#[global] Hint Resolve sound_ret sound_throw sound_rethrow sound_respond
  sound_sendLog sound_Date_read sound_Date_reads sound_member
  sound_destructure sound_expect_states sound_expect_string
  sound_generateStateSummary sound_get_module sound_getEntityRelationships
  sound_filter_services sound_or_yesterday sound_diagnose_anomaly
  sound_diagnose_steps sound_fetch_haVersion sound_targetVersion
  sound_includes_tab sound_report_anomalies sound_to_string sound_to_number
  sound_apply_domain_filter sound_append_param sound_diagnose_finish
  sound_check_deprecations : sound.

(** ** Which handlers call the Supervisor API *)

Section ReturnFacts.
Context {H : Host} {R : Runtime} {E : Env}.

Lemma returns_ret {A} (Q : A -> Prop) (a : A) : Q a -> returns Q (ret a).
Proof. intros Ha w. by exists a. Qed.

Lemma returns_bind {A B} (Q' : A -> Prop) (Q : B -> Prop) (m : M A)
    (k : A -> M B) :
  returns Q' m -> (forall a, Q' a -> returns Q (k a)) -> returns Q (bind m k).
Proof.
  intros Hm Hk w. destruct (Hm w) as (a & Ha & HQ). unfold bind.
  destruct (m w) as [[e|a'] w']; simpl in *; [done|]. simplify_eq. by apply Hk.
Qed.

Lemma returns_never_throws {A} (m : M A) :
  never_throws m -> returns (fun _ => True) m.
Proof. intros Hm w. destruct (Hm w) as [a Ha]. by exists a. Qed.

Lemma never_throws_returns {A} (Q : A -> Prop) (m : M A) :
  returns Q m -> never_throws m.
Proof. intros Hm w. destruct (Hm w) as (a & Ha & _). by exists a. Qed.

Lemma returns_destructure v k :
  defined v = true -> returns (fun a => a = prop v k) (destructure v k).
Proof. destruct v; simpl; try done; intros _; by apply returns_ret. Qed.


Lemma returns_to_string v :
  printable v = true -> returns (fun _ => True) (to_string v).
Proof. intros Hv. by apply returns_never_throws, never_throws_to_string. Qed.



Lemma never_throws_or_yesterday x : never_throws (or_yesterday x).
Proof.
  unfold or_yesterday. destruct (truthy x); [apply never_throws_ret|].
  apply never_throws_bind; [apply never_throws_Date_read|].
  intros now. apply never_throws_ret.
Qed.

Lemma never_throws_append_param params k v :
  printable v = true -> never_throws (append_param params k v).
Proof.
  intros Hv. unfold append_param. destruct (truthy v); [|apply never_throws_ret].
  apply never_throws_bind; [by apply never_throws_to_string|].
  intros t. apply never_throws_ret.
Qed.

Lemma printable_opt_member args k :
  printable_args args -> printable (opt_member args k) = true.
Proof. intros Hargs. destruct args; try done; apply Hargs. Qed.


End ReturnFacts.

(** A value read from arguments that all convert, or a string. *)
Ltac printable_tac :=
  first [ assumption
        | reflexivity
        | match goal with
          | Hargs : printable_args _ |- _ =>
              first [apply Hargs | apply (printable_opt_member _ _ Hargs)]
          end ].

(** The steps that precede the first call of a handler do not throw. *)
Ltac quiet_step :=
  lazymatch goal with
  | |- never_throws (bind _ _) => apply never_throws_bind; [|intros ?]
  | |- never_throws (match ?x with _ => _ end) => destruct x
  | |- never_throws (member _ _) => apply never_throws_member; assumption
  | |- never_throws (destructure _ _) =>
      apply never_throws_destructure; assumption
  | |- never_throws (to_string _) => apply never_throws_to_string; printable_tac
  | |- never_throws (append_param _ _ _) =>
      apply never_throws_append_param; printable_tac
  | |- never_throws _ =>
      first [ apply never_throws_ret | apply never_throws_sendLog
            | apply never_throws_Date_read | apply never_throws_or_yesterday
            | apply never_throws_attempt ]
  end.




Section CallFacts.
Context {H : Host} {R : Runtime} {E : Env} {T : Texts}.






















End CallFacts.

Section DispatchFacts.
Context {H : Host} {R : Runtime} {E : Env} {T : Texts}.




Lemma sound_dispatch name args : sound (allowed name) (dispatch name args).
Proof.
  assert (Hsup : forall r, to_supervisor r = true -> allowed name r)
    by (intros r Hr; by left).
  unfold dispatch, tool_cases. simpl find_case.
  repeat (match goal with
          | |- context [String.eqb name ?s] =>
              destruct (String.eqb_spec name s) as [->|_]
          end;
          [first [ by apply sound_tool_get_states
                 | by apply sound_tool_search_entities
                 | by apply sound_tool_get_entity_details
                 | by apply sound_tool_call_service
                 | by apply sound_tool_get_services
                 | by apply sound_tool_get_history
                 | by apply sound_tool_get_logbook
                 | by apply sound_tool_get_config
                 | by apply sound_tool_get_areas
                 | by apply sound_tool_get_devices
                 | by apply sound_tool_validate_config
                 | by apply sound_tool_get_error_log
                 | by apply sound_tool_fire_event
                 | by apply sound_tool_render_template
                 | by apply sound_tool_get_calendars
                 | by apply sound_tool_get_calendar_events
                 | by apply sound_tool_detect_anomalies
                 | by apply sound_tool_get_suggestions
                 | by apply sound_tool_diagnose_entity
                 | apply sound_tool_get_integration_docs;
                   [done|intros r Hr; right; split; [repeat constructor|done]]
                 | apply sound_tool_get_breaking_changes;
                   [done|intros r Hr; right; split; [repeat constructor|done]]
                 | apply sound_tool_check_config_syntax ]|]).
  apply sound_throw.
Qed.



Lemma sound_CallTool P name args :
  sound P (dispatch name args) -> sound P (CallTool name args).
Proof.
  intros Hd. unfold CallTool.
  apply sound_bind; [apply sound_sendLog|]. intros _.
  apply sound_try_catch; [done|]. intros e. sound_auto.
Qed.


End DispatchFacts.




(** ** The SetLevel handler *)

Lemma is_log_level_spec level : is_log_level level = true <-> level ∈ LOG_LEVELS.
Proof.
  unfold is_log_level. rewrite existsb_exists. split.
  - intros (l & Hin & Heq). apply String.eqb_eq in Heq as <-.
    by apply list_elem_of_In.
  - intros Hin. exists level. split; [by apply list_elem_of_In|].
    apply String.eqb_refl.
Qed.

Section SetLevelFacts.
Context {E : Env}.

Lemma SetLevel_valid level w :
  level ∈ LOG_LEVELS ->
  exists w',
    SetLevel level w = (inr tt, w')
    /\ currentLogLevel (module_state w') = level
    /\ deprecation_table (module_state w')
       = deprecation_table (module_state w).
Proof.
  intros Hin. apply is_log_level_spec in Hin.
  unfold SetLevel. rewrite Hin.
  cbv [bind get_module put_module sendLog Date_read emit ret]. simpl.
  destruct (shouldLog level "info"); simpl; eauto.
Qed.

Lemma SetLevel_invalid level w :
  level ∉ LOG_LEVELS ->
  SetLevel level w
  = (inl {| error_message := "Invalid log level: " ++ level |}, w).
Proof.
  intros Hnot. unfold SetLevel.
  destruct (is_log_level level) eqn:Hl; [|done].
  by apply is_log_level_spec in Hl.
Qed.

End SetLevelFacts.

(** C10. The SetLevel handler is atomic on error. For one of the eight
    levels of [LOG_LEVELS] it stores the level in [currentLogLevel], touches
    nothing else of the module state and returns the empty result; for any
    other string it throws [Invalid log level: <level>] and leaves the
    world, [currentLogLevel] included, exactly as it was. *)
Theorem SetLevel_atomic {E : Env} (level : string) (w : World) :
  length LOG_LEVELS = 8%nat
  /\ (level ∈ LOG_LEVELS ->
      exists w',
        SetLevel level w = (inr tt, w')
        /\ currentLogLevel (module_state w') = level
        /\ deprecation_table (module_state w')
           = deprecation_table (module_state w))
  /\ (level ∉ LOG_LEVELS ->
      SetLevel level w
      = (inl {| error_message := "Invalid log level: " ++ level |}, w)).
Proof.
  split; [reflexivity|]. split.
  - apply SetLevel_valid.
  - apply SetLevel_invalid.
Qed.

Lemma SetLevel_atomic_witness :
  exists w',
    SetLevel (E:=Sample.env) "debug" Sample.boot = (inr tt, w')
    /\ currentLogLevel (module_state w') = "debug".
Proof.
  destruct (SetLevel_atomic (E:=Sample.env) "debug" Sample.boot)
    as (_ & Hok & _).
  destruct Hok as (w' & Hrun & Hlevel & _); [repeat constructor|].
  exists w'. split; [exact Hrun|exact Hlevel].
Defined.

(** ** The CallTool handler *)

Lemma find_case_None {A} name (cases : list (string * A)) :
  name ∉ map fst cases -> find_case name cases = None.
Proof.
  induction cases as [|[n h] cases IH]; simpl; [done|]. intros Hnot.
  destruct (String.eqb_spec name n) as [->|Hne].
  - destruct Hnot. by left.
  - apply IH. intros Hin. apply Hnot. by right.
Qed.

(** The cases of the [switch] are the tools of the [TOOLS] table. *)
Lemma tool_cases_names {H : Host} {R : Runtime} {E : Env} {T : Texts} :
  map fst tool_cases = TOOL_NAMES.
Proof. reflexivity. Qed.

(** C6. The CallTool handler never lets an error escape: it always settles
    with a result. When the dispatched case throws, the result is the one
    text item [Error: <message>] with [isError] set; the name of no tool
    makes the [switch] throw [Unknown tool: <name>], reported the same way. *)
Theorem CallTool_catches {H : Host} {R : Runtime} {E : Env} {T : Texts}
    (name : string) (args : value) (w : World) :
  let entered :=
    snd (sendLog "info" "mcp-server"
           (VObj [("action", VStr "call_tool"); ("tool", VStr name);
                  ("args", args)]) w) in
  let failure message :=
    {| content :=
         [{| content_type_tag := "text";
             text := VStr ("Error: " ++ message);
             annotations := Some {| audience := ["user"]; priority := 1 |} |}];
       isError := true |} in
  (exists res w', CallTool name args w = (inr res, w'))
  /\ (forall e w1,
        dispatch name args entered = (inl e, w1) ->
        fst (CallTool name args w) = inr (failure (error_message e)))
  /\ (name ∉ TOOL_NAMES ->
      fst (CallTool name args w) = inr (failure ("Unknown tool: " ++ name))).
Proof.
  intros entered failure.
  assert (Hrun : forall e w1,
             dispatch name args entered = (inl e, w1) ->
             fst (CallTool name args w) = inr (failure (error_message e))).
  { intros e w1 Hd. subst entered. unfold CallTool, bind, try_catch.
    destruct (never_throws_sendLog "info" "mcp-server"
                (VObj [("action", VStr "call_tool"); ("tool", VStr name);
                       ("args", args)]) w) as [[] Hlog].
    destruct (sendLog _ _ _ w) as [[e0|[]] w0]; simpl in *; [done|].
    rewrite Hd.
    destruct (never_throws_sendLog "error" "mcp-server"
                (VObj [("action", VStr "tool_error"); ("tool", VStr name);
                       ("error", VStr (error_message e))]) w1) as [[] Hlog'].
    destruct (sendLog _ _ _ w1) as [[e1|[]] w2]; simpl in *; done. }
  split; [|split; [exact Hrun|]].
  - destruct (dispatch name args entered) as [[e|res] w1] eqn:Hd.
    + specialize (Hrun e w1 eq_refl).
      destruct (CallTool name args w) as [r w'] eqn:Hc. simpl in Hrun. subst r.
      eauto.
    + subst entered. unfold CallTool, bind, try_catch.
      destruct (never_throws_sendLog "info" "mcp-server"
                  (VObj [("action", VStr "call_tool"); ("tool", VStr name);
                         ("args", args)]) w) as [[] Hlog].
      destruct (sendLog _ _ _ w) as [[e0|[]] w0]; simpl in *; [done|].
      rewrite Hd. eauto.
  - intros Hnot. apply (Hrun {| error_message := "Unknown tool: " ++ name |} entered).
    unfold dispatch. rewrite find_case_None; [done|]. by rewrite tool_cases_names.
Qed.

Lemma CallTool_catches_witness :
  exists res,
    fst (CallTool (H:=Sample.host) (R:=Sample.runtime) (E:=Sample.env)
           (T:=Sample.texts) "call_service" VUndefined Sample.boot) = inr res
    /\ isError res = true.
Proof.
  destruct (CallTool_catches (H:=Sample.host) (R:=Sample.runtime)
              (E:=Sample.env) (T:=Sample.texts)
              "call_service" VUndefined Sample.boot) as (_ & Hthrown & _).
  eexists. split; [eapply Hthrown; vm_compute; reflexivity|reflexivity].
Defined.

(** ** Frame of the request handlers *)

Section ResourceFacts.
Context {H : Host} {R : Runtime} {E : Env} {T : Texts}.
Variable P : Request -> Prop.
Hypothesis P_supervisor : forall r, to_supervisor r = true -> P r.

Lemma sound_contents u mime t aud prio : sound P (contents u mime t aud prio).
Proof. apply sound_ret. Qed.

#[local] Hint Resolve sound_contents : sound.

Lemma sound_list_domain u prefix project prio :
  sound P (list_domain u prefix project prio).
Proof. unfold list_domain. sound_auto. Qed.

#[local] Hint Resolve sound_list_domain : sound.

Lemma sound_read_resource u : sound P (read_resource u).
Proof. unfold read_resource. sound_auto. Qed.

Lemma sound_ReadResource u : sound P (ReadResource u).
Proof.
  unfold ReadResource. apply sound_bind; [apply sound_sendLog|]. intros _.
  apply sound_try_catch; [apply sound_read_resource|]. intros e. sound_auto.
Qed.

Lemma sound_get_prompt name args : sound P (get_prompt name args).
Proof. unfold get_prompt. cbv zeta. sound_auto. Qed.

Lemma sound_GetPrompt name args : sound P (GetPrompt name args).
Proof.
  unfold GetPrompt. apply sound_bind; [apply sound_sendLog|]. intros _.
  apply sound_try_catch; [apply sound_get_prompt|]. intros e. sound_auto.
Qed.

Lemma sound_ListTools : sound P ListTools.
Proof. unfold ListTools. sound_auto. Qed.

Lemma sound_ListResources : sound P ListResources.
Proof. unfold ListResources. sound_auto. Qed.

Lemma sound_ListResourceTemplates : sound P ListResourceTemplates.
Proof. unfold ListResourceTemplates. sound_auto. Qed.

Lemma sound_ListPrompts : sound P ListPrompts.
Proof. unfold ListPrompts. sound_auto. Qed.

End ResourceFacts.

Lemma Request_kind_cases (r : Request_kind) :
  (exists level, r = ReqSetLevel level) \/ (forall level, r <> ReqSetLevel level).
Proof. destruct r; eauto; right; discriminate. Qed.

Section FrameFacts.
Context {H : Host} {R : Runtime} {E : Env} {T : Texts}.

Lemma handle_module_state r w :
  deprecation_table (module_state w) = DEPRECATION_PATTERNS ->
  (forall level, r <> ReqSetLevel level) ->
  module_state (handle r w) = module_state w.
Proof.
  intros Htable Hr. destruct r as [level| |name args| | |u| |name args]; simpl.
  - by destruct (Hr level).
  - by apply (sound_ListTools (fun _ => True)).
  - by apply (sound_CallTool _ name args (sound_dispatch name args)).
  - by apply (sound_ListResources (fun _ => True)).
  - by apply (sound_ListResourceTemplates (fun _ => True)).
  - by apply (sound_ReadResource (fun _ => True)).
  - by apply (sound_ListPrompts (fun _ => True)).
  - by apply (sound_GetPrompt (fun _ => True)).
Qed.

Lemma handle_SetLevel_module_state level w :
  module_state (handle (ReqSetLevel level) w)
  = if decide (level ∈ LOG_LEVELS)
    then {| currentLogLevel := level;
            deprecation_table := deprecation_table (module_state w) |}
    else module_state w.
Proof.
  simpl. destruct (decide (level ∈ LOG_LEVELS)) as [Hin|Hnot].
  - destruct (SetLevel_valid level w Hin) as (w' & Hrun & Hlevel & Hsame).
    rewrite Hrun. simpl. destruct (module_state w'). simpl in *. by subst.
  - by rewrite (SetLevel_invalid level w Hnot).
Qed.

End FrameFacts.

(** C2. The log level is the only module-level state a handler changes.
    From a world whose deprecation table is the one of the script, as it is
    at start-up, every handler leaves the table as it is, and every handler
    other than SetLevel leaves the whole module state, [currentLogLevel]
    included, unchanged. *)
Theorem handlers_frame {H : Host} {R : Runtime} {E : Env} {T : Texts}
    (r : Request_kind) (w : World) :
  deprecation_table (module_state w) = DEPRECATION_PATTERNS ->
  deprecation_table (module_state (handle r w)) = DEPRECATION_PATTERNS
  /\ ((forall level, r <> ReqSetLevel level) ->
      module_state (handle r w) = module_state w).
Proof.
  intros Htable. split; [|by apply handle_module_state].
  destruct (Request_kind_cases r) as [[level ->]|Hother].
  - rewrite handle_SetLevel_module_state. by destruct (decide _).
  - by rewrite handle_module_state.
Qed.

Lemma handlers_frame_witness :
  module_state
    (handle (H:=Sample.host) (R:=Sample.runtime) (E:=Sample.env)
       (T:=Sample.texts)
       (ReqCallTool "check_config_syntax"
          (VObj [("yaml_config", VStr "sensor:")])) Sample.boot)
  = module_state startup.
Proof.
  apply (handlers_frame (H:=Sample.host) (R:=Sample.runtime) (E:=Sample.env)
           (T:=Sample.texts)
           (ReqCallTool "check_config_syntax"
              (VObj [("yaml_config", VStr "sensor:")])) Sample.boot).
  - reflexivity.
  - discriminate.
Defined.

(** ** The domain filter *)

Lemma filter_domain_elem domain all s :
  s ∈ filter_domain domain all
  <-> s ∈ all /\ Str.startsWith (entity_id s) (domain ++ ".") = true.
Proof. unfold filter_domain. by rewrite !list_elem_of_In, filter_In. Qed.

Section DomainFacts.
Context {H : Host} {R : Runtime} {E : Env} {T : Texts}.

Lemma apply_domain_filter_string domain all w :
  domain <> "" ->
  apply_domain_filter (VStr domain) all w = (inr (filter_domain domain all), w).
Proof.
  intros Hne. unfold apply_domain_filter. simpl.
  destruct (String.eqb_spec domain ""); [done|]. simpl.
  by apply filter_by_domain_printable.
Qed.

(** What [get_states] answers on the listing path, once the filter has
    left the states [kept]. *)
Lemma tool_get_states_run args all kept w w' :
  callHA_get "/states" w = (inr (PStates all), w') ->
  truthy (opt_member args "entity_id") = false ->
  apply_domain_filter (opt_member args "domain") all w' = (inr kept, w') ->
  tool_get_states args w
  = if truthy (opt_member args "summarize")
    then (summary <- generateStateSummary
                       (fun i => clock (ticks w' + i)%nat) kept;;
          respond (VStr summary) ["user"; "assistant"] 0.9)
           {| module_state := module_state w';
              ticks := (ticks w' + length kept)%nat; trace := trace w' |}
    else respond (VStr (JSON_pretty (VArr (map simplified kept))))
                 ["assistant"] 0.7 w'.
Proof.
  intros Hcall Hid Hkept. unfold tool_get_states. rewrite Hid.
  unfold bind at 1. rewrite Hcall. unfold bind at 1. simpl expect_states.
  unfold ret at 1. unfold bind at 1. rewrite Hkept.
  by destruct (truthy (opt_member args "summarize")).
Qed.

(** What [detect_anomalies] answers, the scan reading the clock from the
    reading that follows the call. *)
Lemma tool_detect_anomalies_run args all kept w w' :
  callHA_get "/states" w = (inr (PStates all), w') ->
  apply_domain_filter (opt_member args "domain") all w' = (inr kept, w') ->
  tool_detect_anomalies args w
  = report_anomalies
      (detect_anomalies_scan (fun i => clock (ticks w' + i)%nat) kept)
      {| module_state := module_state w';
         ticks := (ticks w' + length kept)%nat; trace := trace w' |}.
Proof.
  intros Hcall Hkept. unfold tool_detect_anomalies.
  unfold bind at 1. rewrite Hcall. unfold bind at 1. simpl expect_states.
  unfold ret at 1. unfold bind at 1. by rewrite Hkept.
Qed.

End DomainFacts.

(** C3. The [detect_anomalies] tool is a single pass over the states the
    optional domain filter leaves. Its answer is the fixed text [No
    anomalies detected...] or the count and the JSON text of an array
    [anomalies] of records [{ entity_id, reason, severity }]; the array
    holds exactly the non-null results of the evaluations of
    [detectAnomaly], one per state, and in it every anomaly of severity
    [warning] stands before every anomaly of another severity. *)
Theorem detect_anomalies_single_pass {H : Host} {R : Runtime} {E : Env}
    (args : value) (all states : list EntityState) (w w' : World) :
  callHA_get "/states" w = (inr (PStates all), w') ->
  apply_domain_filter (opt_member args "domain") all w' = (inr states, w') ->
  let clk := fun i => clock (ticks w' + i)%nat in
  exists anomalies,
    fst (tool_detect_anomalies args w)
    = inr (makeCompatibleResponse
             [if (length anomalies =? 0)%nat
              then createTextContent
                     (VStr "No anomalies detected. All entities appear to be operating normally.")
                     ["user"] 0.9
              else createTextContent
                     (VStr ("Found "
                            ++ Number_toString (Number_of_nat (length anomalies))
                            ++ " potential anomalies:" ++ Str.nl ++ Str.nl
                            ++ JSON_pretty (VArr (map anomaly_to_json anomalies))))
                     ["user"; "assistant"] 0.9]
             false)
    /\ anomalies ≡ₚ omap id (imap (fun i s => detectAnomaly (clk i) s) states)
    /\ forall i j a b,
         anomalies !! i = Some a -> anomalies !! j = Some b ->
         severity a = "warning" -> severity b <> "warning" -> (i < j)%nat.
Proof.
  intros Hcall Hstates clk.
  exists (detect_anomalies_scan clk states). split; [|split].
  - rewrite (tool_detect_anomalies_run args all states w w' Hcall Hstates).
    unfold report_anomalies. fold clk.
    by destruct (length (detect_anomalies_scan clk states) =? 0)%nat.
  - apply Array_sort_perm.
  - intros i j a b Hi Hj Ha Hb.
    destruct (decide (i < j)%nat) as [|Hge]; [done|exfalso].
    assert (j <> i) by (intros ->; congruence).
    pose proof (Array_sort_ranked
                  (fun x => if String.eqb (severity x) "warning" then 1 else 0)
                  (filter_Boolean (map_detectAnomaly clk states))) as Hs.
    pose proof (ranked_lookup _ _ j i b a Hs Hj Hi ltac:(lia)) as Hle.
    simpl in Hle. rewrite Ha in Hle. simpl in Hle.
    destruct (String.eqb_spec (severity b) "warning"); [done|lia].
Qed.

Lemma detect_anomalies_single_pass_witness :
  exists res,
    fst (tool_detect_anomalies (H:=Sample.host) (R:=Sample.runtime)
           (E:=Sample.env) (VObj [("domain", VStr "binary_sensor")])
           Sample.boot) = inr res.
Proof.
  destruct (detect_anomalies_single_pass (H:=Sample.host) (R:=Sample.runtime)
              (E:=Sample.env) (VObj [("domain", VStr "binary_sensor")])
              Sample.states [Sample.kitchen_motion; Sample.front_door]
              Sample.boot
              (snd (callHA_get (H:=Sample.host) (R:=Sample.runtime)
                      (E:=Sample.env) "/states" Sample.boot)))
    as (anomalies & Hrun & _).
  - vm_compute. reflexivity.
  - vm_compute. reflexivity.
  - eexists. exact Hrun.
Defined.

(** C7, as corrected. For every non-empty domain string given as the
    [domain] argument, the states [get_states] lists or summarises (when it
    is given no [entity_id]) and the states [detect_anomalies] scans are
    exactly the states of the payload of [/states] whose [entity_id] starts
    with the domain followed by a dot: none other is kept and each of them
    is. The listing of [get_states] holds these states only, its summary is
    the summary of these states, and every anomaly [detect_anomalies]
    reports bears the id of one of them. *)
Theorem domain_filter_prefix {H : Host} {R : Runtime} {E : Env}
    (domain : string) (args : value) (all : list EntityState) (w w' : World) :
  domain <> "" ->
  opt_member args "domain" = VStr domain ->
  callHA_get "/states" w = (inr (PStates all), w') ->
  let kept := filter_domain domain all in
  let clk := fun i => clock (ticks w' + i)%nat in
  let scanned := {| module_state := module_state w';
                    ticks := (ticks w' + length kept)%nat;
                    trace := trace w' |} in
  (forall s, s ∈ kept <->
             s ∈ all /\ Str.startsWith (entity_id s) (domain ++ ".") = true)
  /\ (truthy (opt_member args "entity_id") = false ->
      tool_get_states args w
      = if truthy (opt_member args "summarize")
        then (summary <- generateStateSummary clk kept;;
              respond (VStr summary) ["user"; "assistant"] 0.9) scanned
        else respond (VStr (JSON_pretty (VArr (map simplified kept))))
                     ["assistant"] 0.7 w')
  /\ tool_detect_anomalies args w
     = report_anomalies (detect_anomalies_scan clk kept) scanned
  /\ forall a, a ∈ detect_anomalies_scan clk kept ->
       exists s, s ∈ kept /\ a_entity_id a = entity_id s
                 /\ Str.startsWith (a_entity_id a) (domain ++ ".") = true.
Proof.
  intros Hne Hdom Hcall kept clk scanned.
  assert (Hkept : apply_domain_filter (opt_member args "domain") all w'
                  = (inr kept, w'))
    by (rewrite Hdom; by apply apply_domain_filter_string).
  split; [apply filter_domain_elem|]. split; [|split].
  - intros Hid. exact (tool_get_states_run args all kept w w' Hcall Hid Hkept).
  - exact (tool_detect_anomalies_run args all kept w w' Hcall Hkept).
  - intros a Ha. unfold detect_anomalies_scan in Ha.
    rewrite Array_sort_perm in Ha.
    unfold filter_Boolean, map_detectAnomaly in Ha.
    apply list_elem_of_omap in Ha as (o & Ho & Hsome). simpl in Hsome. subst o.
    apply list_elem_of_lookup in Ho as [i Hi].
    rewrite list_lookup_imap in Hi.
    destruct (kept !! i) as [s|] eqn:Hs; [|done]. simpl in Hi. simplify_eq.
    apply detectAnomaly_entity_id in Hi.
    assert (Hin : s ∈ kept) by (eapply list_elem_of_lookup_2, Hs).
    exists s. split; [done|]. split; [done|].
    rewrite Hi. by apply filter_domain_elem in Hin as [_ ?].
Qed.

Lemma domain_filter_prefix_witness :
  Sample.kitchen_light ∈ filter_domain "light" Sample.states.
Proof.
  apply (proj1 (domain_filter_prefix (H:=Sample.host) (R:=Sample.runtime)
                  (E:=Sample.env) "light"
                  (VObj [("domain", VStr "light")]) Sample.states Sample.boot
                  (snd (callHA_get (H:=Sample.host) (R:=Sample.runtime)
                          (E:=Sample.env) "/states" Sample.boot))
                  ltac:(discriminate) ltac:(reflexivity)
                  ltac:(vm_compute; reflexivity))).
  split; [left|reflexivity].
Defined.

(** C7 as stated fails. For the empty domain string the filter is not
    applied: [get_states] answers as if no domain were given, and its
    listing holds an entity whose id does not start with a dot. And
    [get_states] with an [entity_id] answers with that entity whatever the
    domain asked for. *)
Lemma empty_domain_is_no_filter :
  Sample.kitchen_light ∈ Sample.states
  /\ Str.startsWith (entity_id Sample.kitchen_light) ("" ++ ".") = false
  /\ fst (tool_get_states (H:=Sample.host) (R:=Sample.runtime) (E:=Sample.env)
            (VObj [("domain", VStr "")]) Sample.boot)
     = inr (makeCompatibleResponse
              [createTextContent
                 (VStr (JSON_pretty (Runtime:=Sample.runtime)
                          (VArr (map simplified Sample.states))))
                 ["assistant"] 0.7] false)
  /\ fst (tool_get_states (H:=Sample.host) (R:=Sample.runtime) (E:=Sample.env)
            (VObj [("entity_id", VStr "light.kitchen");
                   ("domain", VStr "sensor")]) Sample.boot)
     = inr (makeCompatibleResponse
              [createTextContent
                 (VStr (JSON_pretty (Runtime:=Sample.runtime)
                          (state_to_json Sample.kitchen_light)))
                 ["assistant"] 0.8] false)
  /\ Str.startsWith (entity_id Sample.kitchen_light) ("sensor" ++ ".") = false.
Proof.
  split; [left|]. split; [reflexivity|].
  split; [vm_compute; reflexivity|].
  split; [vm_compute; reflexivity|reflexivity].
Qed.

(** ** Reachable worlds *)

(** The hypothesis of the frame property holds in every world the server
    reaches, and the log level is always one of [LOG_LEVELS]. *)
Lemma serve_invariant {H : Host} {R : Runtime} {E : Env} {T : Texts}
    (requests : list Request_kind) :
  let w := serve requests startup in
  deprecation_table (module_state w) = DEPRECATION_PATTERNS
  /\ currentLogLevel (module_state w) ∈ LOG_LEVELS.
Proof.
  simpl. unfold serve.
  assert (Hstart : deprecation_table (module_state startup) = DEPRECATION_PATTERNS
                   /\ currentLogLevel (module_state startup) ∈ LOG_LEVELS)
    by (split; [done|right; left]).
  revert Hstart. generalize startup.
  induction requests as [|r rs IH]; intros w [Ht Hl]; simpl; [done|].
  apply IH.
  destruct (Request_kind_cases r) as [[level ->]|Hother].
  - rewrite handle_SetLevel_module_state. by destruct (decide _).
  - by rewrite handle_module_state.
Qed.

(** ** Strings *)

Lemma append_cons (x : ascii) (a b : string) : String x a ++ b = String x (a ++ b).
Proof. reflexivity. Qed.

Lemma append_assoc (a b c : string) : (a ++ b) ++ c = a ++ (b ++ c).
Proof. induction a as [|x a IH]; [done|]. by rewrite !append_cons, IH. Qed.

Lemma append_nil_r (a : string) : a ++ "" = a.
Proof. induction a as [|x a IH]; [done|]. by rewrite append_cons, IH. Qed.

Lemma append_cancel_l (p a b : string) : p ++ a = p ++ b -> a = b.
Proof.
  induction p as [|x p IH]; [done|]. rewrite !append_cons. intros [= ?]. auto.
Qed.

(** [split] then [join] on the same separator gives the string back. *)
Lemma split_nonempty (c : ascii) (s : string) : Str.split c s <> [].
Proof.
  destruct s as [|a s]; simpl; [done|].
  destruct (Ascii.eqb a c); [done|]. by destruct (Str.split c s).
Qed.

Lemma join_split (c : ascii) (s : string) :
  Str.join (String c "") (Str.split c s) = s.
Proof.
  induction s as [|a s IH]; [done|]. simpl.
  pose proof (split_nonempty c s) as Hne.
  destruct (Str.split c s) as [|x xs]; [done|].
  destruct (Ascii.eqb_spec a c) as [->|Hac].
  - change (Str.join (String c "") ("" :: x :: xs))
      with (String c (Str.join (String c "") (x :: xs))).
    by rewrite IH.
  - destruct xs as [|y ys]; simpl in *; [by rewrite IH|].
    by rewrite append_cons, IH.
Qed.

(** ** The order the sorts leave equal keys in *)

Section StableFacts.
Context {A : Type}.
Implicit Types (key : A -> Z) (f : A -> bool) (l : list A).

(** Insertion passes larger keys only: the elements of any one key keep
    their order. *)
Lemma sort_insert_filter key (k : Z) x l :
  List.filter (fun a => key a =? k) (sort_insert (fun a b => key b - key a) x l)
  = List.filter (fun a => key a =? k) (x :: l).
Proof.
  induction l as [|y l IH]; [done|]. simpl sort_insert.
  destruct (Z.ltb_spec 0 (key y - key x)) as [Hlt|Hge]; [|done].
  simpl in *. rewrite IH.
  destruct (Z.eqb_spec (key y) k), (Z.eqb_spec (key x) k); try done. lia.
Qed.

Lemma Array_sort_stable key (k : Z) l :
  List.filter (fun a => key a =? k) (Array_sort (fun a b => key b - key a) l)
  = List.filter (fun a => key a =? k) l.
Proof.
  induction l as [|x l IH]; [done|]. unfold Array_sort in *. simpl foldr.
  rewrite sort_insert_filter. simpl. by rewrite IH.
Qed.

Lemma sort_insert_flag f x (yes no : list A) :
  Forall (fun a => f a = true) yes -> Forall (fun a => f a = false) no ->
  sort_insert (fun a b => (if f b then 1 else 0) - (if f a then 1 else 0)) x
    (yes ++ no)
  = if f x then x :: yes ++ no else (yes ++ x :: no)%list.
Proof.
  intros Hyes Hno. induction Hyes as [|y yes Hy Hyes IH]; simpl.
  - destruct Hno as [|n no Hn Hno]; simpl; [by destruct (f x)|].
    rewrite Hn. by destruct (f x).
  - rewrite Hy, IH. by destruct (f x).
Qed.

Lemma filter_Forall f l : Forall (fun a => f a = true) (List.filter f l).
Proof.
  apply List.Forall_forall. intros a Ha. by apply filter_In in Ha as [_ ?].
Qed.

(** A sort on a flag is a stable partition. *)
Lemma Array_sort_flag f l :
  Array_sort (fun a b => (if f b then 1 else 0) - (if f a then 1 else 0)) l
  = (List.filter f l ++ List.filter (fun a => negb (f a)) l)%list.
Proof.
  induction l as [|x l IH]; [done|]. unfold Array_sort in *. simpl foldr.
  rewrite IH, sort_insert_flag.
  - simpl. by destruct (f x).
  - apply filter_Forall.
  - eapply Forall_impl; [apply (filter_Forall (fun a => negb (f a)))|].
    simpl. intros a Ha. by apply negb_true_iff.
Qed.

Lemma filter_take_prefix f (n : nat) l :
  List.filter f (take n l) `prefix_of` List.filter f l.
Proof.
  exists (List.filter f (drop n l)).
  by rewrite <- List.filter_app, take_drop.
Qed.

End StableFacts.

Lemma prefix_map {A B} (f : A -> B) (l1 l2 : list A) :
  l1 `prefix_of` l2 -> map f l1 `prefix_of` map f l2.
Proof. intros [k ->]. exists (map f k). apply map_app. Qed.

(** X1. The [anomalies] array of [detect_anomalies] is a stable partition of
    the scan: first the anomalies of severity [warning], in the order of the
    states they come from, then all the others, in that order too. *)
Theorem detect_anomalies_warnings_first {H : Host} (clk : nat -> Clock)
    (states : list EntityState) :
  let found := filter_Boolean (map_detectAnomaly clk states) in
  detect_anomalies_scan clk states
  = (List.filter (fun a => String.eqb (severity a) "warning") found
     ++ List.filter (fun a => negb (String.eqb (severity a) "warning")) found)%list.
Proof.
  intros found. unfold detect_anomalies_scan.
  apply (Array_sort_flag (fun a => String.eqb (severity a) "warning")).
Qed.

Section TieFacts.
Context {H : Host}.

Lemma scored_ties (terms : list string) (k : Z) states :
  map fst
    (List.filter (fun r : EntityState * Z => snd r =? k)
       (List.filter (fun r => 0 <? snd r)
          (map (fun st => (st, score_of terms st)) states)))
  = List.filter (fun st => (0 <? score_of terms st) && (score_of terms st =? k))
                states.
Proof.
  induction states as [|st states IH]; [done|]. simpl.
  destruct (0 <? score_of terms st); simpl; [|done].
  destruct (score_of terms st =? k); simpl; by rewrite IH.
Qed.

Lemma positive_ties_prefix (terms : list string) (k : Z) states :
  List.filter (fun st => (0 <? score_of terms st) && (score_of terms st =? k))
              states
  `prefix_of` List.filter (fun st => score_of terms st =? k) states.
Proof.
  destruct (Z.ltb_spec 0 k) as [Hpos|Hneg].
  - erewrite List.filter_ext; [done|]. intros st. simpl.
    destruct (Z.eqb_spec (score_of terms st) k) as [->|]; [|by rewrite andb_false_r].
    by apply Z.ltb_lt in Hpos as ->.
  - erewrite (List.filter_ext _ (fun _ => false)).
    + replace (List.filter (fun _ => false) states) with (@nil EntityState)
        by (induction states; done).
      apply prefix_nil.
    + intros st. simpl.
      destruct (Z.eqb_spec (score_of terms st) k) as [->|]; [|by rewrite andb_false_r].
      by apply Z.ltb_ge in Hneg as ->.
Qed.

End TieFacts.

(** X2. Ties of [searchEntities] keep the order of the state list: for
    every score, the results of that score are the first entities of that
    score, in the order [/states] lists them. *)
Theorem searchEntities_ties_keep_order {H : Host} (states : list EntityState)
    (query : string) (k : Z) :
  map sr_entity_id
      (List.filter (fun r => score r =? k) (searchEntities states query))
  `prefix_of`
  map entity_id
      (List.filter (fun st => score_of (search_terms query) st =? k) states).
Proof.
  unfold searchEntities.
  set (project := fun r : EntityState * Z => _).
  assert (Hmap : forall l : list (EntityState * Z),
             map sr_entity_id (List.filter (fun r => score r =? k) (map project l))
             = map entity_id (map fst (List.filter (fun r => snd r =? k) l))).
  { induction l as [|r l IH]; [done|]. simpl.
    destruct (snd r =? k); simpl; by rewrite IH. }
  rewrite Hmap.
  apply prefix_map. etrans; [apply prefix_map, filter_take_prefix|].
  unfold search_ranked.
  rewrite (Array_sort_stable snd k), scored_ties. apply positive_ties_prefix.
Qed.

(** ** What the anomaly rules leave alone *)

(** X3. [detectAnomaly] reports nothing for an entity without a
    [battery_level] attribute whose domain is none of [sensor],
    [binary_sensor] and [light], whatever its state and the time of day. *)
Theorem detectAnomaly_out_of_scope {H : Host} (now : Clock) (st : EntityState) :
  attr battery_level st = None ->
  domain_of (entity_id st) ∉ ["sensor"; "binary_sensor"; "light"] ->
  detectAnomaly now st = None.
Proof.
  intros Hb Hd. unfold detectAnomaly. cbv zeta. rewrite Hb.
  repeat (apply not_elem_of_cons in Hd as [? Hd]).
  destruct (String.eqb_spec (domain_of (entity_id st)) "sensor"); [done|].
  destruct (String.eqb_spec (domain_of (entity_id st)) "binary_sensor"); [done|].
  by destruct (String.eqb_spec (domain_of (entity_id st)) "light").
Qed.

Lemma detectAnomaly_out_of_scope_witness :
  detectAnomaly (H:=Sample.host) Sample.noon
    {| entity_id := "switch.pump"; state := "on";
       attributes := Some Sample.no_attributes;
       last_changed := None; last_updated := None |}
  = None.
Proof.
  apply (detectAnomaly_out_of_scope (H:=Sample.host)); [reflexivity|].
  vm_compute. intros Hin.
  repeat (apply elem_of_cons in Hin as [Hin|Hin]; [discriminate|]).
  by apply elem_of_nil in Hin.
Defined.

(** X4. A sensor whose state does not parse as a number ([unavailable],
    [unknown], text) is never reported as a temperature or humidity anomaly:
    without a [battery_level] attribute, [detectAnomaly] answers [null]. *)
Theorem detectAnomaly_unparsed_sensor {H : Host} (now : Clock) (st : EntityState) :
  domain_of (entity_id st) = "sensor" ->
  is_nan (parseFloat (state st)) = true ->
  attr battery_level st = None ->
  detectAnomaly now st = None.
Proof.
  intros Hd Hnan Hb. unfold detectAnomaly. cbv zeta.
  rewrite Hb, Hd, Hnan. simpl.
  by destruct (is_str (attr device_class st) "temperature"),
              (is_str (attr device_class st) "humidity").
Qed.

Lemma detectAnomaly_unparsed_sensor_witness :
  detectAnomaly (H:=Sample.host) Sample.noon
    {| entity_id := "sensor.attic_temperature"; state := "unavailable";
       attributes := attributes Sample.attic_temperature;
       last_changed := None; last_updated := None |}
  = None.
Proof.
  apply (detectAnomaly_unparsed_sensor (H:=Sample.host));
    vm_compute; reflexivity.
Defined.

(** ** The state summary *)

Section SummaryFacts.
Context {H : Host}.

Lemma get_domain_count_state d domain value byDomain :
  get_domain d (count_state domain value byDomain)
  = if String.eqb domain d
    then let i := default {| di_count := 0; di_on := 0; di_off := 0 |}
                          (get_domain domain byDomain) in
         Some {| di_count := S (di_count i);
                 di_on := if String.eqb value "on" then S (di_on i) else di_on i;
                 di_off := if String.eqb value "off" then S (di_off i)
                           else di_off i |}
    else get_domain d byDomain.
Proof.
  induction byDomain as [|[d' i'] rest IH]; simpl; [done|].
  destruct (String.eqb_spec d' domain) as [->|Hne]; simpl.
  - by destruct (String.eqb domain d).
  - destruct (String.eqb_spec d' d) as [->|Hd']; [|exact IH].
    by destruct (String.eqb_spec domain d) as [->|].
Qed.

Lemma count_state_keys domain value byDomain :
  NoDup (map fst byDomain) ->
  NoDup (map fst (count_state domain value byDomain)).
Proof.
  intros Hnd.
  assert (Hkeys : forall k, k ∈ map fst (count_state domain value byDomain) ->
                            k = domain \/ k ∈ map fst byDomain).
  { induction byDomain as [|[d' i'] rest IH]; simpl.
    - intros k Hk. apply list_elem_of_singleton in Hk. by left.
    - apply NoDup_cons in Hnd as [_ Hnd].
      destruct (String.eqb d' domain); simpl; intros k Hk.
      + by right.
      + apply elem_of_cons in Hk as [->|Hk]; [right; by left|].
        destruct (IH Hnd k Hk) as [?|?]; [by left|right; by right]. }
  clear Hkeys. induction byDomain as [|[d' i'] rest IH]; simpl.
  - apply NoDup_singleton.
  - apply NoDup_cons in Hnd as [Hnot Hnd].
    destruct (String.eqb_spec d' domain) as [->|Hne]; simpl.
    + by apply NoDup_cons.
    + apply NoDup_cons. split; [|by apply IH].
      intros Hin. apply Hnot. clear IH Hnd Hnot.
      induction rest as [|[d'' i''] rest IH]; simpl in *.
      * apply list_elem_of_singleton in Hin. by subst.
      * destruct (String.eqb d'' domain); simpl in *; [done|].
        apply elem_of_cons in Hin as [->|Hin]; [by left|right; by apply IH].
Qed.

Lemma tally_states_invariant clk i rest seen acc t :
  tally_states clk i rest acc = Some t ->
  NoDup (map fst (byDomain acc)) ->
  (forall d,
     get_domain d (byDomain acc)
     = let of_domain :=
         List.filter (fun st => String.eqb (domain_of (entity_id st)) d) seen in
       if (0 <? length of_domain)%nat
       then Some {| di_count := length of_domain;
                    di_on := length (List.filter
                                       (fun st => String.eqb (state st) "on")
                                       of_domain);
                    di_off := length (List.filter
                                        (fun st => String.eqb (state st) "off")
                                        of_domain) |}
       else None) ->
  NoDup (map fst (byDomain t))
  /\ forall d,
       get_domain d (byDomain t)
       = let of_domain :=
         List.filter (fun st => String.eqb (domain_of (entity_id st)) d) (seen ++ rest)%list in
       if (0 <? length of_domain)%nat
       then Some {| di_count := length of_domain;
                    di_on := length (List.filter
                                       (fun st => String.eqb (state st) "on")
                                       of_domain);
                    di_off := length (List.filter
                                        (fun st => String.eqb (state st) "off")
                                        of_domain) |}
       else None.
Proof.
  revert i seen acc.
  induction rest as [|st rest IH]; intros i seen acc; cbn [tally_states].
  - intros [= <-] Hnd Hinv. by rewrite app_nil_r.
  - destruct (existsb _ Object_prototype_keys); [done|]. intros Hrun Hnd Hinv.
    replace (seen ++ st :: rest)%list with ((seen ++ [st]) ++ rest)%list
      by (by rewrite <- app_assoc).
    eapply IH; [exact Hrun|by apply count_state_keys|].
    intros d. cbv zeta in *. simpl.
    rewrite get_domain_count_state, !List.filter_app. simpl.
    destruct (String.eqb_spec (domain_of (entity_id st)) d) as [->|Hne].
    + rewrite Hinv. simpl. rewrite ?List.filter_app, ?length_app. simpl.
      destruct (List.filter _ seen) as [|x l] eqn:Hl; simpl.
      * by destruct (String.eqb (state st) "on"),
                    (String.eqb (state st) "off").
      * replace (0 <? S (length l + 1))%nat with true
          by (symmetry; apply Nat.ltb_lt; lia).
        f_equal.
        destruct (String.eqb (state st) "on"), (String.eqb (state st) "off");
          simpl; rewrite ?length_app; simpl; f_equal; lia.
    + simpl. by rewrite Hinv, !app_nil_r.
Qed.

Lemma tally_states_None clk i states acc :
  tally_states clk i states acc = None
  <-> exists st, st ∈ states
                 /\ domain_of (entity_id st) ∈ Object_prototype_keys.
Proof.
  revert i acc.
  induction states as [|st states IH]; intros i acc; cbn [tally_states].
  - split; [done|]. intros (st & Hin & _). by apply elem_of_nil in Hin.
  - destruct (existsb _ Object_prototype_keys) eqn:Hex.
    + split; [|done]. intros _. exists st. split; [by left|].
      apply existsb_exists in Hex as (k & Hin & Heq).
      apply String.eqb_eq in Heq as ->. by apply list_elem_of_In.
    + rewrite IH. split.
      * intros (s & Hin & Hk). exists s. split; [by right|done].
      * intros (s & Hin & Hk). apply elem_of_cons in Hin as [->|Hin]; [|eauto].
        exfalso. apply not_true_iff_false in Hex. apply Hex.
        apply existsb_exists. exists (domain_of (entity_id st)).
        split; [by apply list_elem_of_In|apply String.eqb_refl].
Qed.

End SummaryFacts.

(** X5. [generateStateSummary] fails exactly when the domain of some state
    names a property every object inherits ([constructor], [toString],
    ...): the error is the [TypeError] of [.entities.push]; it returns its
    text for every other list of states. *)
Theorem generateStateSummary_failure {H : Host} (clk : nat -> Clock)
    (states : list EntityState) (w : World) :
  let inherited :=
    exists st, st ∈ states /\ domain_of (entity_id st) ∈ Object_prototype_keys in
  (inherited ->
   generateStateSummary clk states w
   = (inl {| error_message :=
               "Cannot read properties of undefined (reading 'push')" |}, w))
  /\ (~ inherited -> exists summary, generateStateSummary clk states w = (inr summary, w)).
Proof.
  intros inherited. subst inherited. unfold generateStateSummary.
  destruct (tally_states clk 0 states _) as [t|] eqn:Ht.
  - split; [|by eexists]. intros Hin.
    apply (tally_states_None clk 0 states
             {| byDomain := []; unavailable := []; tally_anomalies := [] |})
      in Hin.
    by rewrite Hin in Ht.
  - split; [done|]. intros Hno. destruct Hno.
    by apply (tally_states_None clk 0 states
                {| byDomain := []; unavailable := []; tally_anomalies := [] |}).
Qed.

(** X6. The loop of [generateStateSummary] counts every state once, under
    its domain: when it completes, [byDomain] has one property per domain
    that occurs, and the [count], [on] and [off] of a domain are the number
    of states of that domain, and of those in state [on] and [off]. *)
Theorem generateStateSummary_counts {H : Host} (clk : nat -> Clock)
    (states : list EntityState) (t : Tally) :
  tally_states clk 0 states
    {| byDomain := []; unavailable := []; tally_anomalies := [] |} = Some t ->
  NoDup (map fst (byDomain t))
  /\ forall d,
       let of_domain :=
         List.filter (fun st => String.eqb (domain_of (entity_id st)) d) states in
       get_domain d (byDomain t)
       = if (0 <? length of_domain)%nat
         then Some {| di_count := length of_domain;
                      di_on := length (List.filter
                                         (fun st => String.eqb (state st) "on")
                                         of_domain);
                      di_off := length (List.filter
                                          (fun st => String.eqb (state st) "off")
                                          of_domain) |}
         else None.
Proof.
  intros Ht.
  apply (tally_states_invariant clk 0 states [] _ t Ht); [constructor|done].
Qed.

Lemma generateStateSummary_counts_witness :
  get_domain "binary_sensor"
    (byDomain
       (default {| byDomain := []; unavailable := []; tally_anomalies := [] |}
          (tally_states (H:=Sample.host) (fun _ => Sample.noon) 0 Sample.states
             {| byDomain := []; unavailable := []; tally_anomalies := [] |})))
  = Some {| di_count := 2; di_on := 1; di_off := 1 |}.
Proof.
  destruct (tally_states (H:=Sample.host) (fun _ => Sample.noon) 0 Sample.states
              {| byDomain := []; unavailable := []; tally_anomalies := [] |})
    as [t|] eqn:Ht; [|by vm_compute in Ht].
  simpl.
  destruct (generateStateSummary_counts (H:=Sample.host) (fun _ => Sample.noon)
              Sample.states t Ht) as [_ Hcount].
  rewrite (Hcount "binary_sensor"). vm_compute. reflexivity.
Defined.

(** ** The report of the deprecation check *)

Lemma strip_prefix_prefix l s :
  String.prefix l s = true <-> is_Some (strip_prefix l s).
Proof.
  revert s. induction l as [|a l IH]; intros s.
  - destruct s; simpl; (split; [intros _; by eexists|done]).
  - destruct s as [|b s]; simpl; [split; [done|by intros [? ?]]|].
    destruct (ascii_dec a b) as [->|Hne].
    + rewrite Ascii.eqb_refl. apply IH.
    + apply Ascii.eqb_neq in Hne as ->. split; [done|by intros [? ?]].
Qed.

(** An expression that is one literal text, without [^], finds what
    [includes] finds. *)
Lemma search_literal (m : bool) l before s :
  is_Some (search {| anchored := false; atoms := [Lit l]; global := false;
                     multiline := m; sticky := false; lastIndex := 0 |}
                  before s)
  <-> Str.includes s l = true.
Proof.
  revert before. induction s as [|a s IH]; intros before;
    cbn [search Str.includes]; unfold match_here; cbn [anchored andb atoms match_atoms];
    rewrite orb_true_iff, strip_prefix_prefix.
  - destruct (strip_prefix l ""); simpl; split.
    + intros _. left. by eexists.
    + intros _. by eexists.
    + by intros [? ?].
    + intros [[? ?]|?]; done.
  - rewrite <- IH. destruct (strip_prefix l (String a s)) as [rest|]; simpl.
    + split; [left|]; by eexists.
    + split; [by right|]. intros [[? ?]|?]; done.
Qed.

Lemma record_match_warnings p acc :
  warnings (record_match p acc)
  = (warnings acc
     ++ [(if truthy_str (deprecated_in p)
          then "[DEPRECATED since " ++ default "" (deprecated_in p) ++ "] "
               ++ message p
          else "[INFO] " ++ message p)%string])%list.
Proof. reflexivity. Qed.

(** On the table of the script: every entry has a suggestion, and its
    warning carries the word [DEPRECATED] exactly when the entry has a
    [deprecated_in] field. *)
Lemma DEPRECATION_PATTERNS_texts :
  Forall (fun p =>
            truthy_str (suggestion p) = true
            /\ Str.includes
                 (if truthy_str (deprecated_in p)
                  then "[DEPRECATED since " ++ default "" (deprecated_in p) ++ "] "
                       ++ message p
                  else "[INFO] " ++ message p)
                 "DEPRECATED"
               = bool_decide (deprecated_in p <> None))
         DEPRECATION_PATTERNS.
Proof. repeat constructor. Qed.

Section ReportFacts.
Context {H : Host}.

Lemma check_loop_consistent y i ps acc :
  Forall (fun p =>
            truthy_str (suggestion p) = true
            /\ Str.includes
                 (if truthy_str (deprecated_in p)
                  then "[DEPRECATED since " ++ default "" (deprecated_in p) ++ "] "
                       ++ message p
                  else "[INFO] " ++ message p)
                 "DEPRECATED"
               = bool_decide (deprecated_in p <> None)) ps ->
  length (suggestions acc) = length (warnings acc) ->
  deprecated acc = existsb (fun w => Str.includes w "DEPRECATED") (warnings acc) ->
  let report := fst (check_loop y i ps acc) in
  length (suggestions report) = length (warnings report)
  /\ deprecated report
     = existsb (fun w => Str.includes w "DEPRECATED") (warnings report).
Proof.
  intros Hps. revert acc.
  induction Hps as [|p ps [Hsug Htag] Hps IH]; intros acc Hlen Hdep; simpl; [done|].
  destruct (skipped i p).
  - specialize (IH acc Hlen Hdep). by destruct (check_loop y i ps acc).
  - destruct (RegExp_test (pattern p) (ToString y)) as [hit re'].
    specialize (IH (if hit then record_match p acc else acc)).
    destruct (check_loop y i ps _). apply IH; destruct hit; try done.
    + unfold record_match. simpl. rewrite Hsug, !length_app. simpl. lia.
    + rewrite record_match_warnings, existsb_app. simpl.
      rewrite Htag, orb_false_r. by rewrite <- Hdep.
Qed.

Lemma check_loop_warnings y i ps acc w :
  w ∈ warnings (fst (check_loop y i ps acc))
  <-> w ∈ warnings acc
      \/ exists p, p ∈ ps /\ skipped i p = false
                   /\ fst (RegExp_test (pattern p) (ToString y)) = true
                   /\ w = if truthy_str (deprecated_in p)
                          then "[DEPRECATED since " ++ default "" (deprecated_in p)
                               ++ "] " ++ message p
                          else "[INFO] " ++ message p.
Proof.
  revert acc. induction ps as [|p ps IH]; intros acc; simpl.
  - split; [by left|]. intros [?|(p & Hin & _)]; [done|]. by apply elem_of_nil in Hin.
  - destruct (skipped i p) eqn:Hs.
    + specialize (IH acc). destruct (check_loop y i ps acc) as [rep t]. simpl in *.
      rewrite IH. split.
      * intros [?|(q & Hin & ?)]; [by left|]. right. exists q. split; [by right|done].
      * intros [?|(q & Hin & Hq)]; [by left|].
        apply elem_of_cons in Hin as [->|Hin]; [|right; eauto].
        destruct Hq as [Hq _]. congruence.
    + destruct (RegExp_test (pattern p) (ToString y)) as [hit re'] eqn:Ht.
      specialize (IH (if hit then record_match p acc else acc)).
      destruct (check_loop y i ps _) as [rep t]. simpl in *.
      rewrite IH. split.
      * intros [Hw|(q & Hin & ?)]; [|right; exists q; split; [by right|done]].
        destruct hit; [|by left].
        rewrite record_match_warnings in Hw.
        apply elem_of_app in Hw as [?|Hw]; [by left|].
        apply list_elem_of_singleton in Hw. right. exists p.
        split; [by left|]. by rewrite Ht.
      * intros [Hw|(q & Hin & Hq)].
        -- left. destruct hit; [|done]. rewrite record_match_warnings.
           apply elem_of_app. by left.
        -- apply elem_of_cons in Hin as [->|Hin]; [|right; eauto].
           left. destruct Hq as (_ & Hhit & ->). rewrite Ht in Hhit.
           simpl in Hhit. subst hit. rewrite record_match_warnings.
           apply elem_of_app. right. by apply list_elem_of_singleton.
Qed.

Lemma report_consistent yamlConfig integration_arg :
  let report :=
    fst (checkConfigForDeprecations DEPRECATION_PATTERNS yamlConfig integration_arg) in
  length (suggestions report) = length (warnings report)
  /\ deprecated report
     = existsb (fun w => Str.includes w "DEPRECATED") (warnings report).
Proof.
  exact (check_loop_consistent yamlConfig integration_arg DEPRECATION_PATTERNS
           {| deprecated := false; warnings := []; suggestions := [] |}
           DEPRECATION_PATTERNS_texts eq_refl eq_refl).
Qed.

End ReportFacts.

(** X7. In the report of [checkConfigForDeprecations], every warning comes
    with a suggestion, and the [deprecated] flag is set exactly when one of
    the warnings is tagged [DEPRECATED]: the two ways the syntax check
    tells a deprecation, by the flag and by the text of the warnings,
    always agree. *)
Theorem deprecation_report_consistent {H : Host} (yamlConfig integration_arg : value) :
  let report :=
    fst (checkConfigForDeprecations DEPRECATION_PATTERNS yamlConfig integration_arg) in
  length (suggestions report) = length (warnings report)
  /\ deprecated report
     = existsb (fun w => Str.includes w "DEPRECATED") (warnings report).
Proof. apply report_consistent. Qed.

(** X8. The pattern for [entity_namespace] carries no integration tag, so
    that no [integration] argument hides it: whatever integration is named,
    the report holds the [entity_namespace] warning exactly when the text
    [entity_namespace:] occurs in the configuration, and then the
    [deprecated] flag is set. *)
Theorem entity_namespace_always_checked {H : Host} (yaml : string)
    (integration_arg : value) :
  let report :=
    fst (checkConfigForDeprecations DEPRECATION_PATTERNS (VStr yaml) integration_arg) in
  ("[DEPRECATED since 2023.8] 'entity_namespace' is deprecated. Use 'unique_id' for entity identification instead."
     ∈ warnings report
   <-> Str.includes yaml "entity_namespace:" = true)
  /\ (Str.includes yaml "entity_namespace:" = true -> deprecated report = true).
Proof.
  intros report. subst report. unfold checkConfigForDeprecations.
  assert (Htest : fst (RegExp_test (re_m false [Lit "entity_namespace:"]) yaml) = true
                  <-> Str.includes yaml "entity_namespace:" = true).
  { unfold RegExp_test. simpl. rewrite bool_decide_eq_true. apply search_literal. }
  split.
  - rewrite check_loop_warnings. simpl. split.
    + intros [Hin|(p & Hin & Hskip & Hhit & Hw)]; [by apply elem_of_nil in Hin|].
      unfold DEPRECATION_PATTERNS in Hin.
      repeat (apply elem_of_cons in Hin as [->|Hin]; [try discriminate Hw|]);
        [|by apply elem_of_nil in Hin].
      by apply Htest.
    + intros Hinc. right. eexists. split; [do 2 right; left|].
      split; [unfold skipped; simpl; by rewrite andb_false_r|].
      split; [by apply Htest|done].
  - intros Hinc. apply check_loop_deprecated. right.
    eexists. split; [do 2 right; left|].
    split; [unfold skipped; simpl; by rewrite andb_false_r|].
    split; [by apply Htest|done].
Qed.

(** ** The requests the handlers send *)

Section RequestFacts.
Context {H : Host} {R : Runtime} {E : Env}.
Implicit Types (P : Request -> Prop).

Lemma sound_callHA_request P endpoint method body :
  P (ha_request endpoint method body) -> sound P (callHA endpoint method body).
Proof.
  intros HP. unfold callHA.
  apply sound_bind; [apply sound_sendLog|]. intros _.
  apply sound_bind; [apply sound_fetch, HP|]. intros resp.
  destruct (negb (ok resp)).
  - apply sound_bind; [apply sound_sendLog|]. intros _. apply sound_throw.
  - destruct (match content_type resp with Some _ => _ | None => _ end);
      [|apply sound_ret].
    apply sound_bind; [apply sound_Response_json|]. intros p.
    apply sound_bind; [apply sound_sendLog|]. intros _. apply sound_ret.
Qed.

Lemma sound_fetchUrl_request P u : P (docs_request u) -> sound P (fetchUrl u).
Proof.
  intros HP. unfold fetchUrl.
  apply sound_bind; [apply sound_sendLog|]. intros _.
  apply sound_try_catch.
  - apply sound_bind; [apply sound_fetch, HP|]. intros resp.
    destruct (negb (ok resp)); [apply sound_throw|apply sound_ret].
  - intros e. apply sound_bind; [apply sound_sendLog|]. intros _.
    apply sound_rethrow.
Qed.

End RequestFacts.

(** One step through a computation, the requests of [callHA] and
    [fetchUrl] being checked as they are built. *)
Ltac request_step :=
  lazymatch goal with
  | |- sound _ (bind _ _) => apply sound_bind; [|intros ?]
  | |- sound _ (try_catch _ _) => apply sound_try_catch; [|intros ?]
  | |- sound _ (attempt _) => apply sound_attempt
  | |- sound _ (callHA _ _ _) => apply sound_callHA_request; solve [auto]
  | |- sound _ (callHA_get _) => apply sound_callHA_request; solve [auto]
  | |- sound _ (match ?x with _ => _ end) => destruct x
  | |- sound _ _ =>
      solve [ apply sound_ret | apply sound_throw | apply sound_rethrow
            | apply sound_respond | apply sound_sendLog | apply sound_Date_read
            | apply sound_Date_reads | apply sound_member
            | apply sound_destructure | apply sound_expect_states
            | apply sound_expect_string | apply sound_generateStateSummary
            | apply sound_get_module | apply sound_includes_tab
            | apply sound_to_string | apply sound_to_number
            | apply sound_apply_domain_filter | apply sound_append_param
            | apply sound_check_deprecations
            | assumption | auto ]
  end.

Ltac request_auto := repeat request_step.

(** The handlers that only read: every call is a [GET] without body. *)
Section ReadingFacts.
Context {H : Host} {R : Runtime} {E : Env} {T : Texts}.
Variable P : Request -> Prop.
Hypothesis P_get : forall endpoint, P (ha_request endpoint "GET" VNull).

Lemma reading_getEntityRelationships entityId :
  sound P (getEntityRelationships entityId).
Proof. unfold getEntityRelationships. request_auto. Qed.

Lemma reading_filter_services domain items : sound P (filter_services domain items).
Proof. induction items; simpl; request_auto. Qed.

Lemma reading_or_yesterday x : sound P (or_yesterday x).
Proof. unfold or_yesterday. request_auto. Qed.

Lemma reading_report_anomalies anomalies : sound P (report_anomalies anomalies).
Proof. unfold report_anomalies. request_auto. Qed.

Lemma reading_diagnose_anomaly d p : sound P (diagnose_anomaly d p).
Proof. unfold diagnose_anomaly. request_auto. Qed.

#[local] Hint Resolve reading_getEntityRelationships reading_filter_services
  reading_or_yesterday reading_report_anomalies reading_diagnose_anomaly : core.

Lemma reading_diagnose_finish d p : sound P (diagnose_finish d p).
Proof. unfold diagnose_finish. request_auto. Qed.

#[local] Hint Resolve reading_diagnose_finish : core.

Lemma reading_diagnose_steps entity_id d p : sound P (diagnose_steps entity_id d p).
Proof. unfold diagnose_steps. cbv zeta. request_auto. Qed.

Lemma reading_fetch_haVersion : sound P fetch_haVersion.
Proof. unfold fetch_haVersion. request_auto. Qed.

Lemma reading_targetVersion version haVersion :
  sound P (targetVersion version haVersion).
Proof. unfold targetVersion. request_auto. Qed.

Lemma reading_contents u mime t aud prio : sound P (contents u mime t aud prio).
Proof. apply sound_ret. Qed.

#[local] Hint Resolve reading_diagnose_steps reading_fetch_haVersion
  reading_targetVersion reading_contents : core.

Lemma reading_list_domain u prefix project prio :
  sound P (list_domain u prefix project prio).
Proof. unfold list_domain. request_auto. Qed.

Lemma reading_tool_get_states args : sound P (tool_get_states args).
Proof. unfold tool_get_states. request_auto. Qed.

Lemma reading_tool_search_entities args : sound P (tool_search_entities args).
Proof. unfold tool_search_entities. request_auto. Qed.

Lemma reading_tool_get_entity_details args :
  sound P (tool_get_entity_details args).
Proof. unfold tool_get_entity_details. request_auto. Qed.

Lemma reading_tool_get_services args : sound P (tool_get_services args).
Proof. unfold tool_get_services. request_auto. Qed.

Lemma reading_tool_get_history args : sound P (tool_get_history args).
Proof. unfold tool_get_history. request_auto. Qed.

Lemma reading_tool_get_logbook args : sound P (tool_get_logbook args).
Proof. unfold tool_get_logbook. request_auto. Qed.

Lemma reading_tool_get_config args : sound P (tool_get_config args).
Proof. unfold tool_get_config. request_auto. Qed.

Lemma reading_tool_get_error_log args : sound P (tool_get_error_log args).
Proof. unfold tool_get_error_log. request_auto. Qed.

Lemma reading_tool_get_calendars args : sound P (tool_get_calendars args).
Proof. unfold tool_get_calendars. request_auto. Qed.

Lemma reading_tool_get_calendar_events args :
  sound P (tool_get_calendar_events args).
Proof. unfold tool_get_calendar_events. request_auto. Qed.

Lemma reading_tool_detect_anomalies args : sound P (tool_detect_anomalies args).
Proof. unfold tool_detect_anomalies. request_auto. Qed.

Lemma reading_tool_get_suggestions args : sound P (tool_get_suggestions args).
Proof. unfold tool_get_suggestions. request_auto. Qed.

Lemma reading_tool_diagnose_entity args : sound P (tool_diagnose_entity args).
Proof. unfold tool_diagnose_entity. request_auto. Qed.

(** The two documentation tools, which also read pages of the site. *)
Hypothesis P_page : forall path, P (docs_request (HA_DOCS_BASE ++ path)).

Lemma reading_docs_page path : sound P (fetchUrl (HA_DOCS_BASE ++ path)).
Proof. apply sound_fetchUrl_request, P_page. Qed.

Lemma reading_release_notes target : sound P (release_notes target).
Proof.
  unfold release_notes. apply sound_try_catch; [|intros e; request_auto].
  apply sound_bind; [request_auto|]. intros t.
  apply sound_bind;
    [apply (reading_docs_page ("/blog/" ++ replace_first_dot t ++ "/"))|].
  intros html. request_auto.
Qed.

Lemma reading_tool_get_integration_docs args :
  sound P (tool_get_integration_docs args).
Proof.
  unfold tool_get_integration_docs.
  apply sound_bind; [request_auto|]. intros integration.
  apply sound_bind; [request_auto|]. intros section_arg.
  apply sound_bind; [request_auto|]. intros _.
  apply sound_bind; [request_auto|]. intros name.
  apply sound_bind; [apply reading_fetch_haVersion|]. intros haVersion.
  apply sound_try_catch; [|intros e; request_auto].
  apply sound_bind;
    [apply (reading_docs_page ("/integrations/" ++ name ++ "/"))|].
  intros html. request_auto.
Qed.

Lemma reading_tool_get_breaking_changes args :
  sound P (tool_get_breaking_changes args).
Proof.
  unfold tool_get_breaking_changes.
  apply sound_bind; [request_auto|]. intros integration.
  apply sound_bind; [request_auto|]. intros version.
  apply sound_bind; [request_auto|]. intros _.
  apply sound_bind; [apply reading_fetch_haVersion|]. intros haVersion.
  apply sound_bind; [apply reading_targetVersion|]. intros target.
  apply sound_bind; [apply reading_release_notes|]. intros notes. request_auto.
Qed.

End ReadingFacts.

(** The handlers that post. *)
Section PostingFacts.
Context {H : Host} {R : Runtime} {E : Env} {T : Texts}.
Variable P : Request -> Prop.
Hypothesis P_post : forall endpoint body, P (ha_request endpoint "POST" body).

Lemma posting_tool_call_service args : sound P (tool_call_service args).
Proof. unfold tool_call_service. request_auto. Qed.

Lemma posting_tool_get_areas args : sound P (tool_get_areas args).
Proof. unfold tool_get_areas. request_auto. Qed.

Lemma posting_tool_get_devices args : sound P (tool_get_devices args).
Proof. unfold tool_get_devices. request_auto. Qed.

Lemma posting_tool_validate_config args : sound P (tool_validate_config args).
Proof. unfold tool_validate_config. request_auto. Qed.

Lemma posting_tool_fire_event args : sound P (tool_fire_event args).
Proof. unfold tool_fire_event. request_auto. Qed.

Lemma posting_tool_render_template args : sound P (tool_render_template args).
Proof. unfold tool_render_template. request_auto. Qed.

(** The resources read with [GET], two of them posting a template. *)
Hypothesis P_get : forall endpoint, P (ha_request endpoint "GET" VNull).

Lemma posting_read_resource u : sound P (read_resource u).
Proof.
  pose proof (reading_list_domain P P_get) as Hlist.
  pose proof (reading_getEntityRelationships P P_get) as Hrel.
  unfold read_resource. request_auto.
Qed.

Lemma posting_ReadResource u : sound P (ReadResource u).
Proof.
  unfold ReadResource. apply sound_bind; [apply sound_sendLog|]. intros _.
  apply sound_try_catch; [apply posting_read_resource|]. intros e. request_auto.
Qed.

End PostingFacts.

(** Membership in a list of literals. *)
Ltac not_listed :=
  let Hin := fresh "Hin" in
  intros Hin;
  repeat (apply elem_of_cons in Hin as [Hin|Hin]; [discriminate Hin|]);
  by apply elem_of_nil in Hin.

Section ShapeFacts.
Context {H : Host} {R : Runtime} {E : Env} {T : Texts}.

(** The requests of a tool, by the kind of the tool. *)
Lemma request_dispatch (P : Request -> Prop) name args :
  (name ∉ POST_TOOLS -> forall endpoint, P (ha_request endpoint "GET" VNull)) ->
  (name ∈ DOCS_TOOLS -> forall path, P (docs_request (HA_DOCS_BASE ++ path))) ->
  (name ∈ POST_TOOLS -> forall endpoint body, P (ha_request endpoint "POST" body)) ->
  sound P (dispatch name args).
Proof.
  intros Hget Hpage Hpost. unfold dispatch, tool_cases. simpl find_case.
  repeat
    (match goal with
     | |- context [String.eqb name ?s] =>
         destruct (String.eqb_spec name s) as [->|_]
     end;
     [lazymatch goal with
     | |- sound _ (tool_get_states _) =>
         apply reading_tool_get_states; apply Hget; not_listed
     | |- sound _ (tool_search_entities _) =>
         apply reading_tool_search_entities; apply Hget; not_listed
     | |- sound _ (tool_get_entity_details _) =>
         apply reading_tool_get_entity_details; apply Hget; not_listed
     | |- sound _ (tool_call_service _) =>
         apply posting_tool_call_service; apply Hpost; repeat constructor
     | |- sound _ (tool_get_services _) =>
         apply reading_tool_get_services; apply Hget; not_listed
     | |- sound _ (tool_get_history _) =>
         apply reading_tool_get_history; apply Hget; not_listed
     | |- sound _ (tool_get_logbook _) =>
         apply reading_tool_get_logbook; apply Hget; not_listed
     | |- sound _ (tool_get_config _) =>
         apply reading_tool_get_config; apply Hget; not_listed
     | |- sound _ (tool_get_areas _) =>
         apply posting_tool_get_areas; apply Hpost; repeat constructor
     | |- sound _ (tool_get_devices _) =>
         apply posting_tool_get_devices; apply Hpost; repeat constructor
     | |- sound _ (tool_validate_config _) =>
         apply posting_tool_validate_config; apply Hpost; repeat constructor
     | |- sound _ (tool_get_error_log _) =>
         apply reading_tool_get_error_log; apply Hget; not_listed
     | |- sound _ (tool_fire_event _) =>
         apply posting_tool_fire_event; apply Hpost; repeat constructor
     | |- sound _ (tool_render_template _) =>
         apply posting_tool_render_template; apply Hpost; repeat constructor
     | |- sound _ (tool_get_calendars _) =>
         apply reading_tool_get_calendars; apply Hget; not_listed
     | |- sound _ (tool_get_calendar_events _) =>
         apply reading_tool_get_calendar_events; apply Hget; not_listed
     | |- sound _ (tool_detect_anomalies _) =>
         apply reading_tool_detect_anomalies; apply Hget; not_listed
     | |- sound _ (tool_get_suggestions _) =>
         apply reading_tool_get_suggestions; apply Hget; not_listed
     | |- sound _ (tool_diagnose_entity _) =>
         apply reading_tool_diagnose_entity; apply Hget; not_listed
     | |- sound _ (tool_get_integration_docs _) =>
         apply reading_tool_get_integration_docs;
         [apply Hget; not_listed|apply Hpage; repeat constructor]
     | |- sound _ (tool_get_breaking_changes _) =>
         apply reading_tool_get_breaking_changes;
         [apply Hget; not_listed|apply Hpage; repeat constructor]
     | |- sound _ (tool_check_config_syntax _) =>
         apply sound_tool_check_config_syntax
      end|]).
  apply sound_throw.
Qed.

Lemma to_supervisor_ha_request endpoint method body :
  to_supervisor (ha_request endpoint method body) = true.
Proof. apply startsWith_app. Qed.

End ShapeFacts.

(** X9. The Supervisor token never leaves for another host. Whatever the
    request served, every [fetch] of a handler either goes to the
    Supervisor API, with the token in its [Authorization] header, or, when
    it goes elsewhere, carries no [Authorization] header at all. *)
Theorem token_only_to_supervisor {H : Host} {R : Runtime} {E : Env} {T : Texts}
    (req : Request_kind) (w : World) :
  exists new,
    trace (handle req w) = (new ++ trace w)%list
    /\ forall r, Fetched r ∈ new ->
         if to_supervisor r
         then headers r = [("Authorization", "Bearer " ++ SUPERVISOR_TOKEN);
                           ("Content-Type", "application/json")]
         else "Authorization" ∉ header_names r.
Proof.
  set (P := fun r : Request =>
              if to_supervisor r
              then headers r = [("Authorization", "Bearer " ++ SUPERVISOR_TOKEN);
                                ("Content-Type", "application/json")]
              else "Authorization" ∉ header_names r).
  assert (Hha : forall endpoint method body, P (ha_request endpoint method body)).
  { intros. unfold P. by rewrite to_supervisor_ha_request. }
  assert (Hpage : forall path, P (docs_request (HA_DOCS_BASE ++ path))).
  { intros path. unfold P. simpl. not_listed. }
  assert (Hsound : forall A (m : M A), sound P m ->
             exists new, trace (snd (m w)) = (new ++ trace w)%list
                         /\ forall r, Fetched r ∈ new -> P r).
  { intros A m Hm. by destruct (Hm w) as [? _]. }
  destruct req as [level| |name args| | |u| |name args]; unfold handle.
  - exists (if is_log_level level && shouldLog level "info"
            then [Logged {| log_level := "info"; logger := "mcp-server";
                            data := VObj [("action", VStr "log_level_changed");
                                          ("level", VStr level)];
                            timestamp := clock (ticks w) |}]
            else []).
    unfold SetLevel.
    destruct (is_log_level level); simpl; [|split; [done|]].
    + cbv [bind get_module put_module sendLog Date_read emit ret]. simpl.
      destruct (shouldLog level "info"); simpl; (split; [done|]); intros r Hr.
      * apply list_elem_of_singleton in Hr. discriminate.
      * by apply elem_of_nil in Hr.
    + intros r Hr. by apply elem_of_nil in Hr.
  - apply (Hsound _ ListTools), sound_ListTools.
  - apply (Hsound _ (CallTool name args)), sound_CallTool, request_dispatch; auto.
  - apply (Hsound _ ListResources), sound_ListResources.
  - apply (Hsound _ ListResourceTemplates), sound_ListResourceTemplates.
  - apply (Hsound _ (ReadResource u)), posting_ReadResource; auto.
  - apply (Hsound _ ListPrompts), sound_ListPrompts.
  - apply (Hsound _ (GetPrompt name args)), sound_GetPrompt.
Qed.

(** X10. The six tools of [POST_TOOLS] (service calls, events, templates,
    the configuration check) only post to the Supervisor API; every other
    tool only reads: each request it sends, to the API or to the
    documentation site, is a [GET] without body. *)
Theorem CallTool_methods {H : Host} {R : Runtime} {E : Env} {T : Texts}
    (name : string) (args : value) (w : World) :
  exists new,
    adds (CallTool name args) w new
    /\ forall r, Fetched r ∈ new ->
         (name ∈ POST_TOOLS -> method r = Some "POST" /\ to_supervisor r = true)
         /\ (name ∉ POST_TOOLS ->
             req_body r = None /\ (method r = Some "GET" \/ method r = None)).
Proof.
  destruct (decide (name ∈ POST_TOOLS)) as [Hpost|Hread].
  - destruct (sound_CallTool
                (fun r => method r = Some "POST" /\ to_supervisor r = true)
                name args) with (w := w) as [(new & Hnew & Hall) _].
    { apply request_dispatch; [done| |].
      - intros Hdocs. exfalso. revert Hpost. unfold DOCS_TOOLS in Hdocs.
        repeat (apply elem_of_cons in Hdocs as [->|Hdocs]; [not_listed|]).
        by apply elem_of_nil in Hdocs.
      - intros _ endpoint body. split; [done|apply to_supervisor_ha_request]. }
    exists new. split; [done|]. intros r Hr. split; [intros _; by apply Hall|done].
  - destruct (sound_CallTool
                (fun r => req_body r = None
                          /\ (method r = Some "GET" \/ method r = None))
                name args) with (w := w) as [(new & Hnew & Hall) _].
    { apply request_dispatch; [| |done].
      - intros _ endpoint. split; [done|by left].
      - intros _ path. split; [done|by right]. }
    exists new. split; [done|]. intros r Hr. split; [done|intros _; by apply Hall].
Qed.

(** ** The log level and the confirmation of SetLevel *)

(** X11. SetLevel confirms a change in the log only when the new level lets
    [info] messages through: the [log_level_changed] entry is written under
    the level just set, so that it appears for [debug] and [info] and for
    none of the six levels above. *)
Theorem SetLevel_confirmation {E : Env} (level : string) (w : World) :
  level ∈ LOG_LEVELS ->
  adds (SetLevel level) w
    (if bool_decide (level ∈ ["debug"; "info"])
     then [Logged {| log_level := "info"; logger := "mcp-server";
                     data := VObj [("action", VStr "log_level_changed");
                                   ("level", VStr level)];
                     timestamp := clock (ticks w) |}]
     else []).
Proof.
  intros Hin. unfold LOG_LEVELS in Hin.
  repeat (apply elem_of_cons in Hin as [->|Hin]); try reflexivity.
  by apply elem_of_nil in Hin.
Qed.

Lemma SetLevel_confirmation_witness :
  adds (SetLevel (E:=Sample.env) "error") Sample.boot [].
Proof.
  apply (SetLevel_confirmation (E:=Sample.env) "error" Sample.boot).
  do 4 right. left.
Defined.

(** ** One request for each call *)

Section SendFacts.
Context {A B : Type}.
Implicit Types (m : M A) (k : A -> M B) (rs : list Request).

Lemma requests_of_app (l1 l2 : list Event) :
  requests_of (l1 ++ l2) = (requests_of l1 ++ requests_of l2)%list.
Proof. apply omap_app. Qed.

Lemma sends_nothing m : sound (fun _ => False) m -> sends [] m.
Proof.
  intros Hm w. destruct (Hm w) as [(new & Hnew & Hnone) _].
  exists new. split; [done|]. clear Hnew.
  induction new as [|[r|e] new IH]; simpl; [done| |].
  - destruct (Hnone r). by left.
  - apply IH. intros r Hr. apply (Hnone r). by right.
Qed.

Lemma sends_bind_l rs m k :
  sends rs m -> (forall a, sends [] (k a)) -> sends rs (bind m k).
Proof.
  intros Hm Hk w. destruct (Hm w) as (new & Hnew & Hrs).
  unfold adds, bind in *. destruct (m w) as [[e|a] w'] eqn:Hrun; simpl in *.
  - by exists new.
  - destruct (Hk a w') as (new' & Hnew' & Hnone). unfold adds in *.
    exists (new' ++ new)%list. rewrite Hnew', Hnew, app_assoc. split; [done|].
    by rewrite requests_of_app, Hnone, Hrs.
Qed.

Lemma sends_bind_r rs m k :
  sends [] m -> never_throws m -> (forall a, sends rs (k a)) -> sends rs (bind m k).
Proof.
  intros Hm Hn Hk w. destruct (Hm w) as (new & Hnew & Hnone).
  destruct (Hn w) as [a Ha].
  unfold adds, bind in *. destruct (m w) as [[e|a'] w'] eqn:Hrun; simpl in *;
    [done|].
  destruct (Hk a' w') as (new' & Hnew' & Hrs). unfold adds in *.
  exists (new' ++ new)%list. rewrite Hnew', Hnew, app_assoc. split; [done|].
  by rewrite requests_of_app, Hnone, Hrs, app_nil_r.
Qed.

End SendFacts.

Lemma sends_try_catch {A} rs (m : M A) (h : Error -> M A) :
  sends rs m -> (forall e, sends [] (h e)) -> sends rs (try_catch m h).
Proof.
  intros Hm Hh w. destruct (Hm w) as (new & Hnew & Hrs).
  unfold adds, try_catch in *. destruct (m w) as [[e|a] w'] eqn:Hrun; simpl in *.
  - destruct (Hh e w') as (new' & Hnew' & Hnone). unfold adds in *.
    exists (new' ++ new)%list. rewrite Hnew', Hnew, app_assoc. split; [done|].
    by rewrite requests_of_app, Hnone, Hrs.
  - by exists new.
Qed.

Lemma sends_fetch {E : Env} r : sends [r] (fetch r).
Proof.
  intros w. exists [Fetched r]. unfold fetch, adds.
  by destruct (network _ _).
Qed.

(** X12. [callHA] and [fetchUrl] send exactly one request per call, whatever
    the answer: the one [callHA] builds from its arguments (the URL under
    [SUPERVISOR_API], the method, the bearer token, the body when it is
    truthy), the bare [GET] of the page for [fetchUrl]. Neither retries nor
    sends anything else. *)
Theorem one_request_per_call {H : Host} {R : Runtime} {E : Env}
    (endpoint method : string) (body : value) (u : string) :
  sends [ha_request endpoint method body] (callHA endpoint method body)
  /\ sends [docs_request u] (fetchUrl u).
Proof.
  split.
  - unfold callHA.
    apply sends_bind_r;
      [apply sends_nothing, sound_sendLog|apply never_throws_sendLog|].
    intros _. apply sends_bind_l; [apply sends_fetch|].
    intros resp. apply sends_nothing. sound_auto.
    apply sound_Response_json.
  - unfold fetchUrl.
    apply sends_bind_r;
      [apply sends_nothing, sound_sendLog|apply never_throws_sendLog|].
    intros _. apply sends_try_catch.
    + apply sends_bind_l; [apply sends_fetch|].
      intros resp. apply sends_nothing. sound_auto.
    + intros e. apply sends_nothing. sound_auto.
Qed.

(** ** Results and error results of CallTool *)

Section FlagFacts.
Context {H : Host} {R : Runtime} {E : Env} {T : Texts}.

Lemma unflagged_bind {A} (m : M A) (k : A -> M ToolResult) :
  (forall a, unflagged (k a)) -> unflagged (bind m k).
Proof.
  intros Hk w res. unfold bind. destruct (m w) as [[e|a] w']; [done|]. apply Hk.
Qed.

Lemma unflagged_respond t aud prio : unflagged (respond t aud prio).
Proof. by intros w res [= <-]. Qed.

Lemma unflagged_throw message : unflagged (throw message).
Proof. by intros w res. Qed.

Lemma unflagged_try_catch m h :
  unflagged m -> (forall e, unflagged (h e)) -> unflagged (try_catch m h).
Proof.
  intros Hm Hh w res. unfold try_catch.
  destruct (m w) as [[e|a] w'] eqn:Hrun; [apply Hh|].
  intros [= <-]. apply (Hm w). by rewrite Hrun.
Qed.

End FlagFacts.

(** One step towards the result of a handler. *)
Ltac flag_step :=
  lazymatch goal with
  | |- unflagged (bind _ _) => apply unflagged_bind; intros ?
  | |- unflagged (try_catch _ _) => apply unflagged_try_catch; [|intros ?]
  | |- unflagged (respond _ _ _) => apply unflagged_respond
  | |- unflagged (throw _) => apply unflagged_throw
  | |- unflagged (report_anomalies _) => unfold report_anomalies
  | |- unflagged (match ?x with _ => _ end) => destruct x
  | |- unflagged (let _ := _ in _) => cbv zeta
  end.

Ltac flag_auto := repeat flag_step.

(** Unfolds the constant at the head of an application. *)
Ltac unfold_head t :=
  lazymatch t with
  | ?f _ => unfold_head f
  | _ => unfold t
  end.

Section ResultFacts.
Context {H : Host} {R : Runtime} {E : Env} {T : Texts}.

(** No case of the [switch] builds a result with [isError]. *)
Lemma unflagged_dispatch name args : unflagged (dispatch name args).
Proof.
  unfold dispatch, tool_cases. simpl find_case.
  repeat
    (match goal with
     | |- context [String.eqb name ?s] =>
         destruct (String.eqb_spec name s) as [->|_]
     end;
     [lazymatch goal with
      | |- unflagged (?tool _) => unfold_head tool; flag_auto
      end|]).
  apply unflagged_throw.
Qed.

(** What CallTool answers, from the outcome of the [switch]. *)
Lemma CallTool_result name args w :
  fst (CallTool name args w)
  = match fst (dispatch name args
                 (snd (sendLog "info" "mcp-server"
                         (VObj [("action", VStr "call_tool"); ("tool", VStr name);
                                ("args", args)]) w))) with
    | inl e => inr (error_result e)
    | inr res => inr res
    end.
Proof.
  unfold CallTool, bind, try_catch.
  destruct (never_throws_sendLog "info" "mcp-server"
              (VObj [("action", VStr "call_tool"); ("tool", VStr name);
                     ("args", args)]) w) as [[] Hlog].
  destruct (sendLog _ _ _ w) as [[e0|[]] w0]; simpl in *; [done|].
  destruct (dispatch name args w0) as [[e|res] w1]; simpl; [|done].
  destruct (never_throws_sendLog "error" "mcp-server"
              (VObj [("action", VStr "tool_error"); ("tool", VStr name);
                     ("error", VStr (error_message e))]) w1) as [[] Hlog'].
  by destruct (sendLog _ _ _ w1) as [[e1|[]] w2].
Qed.

Lemma bind_throws {A B} (m : M A) (k : A -> M B) w e :
  fst (m w) = inl e -> fst (bind m k w) = inl e.
Proof. unfold bind. by destruct (m w) as [[e'|a] w']; simpl; intros [= ->]. Qed.

Lemma callHA_http_error endpoint method body resp w :
  (forall tr, network tr (ha_request endpoint method body) = Resolved resp) ->
  ok resp = false ->
  fst (callHA endpoint method body w)
  = inl {| error_message :=
             "HA API error (" ++ Number_toString (status resp) ++ "): "
             ++ body_text resp |}.
Proof.
  intros Hnet Hok. unfold callHA, bind at 1.
  destruct (never_throws_sendLog "debug" "ha-api"
              (VObj [("action", VStr "request"); ("endpoint", VStr endpoint);
                     ("method", VStr method)]) w) as [[] Hlog].
  destruct (sendLog _ _ _ w) as [[e0|[]] w0]; simpl in *; [done|].
  unfold bind at 1, fetch. fold (ha_request endpoint method body).
  rewrite Hnet, Hok. simpl. unfold bind.
  destruct (never_throws_sendLog "error" "ha-api"
              (VObj [("action", VStr "error"); ("endpoint", VStr endpoint);
                     ("status", VNum (status resp));
                     ("error", VStr (body_text resp))])
              {| module_state := module_state w0; ticks := ticks w0;
                 trace := Fetched (ha_request endpoint method body) :: trace w0 |})
    as [[] Hlog'].
  by destruct (sendLog _ _ _ _) as [[e1|[]] w2].
Qed.

Lemma never_throws_respond t aud prio : never_throws (respond t aud prio).
Proof. apply never_throws_ret. Qed.

Lemma never_throws_fetch_haVersion : never_throws fetch_haVersion.
Proof.
  unfold fetch_haVersion. apply never_throws_try_catch. intros e.
  repeat quiet_step.
Qed.

Lemma never_throws_diagnose_finish d p : never_throws (diagnose_finish d p).
Proof. unfold diagnose_finish. repeat quiet_step. Qed.

Lemma never_throws_diagnose_steps entity_id d p :
  never_throws (diagnose_steps entity_id d p).
Proof.
  unfold diagnose_steps. cbv zeta.
  repeat first [apply never_throws_diagnose_finish | quiet_step].
Qed.

Lemma never_throws_tool_diagnose_entity args :
  defined args = true -> never_throws (tool_diagnose_entity args).
Proof.
  intros Hargs. unfold tool_diagnose_entity.
  apply never_throws_bind; [by apply never_throws_destructure|]. intros entity_id.
  apply never_throws_bind; [apply never_throws_sendLog|]. intros _.
  apply never_throws_bind; [apply never_throws_Date_read|]. intros now.
  apply never_throws_bind; [apply never_throws_attempt|]. intros r.
  apply never_throws_bind; [|intros ?; apply never_throws_respond].
  destruct r; [apply never_throws_ret|apply never_throws_diagnose_steps].
Qed.

(** The version the API reports, when every one it can report converts to
    a string. *)
Lemma returns_fetch_haVersion :
  (forall w v, fst (fetch_haVersion w) = inr v -> printable v = true) ->
  returns (fun v => printable v = true) fetch_haVersion.
Proof.
  intros Hversion w. destruct (never_throws_fetch_haVersion w) as [v Hv].
  exists v. split; [done|]. by apply (Hversion w).
Qed.

Lemma never_throws_tool_get_integration_docs args :
  defined args = true ->
  printable (prop args "integration") = true ->
  (forall w v, fst (fetch_haVersion w) = inr v -> printable v = true) ->
  never_throws (tool_get_integration_docs args).
Proof.
  intros Hargs Hintegration Hversion. unfold tool_get_integration_docs.
  apply (never_throws_returns (fun _ => True)).
  eapply returns_bind; [by apply returns_destructure|]. intros integration ->.
  eapply returns_bind; [by apply returns_destructure|]. intros section_arg ->.
  eapply returns_bind; [apply returns_never_throws, never_throws_sendLog|].
  intros _ _.
  eapply returns_bind; [by apply returns_to_string|]. intros name _.
  eapply returns_bind; [by apply returns_fetch_haVersion|].
  intros haVersion Hprintable.
  apply returns_never_throws, never_throws_try_catch. intros e.
  apply never_throws_bind; [by apply never_throws_to_string|]. intros version.
  apply never_throws_respond.
Qed.

End ResultFacts.

(** X13. A result of CallTool carries [isError] exactly when the case of the
    [switch] threw (or no case bears the name): no tool builds an error
    result of its own, and CallTool answers every call. *)
Theorem CallTool_isError {H : Host} {R : Runtime} {E : Env} {T : Texts}
    (name : string) (args : value) (w : World) :
  let entered :=
    snd (sendLog "info" "mcp-server"
           (VObj [("action", VStr "call_tool"); ("tool", VStr name);
                  ("args", args)]) w) in
  exists res,
    fst (CallTool name args w) = inr res
    /\ (isError res = true <-> exists e, fst (dispatch name args entered) = inl e).
Proof.
  intros entered. rewrite CallTool_result. fold entered.
  destruct (fst (dispatch name args entered)) as [e|res] eqn:Hd.
  - exists (error_result e). split; [done|]. split; [by eexists|done].
  - exists res. split; [done|].
    rewrite (unflagged_dispatch name args entered res Hd).
    split; [done|]. by intros [e ?].
Qed.

(** X14. [diagnose_entity] always answers: given an arguments object, every
    failure of a call it makes and of a conversion of its argument is caught
    inside the case and reported in the text, so that the result never
    carries [isError]. So does [get_integration_docs], when its
    [integration] argument converts to a string and so does every version
    the API can report. *)
Theorem tools_that_always_answer {H : Host} {R : Runtime} {E : Env} {T : Texts}
    (name : string) (args : value) (w : World) :
  defined args = true ->
  name = "diagnose_entity"
  \/ (name = "get_integration_docs"
      /\ printable (prop args "integration") = true
      /\ forall w0 v, fst (fetch_haVersion w0) = inr v -> printable v = true) ->
  exists res, fst (CallTool name args w) = inr res /\ isError res = false.
Proof.
  intros Hargs Hname. rewrite CallTool_result.
  set (entered := snd (sendLog _ _ _ w)).
  assert (Hrun : exists res, fst (dispatch name args entered) = inr res).
  { destruct Hname as [->|(-> & Hintegration & Hversion)].
    - apply (never_throws_tool_diagnose_entity args Hargs).
    - apply (never_throws_tool_get_integration_docs args Hargs Hintegration
               Hversion). }
  destruct Hrun as [res Hres]. rewrite Hres. exists res. split; [done|].
  exact (unflagged_dispatch name args entered res Hres).
Qed.

Lemma tools_that_always_answer_witness :
  (exists res,
     fst (CallTool (H:=Sample.host) (R:=Sample.runtime) (E:=Sample.env)
            (T:=Sample.texts) "diagnose_entity"
            (VObj [("entity_id", VObj [("toString", VNum 0)])]) Sample.boot)
     = inr res
     /\ isError res = false)
  /\ (exists res,
        fst (CallTool (H:=Sample.host) (R:=Sample.runtime) (E:=Sample.env)
               (T:=Sample.texts) "get_integration_docs"
               (VObj [("integration", VStr "mqtt")]) Sample.boot) = inr res
        /\ isError res = false).
Proof.
  split.
  - apply (tools_that_always_answer (H:=Sample.host) (R:=Sample.runtime)
             (E:=Sample.env) (T:=Sample.texts)); [reflexivity|by left].
  - apply (tools_that_always_answer (H:=Sample.host) (R:=Sample.runtime)
             (E:=Sample.env) (T:=Sample.texts)); [reflexivity|right].
    split; [reflexivity|]. split; [reflexivity|].
    intros w0 v. unfold fetch_haVersion, try_catch, callHA_get, callHA, bind.
    unfold sendLog, bind, get_module, fetch. simpl.
    repeat (destruct (shouldLog _ _); simpl); by intros [= <-].
Defined.

(** X15. The version lookup of the documentation tools never fails: when
    the call to [/config] throws the version is [unknown], and otherwise it
    is the [version] of the answer, or [unknown] when that is missing or
    falsy. *)
Theorem fetch_haVersion_fallback {H : Host} {R : Runtime} {E : Env} (w : World) :
  match fst (callHA_get "/config" w) with
  | inl _ => fst (fetch_haVersion w) = inr (VStr "unknown")
  | inr config =>
      fst (fetch_haVersion w)
      = inr (value_or (opt_member (payload_to_value config) "version")
                      (VStr "unknown"))
  end.
Proof.
  unfold fetch_haVersion, try_catch, bind. cbv beta.
  destruct (callHA_get "/config" w) as [[e|config] w'] eqn:Hcall; simpl.
  - destruct (never_throws_sendLog "warning" "docs"
                (VObj [("action", VStr "version_fetch_failed");
                       ("error", VStr (error_message e))]) w') as [[] Hlog].
    by destruct (sendLog _ _ _ w') as [[e1|[]] w2].
  - destruct (payload_to_value config) eqn:Hv; simpl; try done;
      match goal with
      | |- context [sendLog ?l ?g ?d ?w] =>
          destruct (never_throws_sendLog l g d w) as [[] Hlog];
          by destruct (sendLog l g d w) as [[e1|[]] w2]
      end.
Qed.

(** X16. A refusal of the Supervisor API reaches the client as an error
    result that quotes it: when the API answers the one request of these
    tools with a status that is not ok, CallTool answers
    [Error: HA API error (<status>): <body>] with [isError] set. *)
Theorem http_error_is_reported {H : Host} {R : Runtime} {E : Env} {T : Texts}
    (name endpoint : string) (args : value) (resp : Response) (w : World) :
  (name, endpoint) ∈ [("get_config", "/config"); ("get_services", "/services");
                      ("get_calendars", "/calendars");
                      ("get_error_log", "/error_log");
                      ("search_entities", "/states");
                      ("detect_anomalies", "/states");
                      ("get_suggestions", "/states")] ->
  (forall tr, network tr (ha_request endpoint "GET" VNull) = Resolved resp) ->
  ok resp = false ->
  fst (CallTool name args w)
  = inr {| content :=
             [{| content_type_tag := "text";
                 text := VStr ("Error: HA API error ("
                               ++ Number_toString (status resp) ++ "): "
                               ++ body_text resp);
                 annotations := Some {| audience := ["user"]; priority := 1 |} |}];
           isError := true |}.
Proof.
  intros Hname Hnet Hok. rewrite CallTool_result.
  set (entered := snd (sendLog _ _ _ w)).
  assert (Hrun : fst (dispatch name args entered)
                 = inl {| error_message :=
                            "HA API error (" ++ Number_toString (status resp)
                            ++ "): " ++ body_text resp |}).
  { repeat (apply elem_of_cons in Hname as [[= -> ->]|Hname]);
      [..|by apply elem_of_nil in Hname];
      apply bind_throws; by apply callHA_http_error. }
  by rewrite Hrun.
Qed.

Lemma http_error_is_reported_witness :
  fst (CallTool (H:=Sample.host) (R:=Sample.runtime) (E:=Sample.env)
         (T:=Sample.texts) "get_config" (VObj []) Sample.boot)
  = inr {| content :=
             [{| content_type_tag := "text";
                 text := VStr "Error: HA API error (404): 404: Not Found";
                 annotations := Some {| audience := ["user"]; priority := 1 |} |}];
           isError := true |}.
Proof.
  apply (http_error_is_reported (H:=Sample.host) (R:=Sample.runtime)
           (E:=Sample.env) (T:=Sample.texts) "get_config" "/config" (VObj [])
           {| ok := false; status := 404; statusText := "Not Found";
              content_type := Some "text/plain";
              body_text := "404: Not Found";
              body_json := inl "Unexpected token" |} Sample.boot);
    [left|reflexivity|reflexivity].
Defined.

(** ** Resources and prompts *)

Lemma strip_prefix_Some p s rest :
  strip_prefix p s = Some rest <-> s = p ++ rest.
Proof.
  revert s. induction p as [|a p IH]; intros s; simpl.
  - split; [by intros [= ->]|by intros ->].
  - destruct s as [|b s]; [done|].
    destruct (Ascii.eqb_spec a b) as [->|Hne].
    + rewrite IH. split; [by intros ->|by intros [= ->]].
    + split; [done|]. intros [= ? ?]. by subst.
Qed.

Lemma strip_prefix_app p rest : strip_prefix p (p ++ rest) = Some rest.
Proof. by apply strip_prefix_Some. Qed.

(** A string that does not start with [p] is none of the strings that do. *)
Lemma not_startsWith_eqb u p rest :
  Str.startsWith u p = false -> String.eqb u (p ++ rest) = false.
Proof.
  intros Hu. destruct (String.eqb_spec u (p ++ rest)) as [->|]; [|done].
  by rewrite startsWith_app in Hu.
Qed.

Lemma startsWith_differs p d lit :
  Str.startsWith lit p = false -> String.eqb (p ++ d) lit = false.
Proof.
  intros Hlit. destruct (String.eqb_spec (p ++ d) lit) as [<-|]; [|done].
  by rewrite startsWith_app in Hlit.
Qed.

Lemma not_startsWith_strip u p q :
  Str.startsWith u p = false -> strip_prefix (p ++ q) u = None.
Proof.
  intros Hu. destruct (strip_prefix (p ++ q) u) as [rest|] eqn:Hs; [|done].
  apply strip_prefix_Some in Hs as ->.
  by rewrite append_assoc, startsWith_app in Hu.
Qed.

Section WrapFacts.
Context {H : Host} {R : Runtime} {E : Env} {T : Texts}.

(** What ReadResource answers, from the outcome of the body of its [try]. *)
Lemma ReadResource_result u w :
  fst (ReadResource u w)
  = match fst (read_resource u
                 (snd (sendLog "debug" "mcp-server"
                         (VObj [("action", VStr "read_resource");
                                ("uri", VStr u)]) w))) with
    | inl e =>
        inl {| error_message :=
                 "Failed to read resource " ++ u ++ ": " ++ error_message e |}
    | inr contents => inr contents
    end.
Proof.
  unfold ReadResource, bind, try_catch.
  destruct (never_throws_sendLog "debug" "mcp-server"
              (VObj [("action", VStr "read_resource"); ("uri", VStr u)]) w)
    as [[] Hlog].
  destruct (sendLog _ _ _ w) as [[e0|[]] w0]; simpl in *; [done|].
  destruct (read_resource u w0) as [[e|rc] w1]; simpl; [|done].
  destruct (never_throws_sendLog "error" "mcp-server"
              (VObj [("action", VStr "read_resource_error"); ("uri", VStr u);
                     ("error", VStr (error_message e))]) w1) as [[] Hlog'].
  by destruct (sendLog _ _ _ w1) as [[e1|[]] w2].
Qed.

(** What GetPrompt answers, from the outcome of the body of its [try]. *)
Lemma GetPrompt_result name args w :
  fst (GetPrompt name args w)
  = match fst (get_prompt name args
                 (snd (sendLog "info" "mcp-server"
                         (VObj [("action", VStr "get_prompt");
                                ("prompt", VStr name)]) w))) with
    | inl e =>
        inl {| error_message :=
                 "Failed to get prompt " ++ name ++ ": " ++ error_message e |}
    | inr prompt => inr prompt
    end.
Proof.
  unfold GetPrompt, bind, try_catch.
  destruct (never_throws_sendLog "info" "mcp-server"
              (VObj [("action", VStr "get_prompt"); ("prompt", VStr name)]) w)
    as [[] Hlog].
  destruct (sendLog _ _ _ w) as [[e0|[]] w0]; simpl in *; [done|].
  destruct (get_prompt name args w0) as [[e|p] w1]; simpl; [|done].
  destruct (never_throws_sendLog "error" "mcp-server"
              (VObj [("action", VStr "get_prompt_error"); ("prompt", VStr name);
                     ("error", VStr (error_message e))]) w1) as [[] Hlog'].
  by destruct (sendLog _ _ _ w1) as [[e1|[]] w2].
Qed.

Lemma read_resource_unknown u w :
  Str.startsWith u "ha://" = false ->
  read_resource u w = throw ("Unknown resource: " ++ u) w.
Proof.
  intros Hu. unfold read_resource.
  replace (String.eqb u "ha://states/summary") with false
    by (symmetry; apply (not_startsWith_eqb u "ha://" "states/summary" Hu)).
  replace (String.eqb u "ha://automations") with false
    by (symmetry; apply (not_startsWith_eqb u "ha://" "automations" Hu)).
  replace (String.eqb u "ha://scripts") with false
    by (symmetry; apply (not_startsWith_eqb u "ha://" "scripts" Hu)).
  replace (String.eqb u "ha://scenes") with false
    by (symmetry; apply (not_startsWith_eqb u "ha://" "scenes" Hu)).
  replace (String.eqb u "ha://areas") with false
    by (symmetry; apply (not_startsWith_eqb u "ha://" "areas" Hu)).
  replace (String.eqb u "ha://config") with false
    by (symmetry; apply (not_startsWith_eqb u "ha://" "config" Hu)).
  replace (String.eqb u "ha://integrations") with false
    by (symmetry; apply (not_startsWith_eqb u "ha://" "integrations" Hu)).
  replace (String.eqb u "ha://anomalies") with false
    by (symmetry; apply (not_startsWith_eqb u "ha://" "anomalies" Hu)).
  replace (String.eqb u "ha://suggestions") with false
    by (symmetry; apply (not_startsWith_eqb u "ha://" "suggestions" Hu)).
  unfold capture_word, capture_rest.
  replace (strip_prefix "ha://states/" u) with (@None string)
    by (symmetry; apply (not_startsWith_strip u "ha://" "states/" Hu)).
  replace (strip_prefix "ha://entity/" u) with (@None string)
    by (symmetry; apply (not_startsWith_strip u "ha://" "entity/" Hu)).
  replace (strip_prefix "ha://area/" u) with (@None string)
    by (symmetry; apply (not_startsWith_strip u "ha://" "area/" Hu)).
  replace (strip_prefix "ha://history/" u) with (@None string)
    by (symmetry; apply (not_startsWith_strip u "ha://" "history/" Hu)).
  reflexivity.
Qed.

Lemma read_resource_states_domain domain w :
  all_word_chars domain = true -> domain <> "" -> domain <> "summary" ->
  read_resource ("ha://states/" ++ domain) w
  = list_domain ("ha://states/" ++ domain) (domain ++ ".") simplified 0.7 w.
Proof.
  intros Hword Hne Hsum. unfold read_resource.
  replace (String.eqb ("ha://states/" ++ domain) "ha://states/summary") with false.
  2: { symmetry. apply String.eqb_neq. intros Heq. apply Hsum.
       by apply (append_cancel_l "ha://states/"). }
  replace (String.eqb ("ha://states/" ++ domain) "ha://automations") with false
    by (symmetry; by apply startsWith_differs).
  replace (String.eqb ("ha://states/" ++ domain) "ha://scripts") with false
    by (symmetry; by apply startsWith_differs).
  replace (String.eqb ("ha://states/" ++ domain) "ha://scenes") with false
    by (symmetry; by apply startsWith_differs).
  replace (String.eqb ("ha://states/" ++ domain) "ha://areas") with false
    by (symmetry; by apply startsWith_differs).
  replace (String.eqb ("ha://states/" ++ domain) "ha://config") with false
    by (symmetry; by apply startsWith_differs).
  replace (String.eqb ("ha://states/" ++ domain) "ha://integrations") with false
    by (symmetry; by apply startsWith_differs).
  replace (String.eqb ("ha://states/" ++ domain) "ha://anomalies") with false
    by (symmetry; by apply startsWith_differs).
  replace (String.eqb ("ha://states/" ++ domain) "ha://suggestions") with false
    by (symmetry; by apply startsWith_differs).
  unfold capture_word. rewrite strip_prefix_app, Hword.
  by destruct (String.eqb_spec domain "").
Qed.

End WrapFacts.

(** X17. ReadResource and GetPrompt never answer with an error result: a
    failure inside the handler, whatever it is, is thrown again with the
    prefix [Failed to read resource <uri>: ] or [Failed to get prompt
    <name>: ] before its message, and a success is handed on unchanged. *)
Theorem resource_and_prompt_errors_are_rethrown {H : Host} {R : Runtime}
    {E : Env} {T : Texts} (u name : string) (args : value) (w : World) :
  let read_entered :=
    snd (sendLog "debug" "mcp-server"
           (VObj [("action", VStr "read_resource"); ("uri", VStr u)]) w) in
  let prompt_entered :=
    snd (sendLog "info" "mcp-server"
           (VObj [("action", VStr "get_prompt"); ("prompt", VStr name)]) w) in
  fst (ReadResource u w)
  = match fst (read_resource u read_entered) with
    | inl e =>
        inl {| error_message :=
                 "Failed to read resource " ++ u ++ ": " ++ error_message e |}
    | inr contents => inr contents
    end
  /\ fst (GetPrompt name args w)
     = match fst (get_prompt name args prompt_entered) with
       | inl e =>
           inl {| error_message :=
                    "Failed to get prompt " ++ name ++ ": " ++ error_message e |}
       | inr prompt => inr prompt
       end.
Proof. split; [apply ReadResource_result|apply GetPrompt_result]. Qed.

(** X18. A URI that does not start with [ha://] names no resource:
    ReadResource sends no request for it and throws
    [Failed to read resource <uri>: Unknown resource: <uri>]. *)
Theorem ReadResource_unknown {H : Host} {R : Runtime} {E : Env}
    (u : string) (w : World) :
  Str.startsWith u "ha://" = false ->
  fst (ReadResource u w)
  = inl {| error_message :=
             "Failed to read resource " ++ u ++ ": Unknown resource: " ++ u |}
  /\ exists new, adds (ReadResource u) w new /\ requests_of new = [].
Proof.
  intros Hu. split.
  - by rewrite ReadResource_result, read_resource_unknown.
  - apply sends_nothing. unfold ReadResource.
    apply sound_bind; [apply sound_sendLog|]. intros _.
    apply sound_try_catch; [|intros e; sound_auto].
    intros w0.
    pose proof (sound_throw (A:=ResourceContents) (fun _ => False)
                  ("Unknown resource: " ++ u) w0) as Hthrow.
    unfold adds in *. by rewrite read_resource_unknown.
Qed.

Lemma ReadResource_unknown_witness :
  fst (ReadResource (H:=Sample.host) (R:=Sample.runtime) (E:=Sample.env)
         "file:///etc/passwd" Sample.boot)
  = inl {| error_message :=
             "Failed to read resource file:///etc/passwd: Unknown resource: file:///etc/passwd" |}.
Proof.
  apply (ReadResource_unknown (H:=Sample.host) (R:=Sample.runtime)
           (E:=Sample.env) "file:///etc/passwd" Sample.boot).
  reflexivity.
Defined.

(** X19. The resource [ha://states/{domain}], for a domain made of word
    characters other than [summary], lists exactly the states whose
    [entity_id] starts with the domain followed by a dot, in the order of
    [/states], each as its [entity_id], [state], [friendly_name] and
    [device_class]. *)
Theorem states_domain_resource {H : Host} {R : Runtime} {E : Env}
    (domain : string) (all : list EntityState) (w w' : World) :
  all_word_chars domain = true -> domain <> "" -> domain <> "summary" ->
  callHA_get "/states"
    (snd (sendLog "debug" "mcp-server"
            (VObj [("action", VStr "read_resource");
                   ("uri", VStr ("ha://states/" ++ domain))]) w))
  = (inr (PStates all), w') ->
  fst (ReadResource ("ha://states/" ++ domain) w)
  = inr {| rc_uri := "ha://states/" ++ domain;
           mimeType := "application/json";
           rc_text := VStr (JSON_pretty
                              (VArr (map simplified (filter_domain domain all))));
           rc_annotations := {| audience := ["assistant"]; priority := 0.7 |} |}.
Proof.
  intros Hword Hne Hsum Hcall.
  rewrite ReadResource_result, read_resource_states_domain by done.
  unfold list_domain, bind. by rewrite Hcall.
Qed.

Lemma states_domain_resource_witness :
  fst (ReadResource (H:=Sample.host) (R:=Sample.runtime) (E:=Sample.env)
         "ha://states/light" Sample.boot)
  = inr {| rc_uri := "ha://states/light";
           mimeType := "application/json";
           rc_text := VStr (JSON_pretty (Runtime:=Sample.runtime)
                              (VArr (map simplified
                                         (filter_domain "light" Sample.states))));
           rc_annotations := {| audience := ["assistant"]; priority := 0.7 |} |}.
Proof.
  apply (states_domain_resource (H:=Sample.host) (R:=Sample.runtime)
           (E:=Sample.env) "light" Sample.states Sample.boot
           (snd (callHA_get (H:=Sample.host) (R:=Sample.runtime) (E:=Sample.env)
                   "/states" Sample.boot)));
    [reflexivity|discriminate|discriminate|vm_compute; reflexivity].
Defined.

(** X20. GetPrompt sends no request, and it settles with a prompt exactly
    when the name is one of the six prompts and the argument that prompt
    requires ([entity_id] for [troubleshoot_entity], [goal] for
    [create_automation]) is present and truthy; otherwise it throws. *)
Theorem GetPrompt_answers {H : Host} {R : Runtime} {E : Env} {T : Texts}
    (name : string) (args : value) (w : World) :
  (exists new, adds (GetPrompt name args) w new /\ requests_of new = [])
  /\ ((exists prompt, fst (GetPrompt name args w) = inr prompt)
      <-> name ∈ ["troubleshoot_entity"; "create_automation"; "energy_audit";
                  "scene_builder"; "security_review"; "morning_routine"]
          /\ (name = "troubleshoot_entity" ->
              truthy (opt_member args "entity_id") = true)
          /\ (name = "create_automation" ->
              truthy (opt_member args "goal") = true)).
Proof.
  split; [apply sends_nothing, sound_GetPrompt|].
  rewrite GetPrompt_result. set (entered := snd (sendLog _ _ _ w)).
  unfold get_prompt.
  repeat (match goal with
          | |- context [String.eqb name ?s] =>
              destruct (String.eqb_spec name s) as [->|?]
          end;
          [cbv iota zeta;
           try match goal with
               | |- context [truthy ?v] => destruct (truthy v) eqn:?
               end; simpl;
           (split;
            [intros [prompt Hp];
             first [discriminate Hp|split; [repeat constructor|split; done]]
            |intros (_ & Hid & Hgoal);
             first [ specialize (Hid eq_refl); discriminate Hid
                   | specialize (Hgoal eq_refl); discriminate Hgoal
                   | by eexists ]])|]).
  simpl. split; [by intros [? ?]|]. intros [Hin _]. exfalso.
  repeat (apply elem_of_cons in Hin as [?|Hin]; [done|]).
  by apply elem_of_nil in Hin.
Qed.

(** X21. The tools ListTools advertises are the tools CallTool handles: a
    name has a case in the [switch] exactly when it is the name of an entry
    of [TOOLS]; for every other name the [default] case is taken. *)
Theorem advertised_tools_are_handled {H : Host} {R : Runtime} {E : Env}
    {T : Texts} (name : string) :
  (name ∈ TOOL_NAMES <-> is_Some (find_case name tool_cases))
  /\ (name ∉ TOOL_NAMES ->
      forall args, dispatch name args = throw ("Unknown tool: " ++ name)).
Proof.
  assert (Hnone : name ∉ TOOL_NAMES -> find_case name tool_cases = None).
  { intros Hnot. apply find_case_None. by rewrite tool_cases_names. }
  split; [split|].
  - intros Hin. unfold TOOL_NAMES in Hin.
    repeat (apply elem_of_cons in Hin as [->|Hin]; [by eexists|]).
    by apply elem_of_nil in Hin.
  - intros [handler Hcase].
    destruct (decide (name ∈ TOOL_NAMES)) as [|Hnot]; [done|].
    by rewrite (Hnone Hnot) in Hcase.
  - intros Hnot args. unfold dispatch. by rewrite (Hnone Hnot).
Qed.

(** ** The error log *)

Lemma filter_all {A} (f : A -> bool) (l : list A) :
  (forall x, x ∈ l -> f x = true) -> List.filter f l = l.
Proof.
  induction l as [|x l IH]; intros Hall; simpl; [done|].
  rewrite (Hall x) by by left. f_equal. apply IH. intros y Hy. apply Hall. by right.
Qed.

Section SliceFacts.
Context {H : Host} {R : Runtime} {E : Env}.

(** A number whose integer part is at least one is finite and positive. *)
Lemma positive_integer_part x n :
  ToIntegerOrInfinity x = Some n -> 1 <= n ->
  exists m e, Prim2SF x = S754_finite false m e /\ n = Z.shiftl (Z.pos m) e.
Proof.
  unfold ToIntegerOrInfinity. intros Hx Hn.
  destruct (Prim2SF x) as [s|s| |s m e]; simplify_eq; try lia.
  destruct s; simplify_eq.
  - pose proof (proj2 (Z.shiftl_nonneg (Z.pos m) e) ltac:(lia)). lia.
  - by exists m, e.
Qed.

Lemma truthy_positive x n :
  ToIntegerOrInfinity x = Some n -> 1 <= n -> truthy (VNum x) = true.
Proof.
  intros Hx Hn. destruct (positive_integer_part x n Hx Hn) as (m & e & Hsf & _).
  simpl. unfold is_nan. rewrite !FloatAxioms.eqb_spec, Hsf.
  change (Prim2SF 0) with (S754_zero false).
  unfold SFeqb, SFcompare. by rewrite Z.compare_refl, Pos.compare_cont_refl.
Qed.

(** [slice(-x)] starts [n] elements before the end, [n] being the integer
    part of [x]. *)
Lemma slice_from_last x n (len : nat) :
  ToIntegerOrInfinity x = Some n -> 1 <= n ->
  slice_from (- x)%float len = (len - Z.to_nat n)%nat.
Proof.
  intros Hx Hn. destruct (positive_integer_part x n Hx Hn) as (m & e & Hsf & ->).
  unfold slice_from, ToIntegerOrInfinity. rewrite FloatAxioms.opp_spec, Hsf. simpl.
  destruct (Z.ltb_spec (- Z.shiftl (Z.pos m) e) 0); lia.
Qed.

Lemma tool_get_error_log_run args p log x n w w' :
  callHA_get "/error_log" w = (inr p, w') ->
  payload_to_value p = VStr log ->
  value_or (opt_member args "lines") (VNum 100) = VNum x ->
  ToIntegerOrInfinity x = Some n -> 1 <= n ->
  tool_get_error_log args w
  = respond
      (VStr (Str.join Str.nl
               (drop (length (Str.split (ascii_of_nat 10) log) - Z.to_nat n)
                     (Str.split (ascii_of_nat 10) log))))
      ["assistant"] 0.8 w'.
Proof.
  intros Hcall Hlog Hlines Hx Hn. unfold tool_get_error_log.
  unfold bind at 1. rewrite Hcall, Hlog, Hlines.
  unfold bind, expect_string, to_number, ToNumber, ret.
  change (printable (VNum x)) with true. cbv iota beta.
  by rewrite (slice_from_last x n).
Qed.

End SliceFacts.

(** X22. With a number as its [lines] argument, of integer part [n] at
    least one, [get_error_log] answers with the last [n] lines of the log,
    joined as they were: the whole log when it has no more than [n]. *)
Theorem get_error_log_tail {H : Host} {R : Runtime} {E : Env}
    (args : value) (p : Payload) (log : string) (x : float) (n : Z)
    (w w' : World) :
  callHA_get "/error_log" w = (inr p, w') ->
  payload_to_value p = VStr log ->
  opt_member args "lines" = VNum x ->
  ToIntegerOrInfinity x = Some n -> 1 <= n ->
  let all := Str.split (ascii_of_nat 10) log in
  tool_get_error_log args w
  = respond (VStr (Str.join Str.nl (drop (length all - Z.to_nat n) all)))
            ["assistant"] 0.8 w'.
Proof.
  intros Hcall Hlog Hlines Hx Hn all.
  apply (tool_get_error_log_run args p log x n w w'); try done.
  unfold value_or. by rewrite Hlines, (truthy_positive x n).
Qed.

Lemma get_error_log_tail_witness :
  tool_get_error_log (H:=Sample.host) (R:=Sample.runtime) (E:=Sample.log_env)
    (VObj [("lines", VNum 2)]) Sample.boot
  = respond (VStr ("ERROR second" ++ Str.nl ++ "ERROR third")) ["assistant"] 0.8
      (snd (callHA_get (H:=Sample.host) (R:=Sample.runtime)
              (E:=Sample.log_env) "/error_log" Sample.boot)).
Proof.
  apply (get_error_log_tail (H:=Sample.host) (R:=Sample.runtime)
           (E:=Sample.log_env) (VObj [("lines", VNum 2)])
           (PText Sample.error_log) Sample.error_log 2%float 2 Sample.boot);
    [vm_compute; reflexivity|reflexivity|reflexivity|vm_compute; reflexivity|lia].
Defined.

(** X23. Without a truthy [lines] argument [get_error_log] answers with the
    last hundred lines of the log, whatever its length; a log of at most a
    hundred lines is answered whole, unchanged. *)
Theorem get_error_log_default {H : Host} {R : Runtime} {E : Env}
    (args : value) (p : Payload) (log : string) (w w' : World) :
  callHA_get "/error_log" w = (inr p, w') ->
  payload_to_value p = VStr log ->
  truthy (opt_member args "lines") = false ->
  let all := Str.split (ascii_of_nat 10) log in
  let answer := Str.join Str.nl (drop (length all - 100) all) in
  tool_get_error_log args w = respond (VStr answer) ["assistant"] 0.8 w'
  /\ ((length all <= 100)%nat -> answer = log).
Proof.
  intros Hcall Hlog Hlines all answer. split.
  - apply (tool_get_error_log_run args p log 100%float 100 w w'); try done.
    unfold value_or. by rewrite Hlines.
  - intros Hlen. subst answer.
    replace (length all - 100)%nat with 0%nat by lia. rewrite drop_0.
    apply join_split.
Qed.

Lemma get_error_log_default_witness :
  tool_get_error_log (H:=Sample.host) (R:=Sample.runtime) (E:=Sample.log_env)
    (VObj []) Sample.boot
  = respond (VStr Sample.error_log) ["assistant"] 0.8
      (snd (callHA_get (H:=Sample.host) (R:=Sample.runtime)
              (E:=Sample.log_env) "/error_log" Sample.boot)).
Proof.
  apply (get_error_log_default (H:=Sample.host) (R:=Sample.runtime)
           (E:=Sample.log_env) (VObj []) (PText Sample.error_log)
           Sample.error_log Sample.boot);
    [vm_compute; reflexivity|reflexivity|reflexivity].
Defined.

(** ** Queries with a blank term *)

Section BlankFacts.
Context {H : Host}.

Lemma includes_empty s : Str.includes s "" = true.
Proof. by destruct s. Qed.

Lemma term_score_bounds st term : 0 <= term_score st term <= 4.
Proof.
  unfold term_score.
  destruct (Str.includes (searchText st) term); [|lia].
  destruct (Str.includes (toLowerCase _) term), (Str.includes (entity_id st) term);
    lia.
Qed.

Lemma term_score_empty st : term_score st "" = 4.
Proof. unfold term_score. by rewrite !includes_empty. Qed.

Lemma fold_score_blank st terms acc :
  "" ∈ terms ->
  acc + 4 <= fold_left (fun score term => score + term_score st term) terms acc.
Proof.
  assert (Hge : forall terms acc,
             acc <= fold_left (fun score term => score + term_score st term)
                              terms acc).
  { clear. induction terms as [|t terms IH]; intros acc; simpl; [lia|].
    etrans; [|apply IH]. pose proof (term_score_bounds st t). lia. }
  revert acc. induction terms as [|t terms IH]; intros acc Hin; simpl.
  - by apply elem_of_nil in Hin.
  - apply elem_of_cons in Hin as [<-|Hin].
    + rewrite term_score_empty. apply Hge.
    + etrans; [|apply IH; done]. pose proof (term_score_bounds st t). lia.
Qed.

End BlankFacts.

(** X24. A query with a blank term matches everything. When the split of
    the query on white space yields an empty term (the query is empty, or
    starts or ends with white space), every entity scores at least four,
    none is filtered out, and [searchEntities] answers with twenty results,
    or with as many as there are entities. *)
Theorem blank_term_matches_everything {H : Host} (states : list EntityState)
    (query : string) :
  "" ∈ search_terms query ->
  (forall st, 4 <= score_of (search_terms query) st)
  /\ length (searchEntities states query) = Nat.min 20 (length states).
Proof.
  intros Hblank.
  assert (Hscore : forall st, 4 <= score_of (search_terms query) st).
  { intros st. unfold score_of.
    pose proof (fold_score_blank st (search_terms query) 0 Hblank). lia. }
  split; [done|].
  unfold searchEntities, search_ranked.
  rewrite length_map, length_take, Array_sort_perm.
  rewrite filter_all, length_map; [done|].
  intros [st sc] Hin. apply list_elem_of_fmap in Hin as (st' & [= -> ->] & _).
  simpl. apply Z.ltb_lt. specialize (Hscore st'). lia.
Qed.

Lemma blank_term_matches_everything_witness :
  length (searchEntities (H:=Sample.host) Sample.states "attic ") = 4%nat.
Proof.
  apply (blank_term_matches_everything (H:=Sample.host) Sample.states "attic ").
  vm_compute. right. left.
Defined.

(** ** The two deprecation marks of the syntax check *)

Section StatusFacts.
Context {H : Host} {R : Runtime} {E : Env}.

Lemma sendLog_run level lg d w :
  sendLog level lg d w = (inr tt, snd (sendLog level lg d w))
  /\ module_state (snd (sendLog level lg d w)) = module_state w.
Proof.
  unfold sendLog, bind, get_module. simpl. by destruct (shouldLog _ _).
Qed.

Lemma bind_run {A B} (m : M A) (k : A -> M B) w a w' :
  m w = (inr a, w') -> bind m k w = k a w'.
Proof. unfold bind. by intros ->. Qed.

Lemma filter_none_existsb {A} (f : A -> bool) (l : list A) :
  (length (List.filter f l) =? 0)%nat = negb (existsb f l).
Proof. induction l as [|x l IH]; simpl; [done|]. by destruct (f x). Qed.

(** On a string, from the table of the script, the check hands back the
    report and leaves the world as it is. *)
Lemma check_deprecations_run yaml integration_arg w :
  deprecation_table (module_state w) = DEPRECATION_PATTERNS ->
  check_deprecations (VStr yaml) integration_arg w
  = (inr (fst (checkConfigForDeprecations DEPRECATION_PATTERNS (VStr yaml)
                 integration_arg)), w).
Proof.
  intros Htable. unfold check_deprecations, bind, get_module.
  change (printable (VStr yaml)) with true. cbv iota beta.
  rewrite andb_false_r, Htable.
  assert (Hsame : snd (checkConfigForDeprecations DEPRECATION_PATTERNS
                         (VStr yaml) integration_arg) = DEPRECATION_PATTERNS)
    by apply check_loop_table, DEPRECATION_PATTERNS_flags.
  rewrite (surjective_pairing
             (checkConfigForDeprecations DEPRECATION_PATTERNS (VStr yaml)
                integration_arg)).
  cbv iota beta. unfold put_module, ret. cbv iota beta.
  rewrite Hsame, <- Htable.
  by destruct w as [[level table] tk tr].
Qed.

(** The URL of the [Docs] line, for an integration that converts. *)
Lemma docs_url_run integration w :
  printable integration = true ->
  (if truthy integration then
     name <- to_string integration;;
     ret (HA_INTEGRATIONS_URL ++ "/" ++ name ++ "/")
   else ret "https://www.home-assistant.io/docs/configuration/") w
  = (inr (if truthy integration
          then HA_INTEGRATIONS_URL ++ "/" ++ ToString integration ++ "/"
          else "https://www.home-assistant.io/docs/configuration/"), w).
Proof.
  intros Hi. destruct (truthy integration); [|done].
  unfold bind. by rewrite to_string_printable.
Qed.

End StatusFacts.

(** X25. The answer of [check_config_syntax] never contradicts itself. For
    a string [yaml_config] and an [integration] argument that converts to a
    string, its [Status] line reads [Issues Found] exactly when its
    [Deprecated Syntax] line reads [Yes], that is, when the report of
    [checkConfigForDeprecations] is flagged; the warnings the handler adds
    of its own (tabs, no top-level key) change neither. *)
Theorem check_config_syntax_status {H : Host} {E : Env}
    (args : value) (yaml : string) (w : World) :
  deprecation_table (module_state w) = DEPRECATION_PATTERNS ->
  defined args = true ->
  prop args "yaml_config" = VStr yaml ->
  printable (prop args "integration") = true ->
  let integration := prop args "integration" in
  let flagged :=
    deprecated
      (fst (checkConfigForDeprecations DEPRECATION_PATTERNS (VStr yaml)
              (match integration with
               | VUndefined => VNull
               | v => v
               end))) in
  exists tail,
    fst (tool_check_config_syntax args w)
    = inr (makeCompatibleResponse
             [createTextContent
                (VStr ("# Configuration Syntax Check" ++ Str.nl ++ Str.nl
                       ++ "**Status:** "
                       ++ (if flagged then "Issues Found" else "OK") ++ Str.nl
                       ++ "**Deprecated Syntax:** "
                       ++ (if flagged then "Yes" else "No") ++ Str.nl ++ tail))
                ["assistant"] 0.9] false).
Proof.
  intros Htable Hargs Hyaml Hprintable integration flagged.
  subst flagged integration. eexists.
  assert (Hy : destructure args "yaml_config" w = (inr (VStr yaml), w))
    by (rewrite <- Hyaml; by destruct args).
  assert (Hi : destructure args "integration" w
               = (inr (prop args "integration"), w)) by (by destruct args).
  destruct (sendLog_run "info" "docs"
              (VObj [("action", VStr "check_config_syntax");
                     ("integration", prop args "integration")]) w)
    as [Hlog Hstate].
  pose proof (proj2 (report_consistent (VStr yaml)
                       (match prop args "integration" with
                        | VUndefined => VNull
                        | _ => prop args "integration"
                        end))) as Hflag.
  unfold tool_check_config_syntax.
  rewrite (bind_run _ _ _ _ _ Hy). cbv beta.
  rewrite (bind_run _ _ _ _ _ Hi). cbv beta.
  rewrite (bind_run _ _ _ _ _ Hlog). cbv beta.
  rewrite (bind_run _ _ _ _ _
             (check_deprecations_run yaml _ _ ltac:(by rewrite Hstate))).
  cbv beta.
  rewrite (bind_run (includes_tab (VStr yaml)) _ _ (Str.includes yaml tab) _ eq_refl).
  cbv beta.
  rewrite (bind_run (to_string (VStr yaml)) _ _ yaml _ eq_refl). cbv beta zeta.
  rewrite (bind_run _ _ _ _ _ (docs_url_run _ _ Hprintable)). cbv beta zeta.
  unfold respond, ret.
  match goal with |- fst (?a, _) = ?rhs => change (a = rhs) end.
  match goal with
  | |- inr (makeCompatibleResponse [createTextContent (VStr ?a) _ _] _)
       = inr (makeCompatibleResponse [createTextContent (VStr ?b) _ _] _) =>
      cut (a = b); [by intros ->|]
  end.
  do 4 (apply (f_equal (String.append _))).
  rewrite List.filter_app, length_app.
  replace (length (List.filter (fun w => Str.includes w "DEPRECATED")
                               (_ ++ _)%list)) with 0%nat
    by (by destruct (Str.includes yaml tab), (test_literal _ _)).
  rewrite Nat.add_0_r, filter_none_existsb, <- Hflag.
  match goal with
  | |- (if negb ?d then ?a else ?b) ++ _ = _ =>
      replace (if negb d then a else b) with (if d then b else a)
        by (by destruct d)
  end.
  do 5 (apply (f_equal (String.append _))). exact eq_refl.
Qed.

Lemma check_config_syntax_status_witness :
  exists tail,
    fst (tool_check_config_syntax (H:=Sample.host) (E:=Sample.env)
           (VObj [("yaml_config", VStr "entity_namespace: x")]) Sample.boot)
    = inr (makeCompatibleResponse
             [createTextContent
                (VStr ("# Configuration Syntax Check" ++ Str.nl ++ Str.nl
                       ++ "**Status:** Issues Found" ++ Str.nl
                       ++ "**Deprecated Syntax:** Yes" ++ Str.nl ++ tail))
                ["assistant"] 0.9] false).
Proof.
  apply (check_config_syntax_status (H:=Sample.host) (E:=Sample.env)
           (VObj [("yaml_config", VStr "entity_namespace: x")])
           "entity_namespace: x" Sample.boot); reflexivity.
Defined.
